(** * Video pupilometry (mrgaze / geetee): a shallow embedding

    The Python sources embedded here are
    - [src/mrgaze/pupilometry.py]  (module [mrgaze] below), and
    - [src/geetee/pupilometry.py]  (module [geetee] below, the earlier
      prototype of the same engine).

    Conventions of the embedding:
    - a [float] is an IEEE-754 binary64 value (Rocq's primitive floats), so
      [np.nan] is a real not-a-number and arithmetic rounds as the code's;
    - a grayscale image is a row-major [list (list Z)] of [uint8] pixels;
    - Python exceptions are values of [exn]; a function that can raise
      returns a [result];
    - code with side effects (files, arrays mutated in place, [print])
      runs in the state-and-exception monad [M] over a [world];
    - OpenCV, SciPy and the modules of the package that are not part of the
      sources under study are the fields of the interface [Libs]. *)

From Stdlib Require Import ZArith List Lia Bool Ascii String Floats Uint63 Sorted.
From stdpp Require Import base gmap strings list.

Open Scope Z_scope.

(** ** Python run time *)

Inductive exn : Type :=
| UnboundLocalError (name : string)
| IndexError
| ValueError (msg : string)
| OverflowError
| IOError
| AttributeError.

Inductive result (A : Type) : Type :=
| Ok (a : A)
| Raise (e : exn).
Arguments Ok {A} a.
Arguments Raise {A} e.

#[global] Instance result_ret : MRet result := fun _ a => Ok a.
#[global] Instance result_bind : MBind result := fun _ _ f r =>
  match r with
  | Ok a => f a
  | Raise e => Raise e
  end.

Definition is_ok {A} (r : result A) : bool :=
  match r with Ok _ => true | Raise _ => false end.

(** ** Numbers *)

Definition np_nan : float := PrimFloat.nan.

(** [np.pi], the double nearest to pi. *)
Definition np_pi : float := 0x1.921fb54442d18p+1%float.

(** Conversion of a Python / numpy integer to a double (exact below 2^53). *)
Definition Z2float (z : Z) : float :=
  if z <? 0 then PrimFloat.opp (PrimFloat.of_uint63 (Uint63.of_Z (- z)))
  else PrimFloat.of_uint63 (Uint63.of_Z z).

(** Wrap-around of numpy's [int32] arithmetic (the dtype of the rectangles
    OpenCV returns). *)
Definition int32 (z : Z) : Z := (z + 2 ^ 31) mod 2 ^ 32 - 2 ^ 31.

(** [x ** 2] on a Python float: the product [x * x], rounded.  Python
    raises [OverflowError] when the square of a finite [x] is out of range;
    the square of an infinity is infinity and that of NaN is NaN. *)
Definition float_sq (x : float) : result float :=
  let y := PrimFloat.mul x x in
  if PrimFloat.is_infinity y && negb (PrimFloat.is_infinity x)
  then Raise OverflowError
  else Ok y.

(** [int(x)] on a double: the integer part, towards zero; Python raises
    [ValueError] on NaN and [OverflowError] on an infinity. *)
Definition float_int (x : float) : result Z :=
  match Prim2SF x with
  | S754_zero _ => Ok 0
  | S754_finite s m e =>
      let n := if s then Z.neg m else Z.pos m in
      if 0 <=? e then Ok (n * 2 ^ e) else Ok (Z.quot n (2 ^ (- e)))
  | S754_infinity _ => Raise OverflowError
  | S754_nan => Raise (ValueError "cannot convert float NaN to integer")
  end.

(** A Python number that is either an integer or a double: the fields of
    [roi_rect] are [int32] for a detected pupil and [np.nan] for a blink. *)
Inductive num : Type :=
| Int (z : Z)
| Float (f : float).

Definition num_is_nan (n : num) : bool :=
  match n with
  | Int _ => false
  | Float f => PrimFloat.is_nan f
  end.

(** ** numpy on lists *)

Definition image : Type := list (list Z).

(** Bounds of a Python slice [l[a:b]] on a sequence of length [len]. *)
Definition slice_bound (i len : Z) : Z :=
  if i <? 0 then Z.max 0 (i + len) else Z.min i len.

Definition slice {A} (l : list A) (a b : Z) : list A :=
  let len := Z.of_nat (length l) in
  let a' := slice_bound a len in
  let b' := slice_bound b len in
  firstn (Z.to_nat (b' - a')) (skipn (Z.to_nat a') l).

(** [img[r0:r1, c0:c1]] *)
Definition slice2 {A} (img : list (list A)) (r0 r1 c0 c1 : Z) : list (list A) :=
  map (fun row => slice row c0 c1) (slice img r0 r1).

(** [a.argmax()] on a non-empty 1-D array of doubles: the first index of the
    maximum; numpy keeps the running maximum [mp] and replaces it when
    [not (a[i] <= mp)], and a NaN stops the scan. *)
Fixpoint argmax_from (mp : float) (best i : nat) (l : list float) : nat :=
  match l with
  | [] => best
  | x :: l' =>
      if PrimFloat.is_nan mp then best
      else if PrimFloat.leb x mp then argmax_from mp best (S i) l'
      else argmax_from x i (S i) l'
  end.

Definition argmax (l : list float) : nat :=
  match l with
  | [] => O
  | x :: l' => argmax_from x O 1%nat l'
  end.

(** [a.argmin()], symmetrically. *)
Fixpoint argmin_from (mp : float) (best i : nat) (l : list float) : nat :=
  match l with
  | [] => best
  | x :: l' =>
      if PrimFloat.is_nan mp then best
      else if PrimFloat.leb mp x then argmin_from mp best (S i) l'
      else argmin_from x i (S i) l'
  end.

Definition argmin (l : list float) : nat :=
  match l with
  | [] => O
  | x :: l' => argmin_from x O 1%nat l'
  end.

(** [a.flatten()] and [np.reshape(a, shape)] for a 2-D shape. *)
Definition flatten {A} (img : list (list A)) : list A := concat img.

Definition shape {A} (img : list (list A)) : nat * nat :=
  (length img, match img with [] => O | row :: _ => length row end).

Fixpoint reshape {A} (l : list A) (rows cols : nat) : list (list A) :=
  match rows with
  | O => []
  | S rows' => firstn cols l :: reshape (skipn cols l) rows' cols
  end.

(** [np.nonzero(a)] on a 2-D array: the pair of index arrays (rows, columns)
    of the non-zero entries, in row-major order. *)
Fixpoint nonzero_row (r : Z) (c : Z) (row : list Z) : list (Z * Z) :=
  match row with
  | [] => []
  | v :: row' =>
      if v =? 0 then nonzero_row r (c + 1) row'
      else (r, c) :: nonzero_row r (c + 1) row'
  end.

Fixpoint nonzero_from (r : Z) (img : image) : list (Z * Z) :=
  match img with
  | [] => []
  | row :: img' => nonzero_row r 0 row ++ nonzero_from (r + 1) img'
  end.

Definition np_nonzero (img : image) : list Z * list Z :=
  let rc := nonzero_from 0 img in (map fst rc, map snd rc).

(** [np.transpose] of the pair of index arrays: an N x 2 array whose rows
    are [[row; col]]. *)
Fixpoint np_transpose2 (rows cols : list Z) : list (list Z) :=
  match rows, cols with
  | r :: rows', c :: cols' => [r; c] :: np_transpose2 rows' cols'
  | _, _ => []
  end.

(** Fancy indexing of columns. [a[:, idx]] builds a new array (a copy, never
    a view); [a[:, idx] = rhs] stores column [j] of [rhs] in column [idx[j]]
    of [a], one index after the other. *)
Definition take_cols (a : list (list Z)) (idx : list nat) : list (list Z) :=
  map (fun row => map (fun j => default 0 (row !! j)) idx) a.

Fixpoint assign_row (row : list Z) (idx : list nat) (vals : list Z) : list Z :=
  match idx, vals with
  | j :: idx', v :: vals' => assign_row (<[j := v]> row) idx' vals'
  | _, _ => row
  end.

Fixpoint assign_cols (a : list (list Z)) (idx : list nat) (rhs : list (list Z))
  : list (list Z) :=
  match a, rhs with
  | row :: a', vals :: rhs' => assign_row row idx vals :: assign_cols a' idx rhs'
  | _, _ => a
  end.

(** [range(n)] *)
Definition range (n : Z) : list Z := map Z.of_nat (seq 0 (Z.to_nat n)).

(** [a.max()] on a non-empty integer-valued array. *)
Definition np_max (l : list Z) : result Z :=
  match l with
  | [] => Raise (ValueError "zero-size array to reduction operation maximum")
  | x :: l' => Ok (fold_left Z.max l' x)
  end.

(** [np.where(a == m)[0]]: the indices at which [a] equals [m], ascending. *)
Fixpoint where_eq_from (i : Z) (a : list Z) (m : Z) : list Z :=
  match a with
  | [] => []
  | x :: a' =>
      if x =? m then i :: where_eq_from (i + 1) a' m
      else where_eq_from (i + 1) a' m
  end.

Definition np_where_eq (a : list Z) (m : Z) : list Z := where_eq_from 0 a m.

(** [l[0]] *)
Definition getitem0 {A} (l : list A) : result A :=
  match l with
  | [] => Raise IndexError
  | x :: _ => Ok x
  end.

(** [scipy.ndimage.sum(input, labels, index)]: for every [i] of [index] the
    sum of the pixels of [input] whose label is [i].  The sums are integers
    far below 2^53, so the doubles SciPy returns are kept as exact
    integers. *)
Definition ndi_sum (input labels : image) (index : list Z) : list Z :=
  map (fun i =>
         fold_right Z.add 0
           (zip_with (fun v l => if l =? i then v else 0)
                     (flatten input) (flatten labels)))
      index.

(** [np.uint8(a == v)] *)
Definition eq_mask (a : image) (v : Z) : image :=
  map (map (fun x => if x =? v then 1 else 0)) a.

(** ** Files, arrays and the world *)

(** One comma-separated field of a text line, kept symbolic: the text
    ['%0.<digits>f' % x], the text ['%d' % n], or the empty text that
    follows a trailing comma. *)
Inductive field : Type :=
| FmtF (digits : nat) (x : float)
| FmtD (n : Z)
| Blank.

Definition csv : Type := list (list field).

(** A file: a series in CSV text, or a video given by its frame rate, its
    frame count and the preprocessed frames [media.LoadVideoFrame] delivers
    (each with its artifact power). *)
Inductive file : Type :=
| Csv (lines : csv)
| Video (fps nf : float) (frames : list (image * float)).

(** A numpy array of doubles of one or two dimensions. *)
Inductive ndarray : Type :=
| A1 (v : list float)
| A2 (rows : list (list float)).

Record world : Type := World {
  files : gmap string file;       (* the file system *)
  arrays : gmap nat ndarray;      (* numpy arrays, by address *)
  next_array : nat;               (* the next free address *)
  stdout : list string;           (* what [print] wrote *)
  keys : list Z                   (* pending answers of [cv2.waitKey] *)
}.

(** State and exceptions: the effects before a [Raise] stay. *)
Definition M (A : Type) : Type := world -> result A * world.

#[global] Instance M_ret : MRet M := fun _ a w => (Ok a, w).
#[global] Instance M_bind : MBind M := fun _ _ f m w =>
  match m w with
  | (Ok a, w') => f a w'
  | (Raise e, w') => (Raise e, w')
  end.

Definition lift {A} (r : result A) : M A := fun w => (r, w).
Definition get_world : M world := fun w => (Ok w, w).
Definition put_world (w : world) : M unit := fun _ => (Ok tt, w).

Definition print (s : string) : M unit := fun w =>
  (Ok tt, World (files w) (arrays w) (next_array w) (stdout w ++ [s]) (keys w)).

Definition set_files (fs : gmap string file) : M unit := fun w =>
  (Ok tt, World fs (arrays w) (next_array w) (stdout w) (keys w)).

(** [os.path.isfile] and [os.path.join] *)
Definition isfile (path : string) : M bool := fun w =>
  (Ok (bool_decide (is_Some (files w !! path))), w).

Definition is_absolute (name : string) : bool :=
  match name with
  | String c _ => Ascii.eqb c "/"
  | EmptyString => false
  end.

Definition path_join (dir name : string) : string :=
  if is_absolute name then name
  else if bool_decide (dir = "") then name
  else if String.eqb (String.substring (String.length dir - 1)%nat 1%nat dir) "/"
       then dir +:+ name
       else dir +:+ "/" +:+ name.

(** Arrays in the store. *)
Definition new_array (a : ndarray) : M nat := fun w =>
  (Ok (next_array w),
   World (files w) (<[next_array w := a]> (arrays w)) (S (next_array w))
         (stdout w) (keys w)).

Definition read_array (p : nat) : M ndarray := fun w =>
  match arrays w !! p with
  | Some a => (Ok a, w)
  | None => (Raise AttributeError, w)
  end.

Definition write_array (p : nat) (a : ndarray) : M unit := fun w =>
  (Ok tt, World (files w) (<[p := a]> (arrays w)) (next_array w) (stdout w) (keys w)).

(** [p.copy()] *)
Definition np_copy (p : nat) : M nat := a ← read_array p; new_array a.

(** [p[i, j]] *)
Definition getitem2 (p : nat) (i j : nat) : M float :=
  a ← read_array p;
  match a with
  | A1 _ => lift (Raise IndexError)
  | A2 rows =>
      match rows !! i with
      | None => lift (Raise IndexError)
      | Some row =>
          match row !! j with
          | None => lift (Raise IndexError)
          | Some x => mret x
          end
      end
  end.

(** The column [j] of a table; [None] when a row is too short. *)
Definition column (rows : list (list float)) (j : nat) : option (list float) :=
  mapM (fun row : list float => row !! j) rows.

(** [p[:, j]] (read) *)
Definition getcol (p : nat) (j : nat) : M (list float) :=
  a ← read_array p;
  match a with
  | A1 _ => lift (Raise IndexError)
  | A2 rows =>
      match column rows j with
      | None => lift (Raise IndexError)
      | Some c => mret c
      end
  end.

(** The table [rows] with [c] as its column [j]. *)
Definition set_column (rows : list (list float)) (j : nat) (c : list float)
  : list (list float) :=
  zip_with (fun row x => <[j := x]> row) rows c.

(** [p[:, j] = c]: in place; the shapes must agree. *)
Definition setcol (p : nat) (j : nat) (c : list float) : M unit :=
  a ← read_array p;
  match a with
  | A1 _ => lift (Raise IndexError)
  | A2 rows =>
      match column rows j with
      | None => lift (Raise IndexError)
      | Some _ =>
          if bool_decide (length c = length rows)
          then write_array p (A2 (set_column rows j c))
          else lift (Raise (ValueError "could not broadcast input array"))
      end
  end.

(** ** Configuration and external libraries *)

(** The options the code reads from the [ConfigParser] object, by section
    and option name. *)
Record config : Type := Config {
  OUTPUT_verbose : bool;
  OUTPUT_graphics : bool;
  OUTPUT_overwrite : bool;
  ARTIFACTS_motioncorr : bool;
  VIDEO_inputextension : string;
  VIDEO_outputextension : string;
  LBP_minneighbors : Z;
  LBP_scalefactor : float;
  PUPILSEG_method : string;
  PUPILSEG_percmin : float;
  PUPILSEG_percmax : float
}.

(** A detector rectangle [(x, y, w, h)] of [int32]. *)
Definition rect : Type := (Z * Z * Z * Z)%type.

(** An ellipse [((x0, y0), (b, a), phi)]. *)
Definition ellipse : Type := ((float * float) * (float * float) * float)%type.

(** [roi_rect = (x0, y0), (x1, y1)] *)
Definition roi_rect : Type := ((num * num) * (num * num))%type.

Inductive morph_op : Type := MORPH_OPEN | MORPH_DILATE.

(** What the code calls and does not define: OpenCV ([cv2_]), numpy
    ([np_]), SciPy ([scipy_]), scikit-image ([skimage_]) and the package's
    own modules [improc], [fitellipse], [moco] that are outside the sources
    under study. *)
Class Libs : Type := {
  (* cascade.detectMultiScale(frame, minNeighbors, scaleFactor);
     the geetee engine leaves scaleFactor to its default *)
  cascade_detectMultiScale : image -> Z -> option float -> list rect;
  cascade_empty : bool;
  (* cv2.threshold(src, thresh, maxval, THRESH_BINARY_INV | THRESH_OTSU) *)
  cv2_threshold_binary_inv_otsu : image -> Z -> Z -> float * image;
  (* cv2.getStructuringElement(cv2.MORPH_ELLIPSE, (kx, ky)) *)
  cv2_getStructuringElement_ellipse : Z -> Z -> image;
  cv2_morphologyEx : image -> morph_op -> image -> image;
  (* cv2.inpaint(src, mask, radius, cv2.INPAINT_TELEA) *)
  cv2_inpaint_telea : image -> image -> Z -> image;
  cv2_Canny : image -> Z -> Z -> image;
  np_percentile : image -> float -> float;
  scipy_whiten : list Z -> list float;
  scipy_kmeans : list float -> Z -> list float * float;
  scipy_vq : list float -> list float -> list Z * list float;
  (* scipy.ndimage.measurements.label *)
  scipy_label : image -> image * Z;
  scipy_gaussian_filter1d : list float -> float -> list float;
  (* the element of rank [order] of a window, as scipy's order filter
     selects it *)
  scipy_select : nat -> list float -> float;
  skimage_rescale_intensity : image -> float * float -> image;
  improc_RobustRescale : image -> float * float -> image;
  fitellipse_FitEllipse_RANSAC : list (list Z) -> image -> ellipse;
  moco_PseudoGlint : image -> float * float;
  (* the double numpy reads back from the text ['%0.<digits>f' % x] *)
  strtod_fmt : nat -> float -> float
}.

(** The contract of [scipy.ndimage.label] that largest-blob selection rests
    on, as a check on one of its results: the label image has the shape of
    [blobs], the background (pixel 0) and only the background has label 0,
    and the labels in use are exactly 1 .. [n]. *)
Definition same_shape (a b : image) : bool :=
  bool_decide (map (@length Z) a = map (@length Z) b).

Definition label_ok (blobs : image) (res : image * Z) : bool :=
  let '(labels, n) := res in
  same_shape blobs labels
  && (0 <=? n)
  && forallb (fun '(v, l) => (0 <=? l) && (l <=? n) && Bool.eqb (v =? 0) (l =? 0))
             (zip (flatten blobs) (flatten labels))
  && forallb (fun i => existsb (fun l => l =? i + 1) (flatten labels)) (range n).

(** The "no pupil" values: [((np.nan, np.nan), (np.nan, np.nan), np.nan)]
    and [(np.nan, np.nan), (np.nan, np.nan)]. *)
Definition nan_ellipse : ellipse := ((np_nan, np_nan), (np_nan, np_nan), np_nan).
Definition nan_rect : roi_rect :=
  ((Float np_nan, Float np_nan), (Float np_nan, Float np_nan)).

(** What [OverlayPupil] hands to the drawing calls of OpenCV: the end points
    [(a0, a1)] and [(b0, b1)] of the cross hair, the corners of the ROI and
    the centre of the pseudo-glint marker. *)
Record overlay : Type := Overlay {
  cross_a : (Z * Z) * (Z * Z);
  cross_b : (Z * Z) * (Z * Z);
  roi_corners : roi_rect;
  glint_centre : Z * Z
}.

(** [stream.write(text)] on the stream opened on the file [pupil_out]. *)
Definition stream_write (pupil_out : string) (line : list field) : M unit :=
  w ← get_world;
  match files w !! pupil_out with
  | Some (Csv lines) => set_files (<[pupil_out := Csv (lines ++ [line])]> (files w))
  | _ => lift (Raise (ValueError "I/O operation on closed file"))
  end.

(** ** src/mrgaze/pupilometry.py *)

Module mrgaze.
Section WithLibs.
Context {L : Libs}.

(** [RemoveGlint(roi, plim=95, k=5)] *)
Definition RemoveGlint (roi : image) (plim : float) (k : Z) : image :=
  let imax := np_percentile roi plim in
  let mask := map (map (fun v => if PrimFloat.leb imax (Z2float v) then 1 else 0)) roi in
  let kernel := cv2_getStructuringElement_ellipse k k in
  let mask := cv2_morphologyEx mask MORPH_DILATE kernel in
  let roi_noglint := cv2_inpaint_telea roi mask k in
  roi_noglint.

(** The value of [blobs] after the [if method == 'otsu' / elif method ==
    'kmeans'] statement: [None] when neither branch assigned it. *)
Definition binarize (roi : image) (method : string) : option image :=
  if String.eqb method "otsu" then
    let '(thresh, blobs) := cv2_threshold_binary_inv_otsu roi 128 255 in
    Some blobs
  else if String.eqb method "kmeans" then
    let K := 4 in
    let data := scipy_whiten (flatten roi) in
    let '(centroids, _) := scipy_kmeans data K in
    let pupil_idx := Z.of_nat (argmin centroids) in
    let '(idx, _) := scipy_vq data centroids in
    let idx := reshape idx (fst (shape roi)) (snd (shape roi)) in
    let blobs := eq_mask idx pupil_idx in
    Some blobs
  else None.

(** [SegmentPupil(roi, cfg)] *)
Definition SegmentPupil (roi : image) (cfg : config) : result image :=
  let method := PUPILSEG_method cfg in
  let perclims := (PUPILSEG_percmin cfg, PUPILSEG_percmax cfg) in
  let roi := RemoveGlint roi 95 5 in
  let roi := improc_RobustRescale roi perclims in
  match binarize roi method with
  | None => Raise (UnboundLocalError "blobs")
  | Some blobs =>
      let kernel := cv2_getStructuringElement_ellipse 5 5 in
      let blobs := cv2_morphologyEx blobs MORPH_OPEN kernel in
      let '(labels, n_labels) := scipy_label blobs in
      let areas := ndi_sum blobs labels (range (n_labels + 1)) in
      areas_max ← np_max areas;
      pupil_label ← getitem0 (np_where_eq areas areas_max);
      let pupil_bw := eq_mask labels pupil_label in
      Ok pupil_bw
  end.

(** The array [pnts] that [FitPupil] hands to the fitter. *)
Definition FitPupil_pnts (bw : image) : list (list Z) :=
  let roi_edges := cv2_Canny bw 0 1 in
  let '(rows, cols) := np_nonzero roi_edges in
  let pnts := np_transpose2 rows cols in
  (* pnts[:,[0,1]] = pnts[:,[1,0]] *)
  assign_cols pnts [0; 1]%nat (take_cols pnts [1; 0]%nat).

(** [FitPupil(bw, roi)] *)
Definition FitPupil (bw roi : image) : ellipse :=
  let pnts := FitPupil_pnts bw in
  let ellipse := fitellipse_FitEllipse_RANSAC pnts roi in
  ellipse.

(** [OverlayPupil(frame_rgb, ellipse, roi_rect, pglint)].  The drawing on
    [frame_rgb] is OpenCV's; the result here is what the function computes
    for it, and the conversions [int(...)] raise as Python's do. *)
Definition OverlayPupil (ellipse : ellipse) (roi_rect : roi_rect)
    (pglint : float * float) : result overlay :=
  let '((x0, y0), (a, b), phi) := ellipse in
  let r := PrimFloat.div (PrimFloat.add a b) 20 in
  a0x ← float_int (PrimFloat.add x0 r); a0y ← float_int y0;
  a1x ← float_int (PrimFloat.sub x0 r); a1y ← float_int y0;
  b0x ← float_int x0; b0y ← float_int (PrimFloat.add y0 r);
  b1x ← float_int x0; b1y ← float_int (PrimFloat.sub y0 r);
  px ← float_int (fst pglint); py ← float_int (snd pglint);
  Ok (Overlay ((a0x, a0y), (a1x, a1y)) ((b0x, b0y), (b1x, b1y)) roi_rect (px, py)).

(** [sizes = np.sqrt(pupils[:,2] * pupils[:,3])] *)
Definition sizes (pupils : list rect) : list float :=
  map (fun '(x, y, w, h) => PrimFloat.sqrt (Z2float (int32 (w * h)))) pupils.

(** [PupilometryEngine(frame, cascade, cfg)] *)
Definition PupilometryEngine (frame : image) (cfg : config)
  : result (ellipse * roi_rect * bool) :=
  let min_neighbors := LBP_minneighbors cfg in
  let scale_factor := LBP_scalefactor cfg in
  let pupils := cascade_detectMultiScale frame min_neighbors (Some scale_factor) in
  let n_pupils := length pupils in
  if (0 <? n_pupils)%nat then
    let blink := false in
    let best_pupil := argmax (sizes pupils) in
    match pupils !! best_pupil with
    | None => Raise IndexError
    | Some (x, y, w, h) =>
        let '(x0, x1, y0, y1) := (x, int32 (x + w), y, int32 (y + h)) in
        let roi_rect := ((Int x0, Int y0), (Int x1, Int y1)) in
        let pupil_roi := slice2 frame y0 y1 x0 x1 in
        pupil_bw ← SegmentPupil pupil_roi cfg;
        let el_roi := FitPupil pupil_bw pupil_roi in
        let '(c, axes, phi) := el_roi in
        let el := ((PrimFloat.add (fst c) (Z2float x0),
                    PrimFloat.add (snd c) (Z2float y0)), axes, phi) in
        Ok (el, roi_rect, blink)
    end
  else
    let blink := true in
    let el := nan_ellipse in
    let roi_rect := nan_rect in
    Ok (el, roi_rect, blink).

(** [PupilArea(ellipse)] *)
Definition PupilArea (ellipse : ellipse) : result float :=
  let '((x0, y0), (b, a), phi_b_deg) := ellipse in
  a2 ← float_sq a;
  Ok (PrimFloat.mul np_pi a2).

(** [WritePupilometry(pupil_out, t, ellipse, blink, art_power, pglint)] *)
Definition WritePupilometry (pupil_out : string) (t : float) (ellipse : ellipse)
    (blink : bool) (art_power : float) (pglint : float * float) : M float :=
  let '((x0, y0), (bb, aa), phi_b_deg) := ellipse in
  area ← lift (PupilArea ellipse);
  let '(px, py) := pglint in
  stream_write pupil_out
    [FmtF 3 t; FmtF 1 area; FmtF 1 x0; FmtF 1 y0; FmtD (Z.b2z blink);
     FmtF 3 art_power; FmtF 3 px; FmtF 3 py; Blank];;
  mret area.

(** What [np.genfromtxt] makes of one field. *)
Definition parse_field (f : field) : float :=
  match f with
  | FmtF digits x => strtod_fmt digits x
  | FmtD n => Z2float n
  | Blank => np_nan
  end.

(** [np.genfromtxt(path, delimiter=',')]: a 2-D array of the rows; a single
    line gives a 1-D array, and so does an empty file (with a warning; numpy
    before 1.9 raises [IOError] there instead). *)
Definition genfromtxt (path : string) : M nat :=
  w ← get_world;
  match files w !! path with
  | Some (Csv lines) =>
      let rows := map (map parse_field) lines in
      match rows with
      | [] => new_array (A1 [])
      | [row] => new_array (A1 row)
      | row :: _ =>
          if forallb (fun r : list float => (length r =? length row)%nat) rows
          then new_array (A2 rows)
          else lift (Raise (ValueError "Some errors were detected"))
      end
  | Some (Video _ _ _) => lift (Raise (ValueError "Some errors were detected"))
  | None => lift (Raise IOError)
  end.

(** [ReadPupilometry(pupils_csv)] *)
Definition ReadPupilometry (pupils_csv : string) : M nat :=
  genfromtxt pupils_csv.

(** [np.savetxt(path, a, fmt='%.<digits>f', delimiter=',')] *)
Definition savetxt (path : string) (p : nat) (digits : nat) : M unit :=
  a ← read_array p;
  let lines :=
    match a with
    | A1 v => map (fun x => [FmtF digits x]) v
    | A2 rows => map (map (FmtF digits)) rows
    end in
  w ← get_world;
  set_files (<[path := Csv lines]> (files w)).

(** The least integer not below a double. *)
Definition float_ceil (x : float) : result Z :=
  match Prim2SF x with
  | S754_zero _ => Ok 0
  | S754_finite s m e =>
      let n := if s then Z.neg m else Z.pos m in
      if 0 <=? e then Ok (n * 2 ^ e) else Ok (- ((- n) / 2 ^ (- e)))
  | S754_infinity _ => Raise OverflowError
  | S754_nan => Raise (ValueError "cannot convert float NaN to integer")
  end.

(** Modelled from the spec: [utils._forceodd], of the module
    [mrgaze/utils.py], which is not among the sources.  The spec has the
    kernel widths "rounded up to the nearest odd window length" and the
    claim has them "forced to an odd integer": the least odd integer that is
    not below [x]. *)
Definition _forceodd (x : float) : result Z :=
  n ← float_ceil x;
  Ok (if Z.odd n then n else n + 1).

(** The window of [kernel_size] samples centred on sample [i], zero-padded
    at both ends. *)
Definition window (volume : list float) (kernel_size i : nat) : list float :=
  map (fun j =>
         let idx := Z.of_nat i + Z.of_nat j - Z.of_nat (kernel_size / 2) in
         if idx <? 0 then 0%float
         else default 0%float (volume !! Z.to_nat idx))
      (seq 0 kernel_size).

(** [sigtools._order_filterND(volume, domain, order)] for a 1-D volume and
    the all-ones domain of [kernel_size] samples. *)
Definition order_filter (volume : list float) (kernel_size order : nat)
  : list float :=
  map (fun i => scipy_select order (window volume kernel_size i))
      (seq 0 (length volume)).

(** [scipy.signal.medfilt(volume, kernel_size)] on a 1-D volume. *)
Definition medfilt (volume : list float) (kernel_size : Z) : result (list float) :=
  if negb (kernel_size mod 2 =? 1) then
    Raise (ValueError "Each element of kernel_size should be odd.")
  else if kernel_size <? 0 then
    Raise (ValueError "negative dimensions are not allowed")
  else
    let numels := kernel_size in
    let order := numels / 2 in
    Ok (order_filter volume (Z.to_nat kernel_size) (Z.to_nat order)).

(** [FilterPupilometry(pupils_raw_csv, pupils_filt_csv)] *)
Definition FilterPupilometry (pupils_raw_csv pupils_filt_csv : string) : M bool :=
  raw_exists ← isfile pupils_raw_csv;
  if negb raw_exists then
    print "* Raw pupilometry CSV file missing - returning";;
    mret false
  else
    p ← ReadPupilometry pupils_raw_csv;
    p10 ← getitem2 p 1 0;
    p00 ← getitem2 p 0 0;
    let dt := PrimFloat.sub p10 p00 in
    k_area ← lift (_forceodd (PrimFloat.div 0.25 dt));
    let k_px := 3 in
    let k_py := 3 in
    k_blink ← lift (_forceodd (PrimFloat.div 0.25 dt));
    k_art ← lift (_forceodd (PrimFloat.div 1 dt));
    pf ← np_copy p;
    c ← getcol p 1; f ← lift (medfilt c k_area); setcol pf 1 f;;
    c ← getcol p 2; f ← lift (medfilt c k_px); setcol pf 2 f;;
    c ← getcol p 3; f ← lift (medfilt c k_py); setcol pf 3 f;;
    c ← getcol p 4; f ← lift (medfilt c k_blink); setcol pf 4 f;;
    c ← getcol p 5; setcol pf 5 (scipy_gaussian_filter1d c 1);;
    c ← getcol pf 5; f ← lift (medfilt c k_art); setcol pf 5 f;;
    savetxt pupils_filt_csv pf 6;;
    mret true.

(** [media.LoadVideoFrame(vin_stream, cfg)] on the frames still to come:
    [(keep_going, frame, art_power)] and the stream advanced. *)
Definition LoadVideoFrame (vin_stream : list (image * float))
  : bool * option image * float * list (image * float) :=
  match vin_stream with
  | [] => (false, None, 0%float, [])
  | (frame, art_power) :: rest => (true, Some frame, art_power, rest)
  end.

(** [cv2.waitKey(delay)] *)
Definition waitKey (delay : Z) : M Z := fun w =>
  match keys w with
  | [] => (Ok (-1), w)
  | k :: ks => (Ok k, World (files w) (arrays w) (next_array w) (stdout w) ks)
  end.

(** [open(path, 'w')] *)
Definition open_w (path : string) : M string :=
  w ← get_world;
  set_files (<[path := Csv []]> (files w));;
  mret path.

(** The main video frame loop of [VideoPupilometry] (lines 180-223), entered
    with the frame just read.  The frame with its overlay goes to the
    display and to the output video, which are not tracked. *)
Fixpoint frame_loop (cfg : config) (fps : float) (pupils_raw_stream : string)
    (fc : Z) (frame : image) (art_power : float)
    (vin_stream : list (image * float)) : M unit :=
  let t := PrimFloat.div (Z2float fc) fps in
  '(ellipse, roi_rect, blink) ← lift (PupilometryEngine frame cfg);
  let pglint := moco_PseudoGlint frame in
  area ← WritePupilometry pupils_raw_stream t ellipse blink art_power pglint;
  (if negb blink
   then lift (OverlayPupil ellipse roi_rect pglint);; mret tt
   else mret tt);;
  key ← (if OUTPUT_graphics cfg then waitKey 5 else mret 0);
  if OUTPUT_graphics cfg && (0 <? key) then mret tt
  else
    let fc := fc + 1 in
    (if OUTPUT_verbose cfg && (fc mod 100 =? 0)
     then print "  %10.1f %10.1f %10.1f %10d %10.3f %10.1f"
     else mret tt);;
    match vin_stream with
    | [] => mret tt
    | (frame', art_power') :: rest =>
        frame_loop cfg fps pupils_raw_stream fc frame' art_power' rest
    end.

(** The end of [VideoPupilometry] (lines 225-236): clean up, filter the
    series, clean exit. *)
Definition finish_run (pupils_raw_csv pupils_filt_csv : string) : M bool :=
  print "  Temporally filtering pupilometry timeseries";;
  FilterPupilometry pupils_raw_csv pupils_filt_csv;;
  mret true.

(** [VideoPupilometry(data_dir, subj_sess, v_stub, cfg)].  Every path of
    the file system of the model can be written, so the output video and
    the raw series file open: the branches for a stream that cannot be
    opened (lines 118-120, 149-155, 160-162) are not taken. *)
Definition VideoPupilometry (data_dir subj_sess v_stub : string) (cfg : config)
  : M bool :=
  let verbose := OUTPUT_verbose cfg in
  let overwrite := OUTPUT_overwrite cfg in
  let vin_ext := VIDEO_inputextension cfg in
  let vout_ext := VIDEO_outputextension cfg in
  let ss_dir := path_join data_dir subj_sess in
  let vid_dir := path_join ss_dir "videos" in
  let res_dir := path_join ss_dir "results" in
  let vin_path := path_join vid_dir (v_stub +:+ vin_ext) in
  let pupils_raw_csv := path_join res_dir (v_stub +:+ "_pupils_raw.csv") in
  let pupils_filt_csv := path_join res_dir (v_stub +:+ "_pupils_filt.csv") in
  vin_exists ← isfile vin_path;
  if negb vin_exists then
    print ("* " +:+ vin_path +:+ " does not exist - returning");;
    mret false
  else
    print "  Loading LBP cascade";;
    if cascade_empty then
      print "* LBP cascade is empty - mrgaze installation problem";;
      mret false
    else
      raw_exists ← isfile pupils_raw_csv;
      (if raw_exists
       then print "+ Pupilometry output already exists - checking overwrite flag"
       else mret tt);;
      if raw_exists && negb overwrite then
        print "+ Overwrite forbidden - skipping pupilometry";;
        mret true
      else
        (if raw_exists then print "+ Overwrite allowed - continuing" else mret tt);;
        print "  Opening input video stream";;
        w ← get_world;
        match files w !! vin_path with
        | Some (Video fps nf vin_stream) =>
            match LoadVideoFrame vin_stream with
            | (keep_going, None, art_power, vin_stream) =>
                (* frame.shape *)
                lift (Raise AttributeError)
            | (keep_going, Some frame, art_power, vin_stream) =>
                print "  Opening output video stream";;
                pupils_raw_stream ← open_w pupils_raw_csv;
                (if verbose
                 then print "";; print "  %10s %10s %10s %10s %10s %10s"
                 else mret tt);;
                (if keep_going
                 then frame_loop cfg fps pupils_raw_stream 0 frame art_power vin_stream
                 else mret tt);;
                finish_run pupils_raw_csv pupils_filt_csv
            end
        | _ =>
            print "* Video input stream not opened - skipping pupilometry";;
            mret false
        end.

End WithLibs.
End mrgaze.

(** ** Python's [os.path] and [ConfigParser] *)

(** [c in s] for a character. *)
Fixpoint contains (c : ascii) (s : string) : bool :=
  match s with
  | EmptyString => false
  | String a s' => Ascii.eqb a c || contains c s'
  end.

(** The last character of a text, if any. *)
Fixpoint last_char (s : string) : option ascii :=
  match s with
  | EmptyString => None
  | String a EmptyString => Some a
  | String _ s' => last_char s'
  end.

Module os_path.

(** [(p[:i], p[i:])] for [i = p.rfind(sep) + 1]: the text up to and
    including the last [sep], and the text after it. *)
Fixpoint cut_last (sep : ascii) (p : string) : string * string :=
  match p with
  | EmptyString => (EmptyString, EmptyString)
  | String a p' =>
      let '(h, t) := cut_last sep p' in
      if negb (String.eqb h "") then (String a h, t)
      else if Ascii.eqb a sep then (String a EmptyString, t)
      else (EmptyString, String a t)
  end.

(** [s.rstrip(c)] *)
Fixpoint rstrip (c : ascii) (s : string) : string :=
  match s with
  | EmptyString => EmptyString
  | String a s' =>
      let r := rstrip c s' in
      if Ascii.eqb a c && String.eqb r "" then EmptyString else String a r
  end.

(** [os.path.split(p)]: the head loses its trailing slashes unless it
    consists of slashes only. *)
Definition split (p : string) : string * string :=
  let '(head, tail) := cut_last "/" p in
  let head :=
    if negb (String.eqb head "") && negb (String.eqb (rstrip "/" head) "")
    then rstrip "/" head
    else head in
  (head, tail).

(** [(p[:i], p[i:])] for the index [i] of the last [extsep] of a file name:
    [None] when there is none. *)
Fixpoint cut_ext (extsep : ascii) (p : string) : option (string * string) :=
  match p with
  | EmptyString => None
  | String a p' =>
      match cut_ext extsep p' with
      | Some (root, ext) => Some (String a root, ext)
      | None => if Ascii.eqb a extsep then Some (EmptyString, p) else None
      end
  end.

(** [os.path.splitext(p)]: the extension starts at the last dot of the
    last path component, leading dots of that component apart. *)
Definition splitext (p : string) : string * string :=
  let '(head, name) := cut_last "/" p in
  match cut_ext "." name with
  | Some (root, ext) =>
      if String.eqb (rstrip "." root) "" then (p, EmptyString)
      else (head +:+ root, ext)
  | None => (p, EmptyString)
  end.

End os_path.

(** [ConfigParser.ConfigParser] of Python 2: the sections and their
    options, and the defaults; option names are folded to lower case.  The
    bookkeeping entry [__name__] of a section is left out. *)
Module ConfigParser.

Inductive Error : Type :=
| DuplicateSectionError (section : string)
| NoSectionError (section : string)
| NoOptionError (option section : string)
| ValueError (msg : string)
| ParsingError (filename : string).

Inductive outcome (A : Type) : Type :=
| Done (a : A)
| Raised (e : Error).
Arguments Done {A} a.
Arguments Raised {A} e.

Record t : Type := Parser {
  _defaults : gmap string string;
  _sections : gmap string (gmap string string)
}.

(** [ConfigParser.ConfigParser()] *)
Definition new : t := Parser ∅ ∅.

(** A method that may change the parser. *)
Definition op (A : Type) : Type := t -> outcome A * t.

#[global] Instance op_ret : MRet op := fun _ a config => (Done a, config).
#[global] Instance op_bind : MBind op := fun _ _ f m config =>
  match m config with
  | (Done a, config') => f a config'
  | (Raised e, config') => (Raised e, config')
  end.

(** [s.lower()] *)
Definition lower_char (c : ascii) : ascii :=
  let n := nat_of_ascii c in
  if (65 <=? n)%nat && (n <=? 90)%nat then ascii_of_nat (n + 32) else c.

Fixpoint lower (s : string) : string :=
  match s with
  | EmptyString => EmptyString
  | String c s' => String (lower_char c) (lower s')
  end.

Definition optionxform (option : string) : string := lower option.

(** [config.add_section(section)] *)
Definition add_section (section : string) : op unit := fun config =>
  if String.eqb (lower section) "default" then
    (Raised (ValueError ("Invalid section name: " +:+ section)), config)
  else if bool_decide (is_Some (_sections config !! section)) then
    (Raised (DuplicateSectionError section), config)
  else
    (Done tt, Parser (_defaults config) (<[section := ∅]> (_sections config))).

(** [config.set(section, option, value)] *)
Definition set (section option value : string) : op unit := fun config =>
  if String.eqb section "" || String.eqb section "DEFAULT" then
    (Done tt,
     Parser (<[optionxform option := value]> (_defaults config)) (_sections config))
  else
    match _sections config !! section with
    | None => (Raised (NoSectionError section), config)
    | Some sectdict =>
        (Done tt,
         Parser (_defaults config)
           (<[section := <[optionxform option := value]> sectdict]> (_sections config)))
    end.

(** ["%(" in value] *)
Fixpoint has_reference (value : string) : bool :=
  match value with
  | EmptyString => false
  | String c value' =>
      match value' with
      | String d _ => (Ascii.eqb c "%" && Ascii.eqb d "(") || has_reference value'
      | EmptyString => false
      end
  end.

Section WithInterpolation.

(** The expansion of the references [%(name)s] of a value, which is the
    parser's business; a value without a reference is returned as it
    is. *)
Variable _interpolate : t -> string -> string -> string -> outcome string.

(** [config.get(section, option)] *)
Definition get (config : t) (section option : string) : outcome string :=
  match
    match _sections config !! section with
    | Some sectiondict => Done sectiondict
    | None =>
        if negb (String.eqb section "DEFAULT") then Raised (NoSectionError section)
        else Done ∅
    end
  with
  | Raised e => Raised e
  | Done sectiondict =>
      let option := optionxform option in
      match sectiondict !! option, _defaults config !! option with
      | Some value, _ | None, Some value =>
          if has_reference value then _interpolate config section option value
          else Done value
      | None, None => Raised (NoOptionError option section)
      end
  end.

(** [config.getboolean(section, option)] *)
Definition getboolean (config : t) (section option : string) : outcome bool :=
  match get config section option with
  | Raised e => Raised e
  | Done v =>
      let v' := lower v in
      if String.eqb v' "1" || String.eqb v' "yes" || String.eqb v' "true"
         || String.eqb v' "on"
      then Done true
      else if String.eqb v' "0" || String.eqb v' "no" || String.eqb v' "false"
              || String.eqb v' "off"
      then Done false
      else Raised (ValueError ("Not a boolean: " +:+ v))
  end.

End WithInterpolation.

(** A configuration file, kept as what the parser makes of its text: the
    sections and defaults it holds, or the error of a text that cannot be
    parsed.  [config.write(stream)] writes a text that reads back as the
    parser's state. *)
Definition text : Type := outcome t.

(** [config.read(filename)] on a file that exists: its options are added
    to the parser's, replacing those of the same name. *)
Definition read (filename : string) (content : text) : op unit := fun config =>
  match content with
  | Raised e => (Raised e, config)
  | Done st =>
      (Done tt,
       Parser (_defaults st ∪ _defaults config)
         (union_with (fun new old => Some (new ∪ old))
            (_sections st) (_sections config)))
  end.

(** [config.write(stream)] *)
Definition write (config : t) : text := Done config.

End ConfigParser.

(** ** src/geetee/pupilometry.py *)

Module geetee.
Section WithLibs.
Context {L : Libs}.

(** [RobustRescale(gray, perc_range=(5, 95))] *)
Definition RobustRescale (gray : image) (perc_range : float * float) : image :=
  let '(pA, pB) := (np_percentile gray (fst perc_range),
                    np_percentile gray (snd perc_range)) in
  let gray_rescale := skimage_rescale_intensity gray (pA, pB) in
  gray_rescale.

(** [SegmentPupil(roi)] *)
Definition SegmentPupil (roi : image) : result image :=
  let roi := RobustRescale roi (5%float, 50%float) in
  let '(thresh, blobs) := cv2_threshold_binary_inv_otsu roi 128 255 in
  let kernel := cv2_getStructuringElement_ellipse 5 5 in
  let blobs := cv2_morphologyEx blobs MORPH_OPEN kernel in
  let '(labels, n_labels) := scipy_label blobs in
  let areas := ndi_sum blobs labels (range (n_labels + 1)) in
  areas_max ← np_max areas;
  pupil_label ← getitem0 (np_where_eq areas areas_max);
  let pupil_bw := eq_mask labels pupil_label in
  Ok pupil_bw.

(** The array [pnts] that [FitPupil] hands to the fitter. *)
Definition FitPupil_pnts (bw : image) : list (list Z) :=
  let roi_edges := cv2_Canny bw 0 1 in
  let '(rows, cols) := np_nonzero roi_edges in
  let pnts := np_transpose2 rows cols in
  assign_cols pnts [0; 1]%nat (take_cols pnts [1; 0]%nat).

(** [FitPupil(bw, roi)] *)
Definition FitPupil (bw roi : image) : ellipse :=
  let pnts := FitPupil_pnts bw in
  let ellipse := fitellipse_FitEllipse_RANSAC pnts roi in
  ellipse.

(** [PupilometryEngine(img, cascade)] *)
Definition PupilometryEngine (img : image) : result (ellipse * roi_rect * bool) :=
  let pupils := cascade_detectMultiScale img 40 None in
  let n_pupils := length pupils in
  if (0 <? n_pupils)%nat then
    let blink := false in
    match pupils !! 0%nat with
    | None => Raise IndexError
    | Some (x, y, w, h) =>
        let '(x0, x1, y0, y1) := (x, int32 (x + w), y, int32 (y + h)) in
        let roi_rect := ((Int x0, Int y0), (Int x1, Int y1)) in
        let pupil_roi := slice2 img y0 y1 x0 x1 in
        pupil_bw ← SegmentPupil pupil_roi;
        let el_roi := FitPupil pupil_bw pupil_roi in
        let '(c, axes, phi) := el_roi in
        let el := ((PrimFloat.add (fst c) (Z2float x0),
                    PrimFloat.add (snd c) (Z2float y0)), axes, phi) in
        Ok (el, roi_rect, blink)
    end
  else
    let blink := true in
    let el := nan_ellipse in
    let roi_rect := nan_rect in
    Ok (el, roi_rect, blink).

(** [PupilArea(ellipse)] *)
Definition PupilArea (ellipse : ellipse) : result float :=
  let '((x0, y0), (b, a), phi_b_deg) := ellipse in
  a2 ← float_sq a;
  Ok (PrimFloat.mul np_pi a2).

(** [WritePupilometry(pupil_out, t, ellipse, blink, artifact)] *)
Definition WritePupilometry (pupil_out : string) (t : float) (ellipse : ellipse)
    (blink : bool) (artifact : Z) : M float :=
  let '((x0, y0), (bb, aa), phi_b_deg) := ellipse in
  area ← lift (PupilArea ellipse);
  stream_write pupil_out
    [FmtF 3 t; FmtF 1 area; FmtF 1 x0; FmtF 1 y0; FmtD (Z.b2z blink);
     FmtD artifact; Blank];;
  mret area.

(** The artifact value [io.LoadVideoFrame] delivers with a frame, as it
    follows from the number kept with the frame in the video file; the module
    [io] of geetee is outside the sources, so it is left open. *)
Variable artifact_of : float -> Z.

(** [io.LoadVideoFrame(vin_stream, config)] on the frames still to come:
    [(keep_going, frame, artifact)] and the stream advanced. *)
Definition LoadVideoFrame (vin_stream : list (image * float))
  : bool * option image * Z * list (image * float) :=
  match vin_stream with
  | [] => (false, None, 0, [])
  | (frame, artifact) :: rest => (true, Some frame, artifact_of artifact, rest)
  end.

(** The main video frame loop of [VideoPupilometry] (lines 146-188), entered
    with the frame just read.  The display and the output video are not
    tracked. *)
Fixpoint frame_loop (verbose graphics : bool) (fps : float) (pout_stream : string)
    (fc : Z) (frame : image) (artifact : Z)
    (vin_stream : list (image * float)) : M unit :=
  let t := PrimFloat.div (Z2float fc) fps in
  '(ellipse, roi_rect, blink) ← lift (PupilometryEngine frame);
  area ← WritePupilometry pout_stream t ellipse blink artifact;
  key ← (if graphics then mrgaze.waitKey 5 else mret 0);
  if graphics && (0 <? key) then mret tt
  else
    let fc := fc + 1 in
    (if verbose && (fc mod 30 =? 0)
     then print "  Frame %d  Area %0.1f  Blink %d  Artifact %d  FPS %0.1f"
     else mret tt);;
    match vin_stream with
    | [] => mret tt
    | (frame', artifact') :: rest =>
        frame_loop verbose graphics fps pout_stream fc frame'
          (artifact_of artifact') rest
    end.

(** [VideoPupilometry] from line 64 on, with the two output flags read.
    Every path of the file system of the model can be written, so the output
    video and the series file open: the four branches for a stream that
    cannot be opened (lines 84-86, 121-127, 132-134) are not taken. *)
Definition VideoPupilometry_run (verbose graphics : bool) (vin_path : string)
  : M bool :=
  vin_exists ← isfile vin_path;
  if negb vin_exists then
    print "* Input video file does not exist - returning";;
    mret false
  else if cascade_empty then
    print "LBP cascade is empty - geetee installation problem";;
    mret false
  else
    (if verbose then print "  Opening input video stream" else mret tt);;
    w ← get_world;
    match files w !! vin_path with
    | Some (Video fps nf vin_stream) =>
        match LoadVideoFrame vin_stream with
        | (keep_going, None, artifact, vin_stream) =>
            (* frame.shape *)
            lift (Raise AttributeError)
        | (keep_going, Some frame, artifact, vin_stream) =>
            let '(vin_parent, vin_file) := os_path.split vin_path in
            let '(vin_stub, vin_ext) := os_path.splitext vin_file in
            let vout_file := path_join vin_parent (vin_stub +:+ "_pupils.mov") in
            let pout_csv_file := path_join vin_parent (vin_stub +:+ "_pupils.csv") in
            pout_stream ← mrgaze.open_w pout_csv_file;
            (if keep_going
             then frame_loop verbose graphics fps pout_stream 0 frame artifact
                    vin_stream
             else mret tt);;
            (if verbose then print "  Cleaning up" else mret tt);;
            mret true
        end
    | _ =>
        print "* Video input stream not opened - skipping pupilometry";;
        mret false
    end.

Section WithInterpolation.
Variable _interpolate
  : ConfigParser.t -> string -> string -> string -> ConfigParser.outcome string.

(** [VideoPupilometry(vin_path, res_dir, config)].  The two output flags
    are read first, which touches nothing: the function raises there, or
    goes on as the computation it returns. *)
Definition VideoPupilometry (vin_path res_dir : string) (config : ConfigParser.t)
  : ConfigParser.outcome (M bool) :=
  match ConfigParser.getboolean _interpolate config "OUTPUT" "verbose" with
  | ConfigParser.Raised e => ConfigParser.Raised e
  | ConfigParser.Done verbose =>
      match ConfigParser.getboolean _interpolate config "OUTPUT" "graphics" with
      | ConfigParser.Raised e => ConfigParser.Raised e
      | ConfigParser.Done graphics =>
          ConfigParser.Done (VideoPupilometry_run verbose graphics vin_path)
      end
  end.

End WithInterpolation.

End WithLibs.
End geetee.

(** ** src/geetee/gtIO.py *)

(** [a.T] on a 2-D array of equal rows: row [j] of the result is column [j]
    of [a]. *)
Definition np_T (rows : list (list float)) : list (list float) :=
  match rows with
  | [] => []
  | row :: _ =>
      map (fun j => map (fun r : list float => default np_nan (r !! j)) rows)
          (seq 0 (length row))
  end.

Module gtIO.
Section WithLibs.
Context {L : Libs}.

(** [TrimBorder(frame, border = 0)].  The code calls the number of rows
    [nx] and the number of columns [ny]; the result is a view of the
    frame. *)
Definition TrimBorder (frame : image) (border : Z) : image :=
  if 0 <? border then
    let '(nx, ny) := (Z.of_nat (fst (shape frame)), Z.of_nat (snd (shape frame))) in
    let x0 := border in
    let y0 := border in
    let x1 := nx - border in
    let y1 := ny - border in
    let x0 := if 0 <? x0 then x0 else 0 in
    let x1 := if x1 <? nx then x1 else nx - 1 in
    let y0 := if 0 <? y0 then y0 else 0 in
    let y1 := if y1 <? ny then y1 else ny - 1 in
    slice2 frame x0 x1 y0 y1
  else
    frame.

(** [np.genfromtxt(path, delimiter=',', unpack=True)]: the array that
    [np.genfromtxt(path, delimiter=',')] returns, transposed ([.T] leaves
    a 1-D array as it is). *)
Definition genfromtxt_unpack (path : string) : M nat :=
  w ← get_world;
  match files w !! path with
  | Some (Csv lines) =>
      let rows := map (map mrgaze.parse_field) lines in
      match rows with
      | [] => new_array (A1 [])
      | [row] => new_array (A1 row)
      | row :: _ =>
          if forallb (fun r : list float => (length r =? length row)%nat) rows
          then new_array (A2 (np_T rows))
          else lift (Raise (ValueError "Some errors were detected"))
      end
  | Some (Video _ _ _) => lift (Raise (ValueError "Some errors were detected"))
  | None => lift (Raise IOError)
  end.

(** [ReadPupilometry(pupils_csv)] *)
Definition ReadPupilometry (pupils_csv : string) : M nat :=
  genfromtxt_unpack pupils_csv.

(** [InitConfig(config)]: the parser is changed in place and returned. *)
Definition InitConfig : ConfigParser.op unit :=
  ConfigParser.add_section "VIDEO";;
  ConfigParser.set "VIDEO" "InputExtension" ".mov";;
  ConfigParser.set "VIDEO" "OutputExtension" ".mov";;
  ConfigParser.add_section "RANSAC";;
  ConfigParser.set "RANSAC" "MaxIterations" "5";;
  ConfigParser.set "RANSAC" "MaxRefinements" "3";;
  ConfigParser.set "RANSAC" "MaxInlierPerc" "95";;
  ConfigParser.add_section "LBP";;
  ConfigParser.set "LBP" "Strictness" "40".

(** [LoadConfig(root_dir)] on the configuration files [fs]: the
    configuration, and the files afterwards. *)
Definition LoadConfig (root_dir : string) (fs : gmap string ConfigParser.text)
  : ConfigParser.outcome ConfigParser.t * gmap string ConfigParser.text :=
  let cfg_file := path_join root_dir "geetee.cfg" in
  let config := ConfigParser.new in
  match fs !! cfg_file with
  | Some content =>
      match ConfigParser.read cfg_file content config with
      | (ConfigParser.Done _, config) => (ConfigParser.Done config, fs)
      | (ConfigParser.Raised e, _) => (ConfigParser.Raised e, fs)
      end
  | None =>
      match InitConfig config with
      | (ConfigParser.Done _, config) =>
          (ConfigParser.Done config, <[cfg_file := ConfigParser.write config]> fs)
      | (ConfigParser.Raised e, _) => (ConfigParser.Raised e, fs)
      end
  end.

Section Images.

(** [cv2.imread] and [cv2.cvtColor(frame, cv2.COLOR_BGR2GRAY)]: a colour
    image is a table of (blue, green, red) pixels, and [imread] gives [None]
    or raises when it cannot read the file. *)
Variable cv2_imread : string -> result (option (list (list (Z * Z * Z)))).
Variable cv2_cvtColor_BGR2GRAY : option (list (list (Z * Z * Z))) -> result image.


End Images.

End WithLibs.
End gtIO.

(** ** src/gt_single.py *)

Module gt_single.
Section WithPipeline.

(** [pipeline.RunSingle] (the module [pipeline] is outside the sources),
    [os.getcwd()] and the text of [datetime.now()]. *)
Variable pipeline_RunSingle : string -> string -> M unit.
Variable os_getcwd : string.
Variable datetime_now : string.

(** [main()], on the command line [sys.argv]. *)
Definition main (sys_argv : list string) : M unit :=
  let ss_dir :=
    if (1 <? length sys_argv)%nat then default "" (sys_argv !! 1%nat)
    else os_getcwd in
  let '(data_dir, subj_sess) := os_path.split ss_dir in
  print "";;
  print "--------------------------------------------------";;
  print "GeeTee Single Session Gaze Tracking Video Analysis";;
  print "--------------------------------------------------";;
  print ("Version   : " +:+ "0.1");;
  print ("Date      : " +:+ datetime_now);;
  print ("Data dir  : " +:+ data_dir);;
  print ("Subj/Sess : " +:+ subj_sess);;
  print "";;
  pipeline_RunSingle data_dir subj_sess.

End WithPipeline.
End gt_single.

(** ** Libraries for the worked examples

    In the examples the answers of the external libraries on the example
    input are given as data: the detector's rectangles, the thresholded
    and the opened mask, the labelling, the edge image and the fitted
    ellipse.  The rank filter sorts its window. *)

Fixpoint insert_sorted (x : float) (l : list float) : list float :=
  match l with
  | [] => [x]
  | y :: l' => if PrimFloat.leb x y then x :: l else y :: insert_sorted x l'
  end.

Definition sort_floats (l : list float) : list float :=
  fold_right insert_sorted [] l.

Definition example_libs (pupils : list rect) (blobs opened : image)
    (labelled : image * Z) (edges : image) (el : ellipse) : Libs := {|
  cascade_detectMultiScale := fun _ _ _ => pupils;
  cascade_empty := false;
  cv2_threshold_binary_inv_otsu := fun _ _ _ => (0%float, blobs);
  cv2_getStructuringElement_ellipse := fun _ _ =>
    [[0; 0; 1; 0; 0]; [1; 1; 1; 1; 1]; [1; 1; 1; 1; 1]; [1; 1; 1; 1; 1];
     [0; 0; 1; 0; 0]];
  cv2_morphologyEx := fun src op _ =>
    match op with MORPH_OPEN => opened | MORPH_DILATE => src end;
  cv2_inpaint_telea := fun src _ _ => src;
  cv2_Canny := fun _ _ _ => edges;
  np_percentile := fun _ _ => 255%float;
  scipy_whiten := map Z2float;
  scipy_kmeans := fun _ _ => ([0%float], 0%float);
  scipy_vq := fun data _ => (map (fun _ => 0) data, map (fun _ => 0%float) data);
  scipy_label := fun _ => labelled;
  scipy_gaussian_filter1d := fun v _ => v;
  scipy_select := fun order win => nth order (sort_floats win) 0%float;
  skimage_rescale_intensity := fun gray _ => gray;
  improc_RobustRescale := fun gray _ => gray;
  fitellipse_FitEllipse_RANSAC := fun _ _ => el;
  moco_PseudoGlint := fun _ => (0%float, 0%float);
  strtod_fmt := fun _ x => x
|}.

Definition example_cfg (method : string) : config := {|
  OUTPUT_verbose := false;
  OUTPUT_graphics := false;
  OUTPUT_overwrite := true;
  ARTIFACTS_motioncorr := false;
  VIDEO_inputextension := ".mov";
  VIDEO_outputextension := ".mov";
  LBP_minneighbors := 40;
  LBP_scalefactor := 1.25%float;
  PUPILSEG_method := method;
  PUPILSEG_percmin := 0%float;
  PUPILSEG_percmax := 50%float
|}.

(** A raw series of three frames, 0.125 s apart, the last one a blink. *)
Definition example_line (t area x y : float) (blink : Z) (art px py : float)
  : list field :=
  [FmtF 3 t; FmtF 1 area; FmtF 1 x; FmtF 1 y; FmtD blink; FmtF 3 art;
   FmtF 3 px; FmtF 3 py; Blank].

Definition example_raw : csv :=
  [example_line 0 12.5 4 5 0 1 2 3;
   example_line 0.125 13 4.5 5 0 3 2 3;
   example_line 0.25 np_nan np_nan np_nan 1 2 2 3].

Definition example_fs : gmap string file := {["raw.csv" := Csv example_raw]}.

(** The libraries of the filter examples (no image is involved). *)
Definition filter_libs : Libs := example_libs [] [] [] ([], 0) [] nan_ellipse.

Definition example_rows : list (list float) :=
  Eval vm_compute in map (map (@mrgaze.parse_field filter_libs)) example_raw.

(** The column [j] of the example series. *)
Definition example_col (j : nat) : list float :=
  Eval vm_compute in default [] (column example_rows j).

(** Every field of an ellipse, of a rectangle, is NaN. *)
Definition ellipse_is_nan (el : ellipse) : bool :=
  let '((x0, y0), (b, a), phi) := el in
  PrimFloat.is_nan x0 && PrimFloat.is_nan y0 && PrimFloat.is_nan b
  && PrimFloat.is_nan a && PrimFloat.is_nan phi.

Definition rect_is_nan (r : roi_rect) : bool :=
  let '((x0, y0), (x1, y1)) := r in
  num_is_nan x0 && num_is_nan y0 && num_is_nan x1 && num_is_nan y1.

(** The area of the ellipse with semi-axes [a] and [b]. *)
Definition ellipse_area (el : ellipse) : float :=
  let '(_, (b, a), _) := el in PrimFloat.mul (PrimFloat.mul np_pi a) b.

(** ** Vocabulary of the properties *)

(** The pixel of an image at row [r] and column [c]. *)
Definition pixel (img : image) (r c : Z) : option Z :=
  if (r <? 0) || (c <? 0) then None
  else row ← img !! Z.to_nat r; row !! Z.to_nat c.

(** Lines 371-383 of mrgaze (266-278 of geetee): what [SegmentPupil]
    returns once the opened mask [blobs] has been labelled. *)
Definition largest_blob (blobs : image) (labelled : image * Z) : result image :=
  let '(labels, n_labels) := labelled in
  let areas := ndi_sum blobs labels (range (n_labels + 1)) in
  areas_max ← np_max areas;
  pupil_label ← getitem0 (np_where_eq areas areas_max);
  Ok (eq_mask labels pupil_label).

(** The sum of the pixels of [input] that carry the label [i]. *)
Definition label_area (input labels : image) (i : Z) : Z :=
  fold_right Z.add 0
    (zip_with (fun v l => if l =? i then v else 0) (flatten input) (flatten labels)).

(** The number of pixels that carry the label [i]. *)
Definition pixel_count (labels : image) (i : Z) : Z :=
  Z.of_nat (length (List.filter (fun l => l =? i) (flatten labels))).

(** A mask whose foreground pixels all have the value [v]. *)
Definition is_binary (v : Z) (blobs : image) : bool :=
  forallb (fun x => (x =? 0) || (x =? v)) (flatten blobs).

Definition all_zero (blobs : image) : bool :=
  forallb (fun x => x =? 0) (flatten blobs).

(** What [label_ok] says of the pixels, pairing each with its label. *)
Definition pixel_labelled (v n : Z) (x l : Z) : Prop :=
  0 <= l <= n /\ (x = 0 <-> l = 0) /\ (x = 0 \/ x = v).

(** The opened mask of [mrgaze.SegmentPupil] (lines 340-369): [None] when
    no branch assigned [blobs]. *)
Definition mrgaze_opened {L : Libs} (roi : image) (cfg : config) : option image :=
  let roi := improc_RobustRescale (mrgaze.RemoveGlint roi 95 5)
               (PUPILSEG_percmin cfg, PUPILSEG_percmax cfg) in
  blobs ← mrgaze.binarize roi (PUPILSEG_method cfg);
  Some (cv2_morphologyEx blobs MORPH_OPEN (cv2_getStructuringElement_ellipse 5 5)).

(** The opened mask of [geetee.SegmentPupil] (lines 257-264). *)
Definition geetee_opened {L : Libs} (roi : image) : image :=
  let roi := geetee.RobustRescale roi (5%float, 50%float) in
  cv2_morphologyEx (snd (cv2_threshold_binary_inv_otsu roi 128 255)) MORPH_OPEN
    (cv2_getStructuringElement_ellipse 5 5).

(** The shape contract of the image calls of [mrgaze.SegmentPupil], as a
    check on their results for the ROI [roi]: the inpainting of
    [RemoveGlint], the rescaling, the binarisation and the opening each
    return an image of the shape of their input. *)
Definition mrgaze_shapes_kept {L : Libs} (roi : image) (cfg : config) : bool :=
  let roi1 := mrgaze.RemoveGlint roi 95 5 in
  let roi2 := improc_RobustRescale roi1 (PUPILSEG_percmin cfg, PUPILSEG_percmax cfg) in
  same_shape roi roi1 && same_shape roi1 roi2
  && match mrgaze.binarize roi2 (PUPILSEG_method cfg) with
     | Some blobs =>
         same_shape roi2 blobs
         && same_shape blobs
              (cv2_morphologyEx blobs MORPH_OPEN (cv2_getStructuringElement_ellipse 5 5))
     | None => true
     end.

(** The same for [geetee.SegmentPupil]: rescaling, thresholding, opening. *)
Definition geetee_shapes_kept {L : Libs} (roi : image) : bool :=
  let roi1 := geetee.RobustRescale roi (5%float, 50%float) in
  let blobs := snd (cv2_threshold_binary_inv_otsu roi1 128 255) in
  same_shape roi roi1 && same_shape roi1 blobs
  && same_shape blobs
       (cv2_morphologyEx blobs MORPH_OPEN (cv2_getStructuringElement_ellipse 5 5)).

(** The same libraries, whose labelling numbers the components in another
    order: label [l] becomes [sigma l]. *)
Definition with_relabelling (sigma : Z -> Z) (L : Libs) : Libs := {|
  cascade_detectMultiScale := cascade_detectMultiScale;
  cascade_empty := cascade_empty;
  cv2_threshold_binary_inv_otsu := cv2_threshold_binary_inv_otsu;
  cv2_getStructuringElement_ellipse := cv2_getStructuringElement_ellipse;
  cv2_morphologyEx := cv2_morphologyEx;
  cv2_inpaint_telea := cv2_inpaint_telea;
  cv2_Canny := cv2_Canny;
  np_percentile := np_percentile;
  scipy_whiten := scipy_whiten;
  scipy_kmeans := scipy_kmeans;
  scipy_vq := scipy_vq;
  scipy_label := fun blobs =>
    let '(labels, n) := scipy_label blobs in (map (map sigma) labels, n);
  scipy_gaussian_filter1d := scipy_gaussian_filter1d;
  scipy_select := scipy_select;
  skimage_rescale_intensity := skimage_rescale_intensity;
  improc_RobustRescale := improc_RobustRescale;
  fitellipse_FitEllipse_RANSAC := fitellipse_FitEllipse_RANSAC;
  moco_PseudoGlint := moco_PseudoGlint;
  strtod_fmt := strtod_fmt
|}.

(** [sigma] permutes the labels 1 .. [n] (with inverse [tau]) and keeps the
    background label 0. *)
Definition permutes (sigma tau : Z -> Z) (n : Z) : Prop :=
  sigma 0 = 0
  /\ forall i, 1 <= i <= n ->
       1 <= sigma i <= n /\ 1 <= tau i <= n
       /\ tau (sigma i) = i /\ sigma (tau i) = i.

(** A mask with a one-pixel blob (label 1) and a four-pixel blob (label 2). *)
Definition two_blobs : image :=
  [[255; 0; 255; 255]; [0; 0; 255; 255]; [0; 0; 0; 0]].

Definition two_blobs_labels : image :=
  [[1; 0; 2; 2]; [0; 0; 2; 2]; [0; 0; 0; 0]].

Definition two_blobs_libs : Libs :=
  example_libs [] two_blobs two_blobs (two_blobs_labels, 2) [] nan_ellipse.

(** A key whose lexicographic order is the order of the non-NaN values:
    class (minus infinity, negative, zero, positive, plus infinity), then
    exponent, then mantissa, both negated for negative values. *)
Definition SFkey (x : spec_float) : Z * Z * Z :=
  match x with
  | S754_nan => (0, 0, 0)
  | S754_zero _ => (0, 0, 0)
  | S754_infinity true => (-2, 0, 0)
  | S754_infinity false => (2, 0, 0)
  | S754_finite true m e => (-1, - e, Z.neg m)
  | S754_finite false m e => (1, e, Z.pos m)
  end.

Definition lex_le (k k' : Z * Z * Z) : Prop :=
  let '(a, b, c) := k in
  let '(a', b', c') := k' in
  a < a' \/ (a = a' /\ (b < b' \/ (b = b' /\ c <= c'))).

(** Zero, a positive value or plus infinity. *)
Definition SFnonneg (x : spec_float) : Prop :=
  match x with
  | S754_zero false | S754_infinity false | S754_finite false _ _ => True
  | _ => False
  end.

(** [np.sqrt(w * h)] on exact integers. *)
Definition geometric_mean (w h : Z) : float := PrimFloat.sqrt (Z2float (w * h)).

(** A rectangle whose area fits [int32]. *)
Definition area_fits (r : rect) : Prop :=
  let '(x, y, w, h) := r in 0 <= w * h < 2 ^ 31.

(** The engine's result for the rectangle [(x, y, w, h)] once segmentation
    and fitting have run on its ROI: the fitted centre moved by [(x, y)],
    [roi_rect = (x, y), (x+w, y+h)] and [blink = False]. *)
Definition engine_result (segmented : result image) (fit : image -> image -> ellipse)
    (frame : image) (x y w h : Z) : result (ellipse * roi_rect * bool) :=
  let pupil_roi := slice2 frame y (int32 (y + h)) x (int32 (x + w)) in
  pupil_bw ← segmented;
  let '(c, axes, phi) := fit pupil_bw pupil_roi in
  Ok (((PrimFloat.add (fst c) (Z2float x), PrimFloat.add (snd c) (Z2float y)),
       axes, phi),
      ((Int x, Int y), (Int (int32 (x + w)), Int (int32 (y + h)))),
      false).

(** The labelling never reports a negative number of components. *)
Definition label_counts {L : Libs} : Prop := forall blobs, 0 <= snd (scipy_label blobs).

(** Two rectangles, the second the larger: mrgaze takes the second. *)
Definition two_rects_libs : Libs :=
  example_libs [(0, 0, 1, 1); (0, 0, 2, 2)] [[255; 255]; [255; 255]]
    [[255; 255]; [255; 255]] ([[1; 1]; [1; 1]], 1) [[255; 255]; [255; 255]]
    ((0.5%float, 0.5%float), (1%float, 1%float), 0%float).

Definition two_rects_frame : image := [[10; 200]; [200; 200]].

(** A 2 x 2 frame whose one-pixel blob the opening removes. *)
Definition empty_mask_libs : Libs :=
  example_libs [(0, 0, 2, 2)] [[255; 0]; [0; 0]] [[0; 0]; [0; 0]]
    ([[0; 0]; [0; 0]], 0) [[0; 0]; [0; 0]]
    ((1%float, 1%float), (1%float, 1%float), 0%float).

(** What [medfilt] returns for an odd kernel width [k]. *)
Definition medfilt_out {L : Libs} (c : list float) (k : Z) : list float :=
  mrgaze.order_filter c (Z.to_nat k) (Z.to_nat (k / 2)).

(** The sample [j] of a channel, zero outside the series: the median filter
    pads the series with zeros. *)
Definition padded (c : list float) (j : Z) : float :=
  if (0 <=? j) && (j <? Z.of_nat (length c)) then nth (Z.to_nat j) c 0%float
  else 0%float.

(** [w] holds the [k] samples centred on sample [i] of the channel [c]:
    the samples [i - k/2 .. i + k/2] for an odd [k], in order. *)
Definition centred_window (c : list float) (k : Z) (i : nat) (w : list float) : Prop :=
  Z.of_nat (length w) = k
  /\ forall d : nat,
       Z.of_nat d < k ->
       w !! d = Some (padded c (Z.of_nat i - k / 2 + Z.of_nat d)).

(** The number of samples of [w] below [x], and above [x]. *)
Definition count_below (w : list float) (x : float) : nat :=
  length (List.filter (fun y => PrimFloat.ltb y x) w).

Definition count_above (w : list float) (x : float) : nat :=
  length (List.filter (fun y => PrimFloat.ltb x y) w).

(** [x] is the median of an odd number of samples [w]: it is one of them,
    fewer than half of the samples are below it and fewer than half are
    above it. *)
Definition median_of (w : list float) (x : float) : Prop :=
  In x w
  /\ (2 * count_below w x < length w)%nat
  /\ (2 * count_above w x < length w)%nat.

Definition no_nan (w : list float) : Prop :=
  Forall (fun y => PrimFloat.is_nan y = false) w.

(** [out] is the moving median of width [k] of the channel [c]: sample [i]
    of [out] is what the order filter selects at the middle rank of the
    [k] samples centred on sample [i] of [c], which is their median when
    none of them is NaN. *)
Definition is_moving_median {L : Libs} (k : Z) (c out : list float) : Prop :=
  length out = length c
  /\ forall (i : nat) (x : float),
       out !! i = Some x ->
       exists w,
         centred_window c k i w
         /\ x = scipy_select (Z.to_nat (k / 2)) w
         /\ (no_nan w -> median_of w x).

(** The contract of the selection of SciPy's order filter, for samples
    none of which is NaN: the sample of rank [order] in ascending order,
    that is one of the samples, with at most [order] samples below it and
    at most [length w - 1 - order] above it. *)
Definition select_by_rank {L : Libs} : Prop :=
  forall (order : nat) (w : list float),
    (order < length w)%nat -> no_nan w ->
    In (scipy_select order w) w
    /\ (count_below w (scipy_select order w) <= order)%nat
    /\ (count_above w (scipy_select order w) <= length w - 1 - order)%nat.

(** The table [pf] at the end of [FilterPupilometry], from the table read
    and its columns 1 to 5. *)
Definition filtered {L : Libs} (rows : list (list float)) (c1 c2 c3 c4 c5 : list float)
    (k_area k_art : Z) : list (list float) :=
  let pf := set_column rows 1 (medfilt_out c1 k_area) in
  let pf := set_column pf 2 (medfilt_out c2 3) in
  let pf := set_column pf 3 (medfilt_out c3 3) in
  let pf := set_column pf 4 (medfilt_out c4 k_area) in
  let pf := set_column pf 5 (scipy_gaussian_filter1d c5 1) in
  set_column pf 5 (medfilt_out (scipy_gaussian_filter1d c5 1) k_art).

(** A raw series as [FilterPupilometry] needs it: the file [raw] of [fs]
    holds [lines], which numpy reads as the table [rows] of at least two
    rows, all [ncols] wide; [t0] and [t1] are the first two time stamps and
    [c1] .. [c5] the columns 1 .. 5. *)
Definition raw_series {L : Libs} (fs : gmap string file) (raw : string)
    (lines : csv) (rows : list (list float)) (ncols : nat) (t0 t1 : float)
    (c1 c2 c3 c4 c5 : list float) : Prop :=
  fs !! raw = Some (Csv lines)
  /\ map (map mrgaze.parse_field) lines = rows
  /\ Forall (fun r => length r = ncols) rows
  /\ (rows !! 0%nat ≫= (fun r => r !! 0%nat)) = Some t0
  /\ (rows !! 1%nat ≫= (fun r => r !! 0%nat)) = Some t1
  /\ column rows 1 = Some c1 /\ column rows 2 = Some c2
  /\ column rows 3 = Some c3 /\ column rows 4 = Some c4
  /\ column rows 5 = Some c5.

(** The world after a complete run: the filtered table [pf] is in the file
    [filt] and in a new array; the array read from the raw file is at the
    address [nx]. *)
Definition filtered_world (fs : gmap string file) (arr : gmap nat ndarray)
    (nx : nat) (out : list string) (ks : list Z) (filt : string)
    (rows pf : list (list float)) : world :=
  World (<[filt := Csv (map (map (FmtF 6)) pf)]> fs)
        (<[S nx := A2 pf]> (<[nx := A2 rows]> arr)) (S (S nx)) out ks.

(** A computation that leaves the files, the output and the pending keys
    as they are. *)
Definition quiet {A} (m : M A) : Prop :=
  forall w, files (snd (m w)) = files w /\ stdout (snd (m w)) = stdout w
            /\ keys (snd (m w)) = keys w.

(** What a run of [FilterPupilometry] on an existing raw file may do. *)
Definition filter_post (filt : string) (w : world) (rw : result bool * world) : Prop :=
  (forall path, path <> filt -> files (snd rw) !! path = files w !! path)
  /\ (fst rw <> Ok true -> files (snd rw) = files w)
  /\ (fst rw = Ok true -> is_Some (files (snd rw) !! filt))
  /\ fst rw <> Ok false
  /\ stdout (snd rw) = stdout w
  /\ keys (snd rw) = keys w.

(** A computation that writes no array below the address [n0]: it allocates
    at the next free address and changes arrays from [n0] on only. *)
Definition fresh_only {A} (n0 : nat) (m : M A) : Prop :=
  forall w, (n0 <= next_array w)%nat ->
    (n0 <= next_array (snd (m w)))%nat
    /\ forall a, (a < n0)%nat -> arrays (snd (m w)) !! a = arrays w !! a.

(** ** Vocabulary of the further properties *)

(** The middle of a list: [b] elements dropped at each end. *)
Definition trim {A} (b : nat) (l : list A) : list A :=
  take (length l - 2 * b) (drop b l).



(** The area of an ellipse whose [PupilArea] is in range. *)
Definition area_value (el : ellipse) : float :=
  PrimFloat.mul np_pi (PrimFloat.mul (snd (snd (fst el))) (snd (snd (fst el)))).

(** The line [WritePupilometry] writes. *)
Definition raw_line (t : float) (el : ellipse) (blink : bool) (art_power : float)
    (pglint : float * float) : list field :=
  [FmtF 3 t; FmtF 1 (area_value el); FmtF 1 (fst (fst (fst el)));
   FmtF 1 (snd (fst (fst el))); FmtD (Z.b2z blink); FmtF 3 art_power;
   FmtF 3 (fst pglint); FmtF 3 (snd pglint); Blank].



(** The paths of [VideoPupilometry] (lines 76-84). *)
Definition vin_path_of (data_dir subj_sess v_stub : string) (cfg : config) : string :=
  path_join (path_join (path_join data_dir subj_sess) "videos")
    (v_stub +:+ VIDEO_inputextension cfg).

Definition pupils_raw_csv_of (data_dir subj_sess v_stub : string) : string :=
  path_join (path_join (path_join data_dir subj_sess) "results")
    (v_stub +:+ "_pupils_raw.csv").



(** Libraries whose cascade file is missing. *)
Definition no_cascade_libs : Libs := {|
  cascade_detectMultiScale := fun _ _ _ => [];
  cascade_empty := true;
  cv2_threshold_binary_inv_otsu := @cv2_threshold_binary_inv_otsu filter_libs;
  cv2_getStructuringElement_ellipse := @cv2_getStructuringElement_ellipse filter_libs;
  cv2_morphologyEx := @cv2_morphologyEx filter_libs;
  cv2_inpaint_telea := @cv2_inpaint_telea filter_libs;
  cv2_Canny := @cv2_Canny filter_libs;
  np_percentile := @np_percentile filter_libs;
  scipy_whiten := @scipy_whiten filter_libs;
  scipy_kmeans := @scipy_kmeans filter_libs;
  scipy_vq := @scipy_vq filter_libs;
  scipy_label := @scipy_label filter_libs;
  scipy_gaussian_filter1d := @scipy_gaussian_filter1d filter_libs;
  scipy_select := @scipy_select filter_libs;
  skimage_rescale_intensity := @skimage_rescale_intensity filter_libs;
  improc_RobustRescale := @improc_RobustRescale filter_libs;
  fitellipse_FitEllipse_RANSAC := @fitellipse_FitEllipse_RANSAC filter_libs;
  moco_PseudoGlint := @moco_PseudoGlint filter_libs;
  strtod_fmt := @strtod_fmt filter_libs
|}.




Definition keep_cfg : config := {|
  OUTPUT_verbose := false;
  OUTPUT_graphics := false;
  OUTPUT_overwrite := false;
  ARTIFACTS_motioncorr := false;
  VIDEO_inputextension := ".mov";
  VIDEO_outputextension := ".mov";
  LBP_minneighbors := 40;
  LBP_scalefactor := 1.25%float;
  PUPILSEG_method := "otsu";
  PUPILSEG_percmin := 0%float;
  PUPILSEG_percmax := 50%float
|}.

(** A video of [n] copies of a 2 x 2 frame at 8 frames per second, as the
    gaze video of session [s1]. *)
Definition example_frame : image := [[10; 200]; [200; 200]].

Definition example_video (n : nat) : gmap string file :=
  {["data/s1/videos/gaze.mov" :=
      Video 8 (Z2float (Z.of_nat n)) (repeat (example_frame, 0.5%float) n)]}.

(** One call of [WritePupilometry]: its arguments after the stream. *)
Definition record : Type := (float * ellipse * bool * float * (float * float))%type.

(** The calls [WritePupilometry(stream, ...)] for the records of [recs],
    one after the other. *)
Fixpoint write_records {L : Libs} (stream : string) (recs : list record) : M unit :=
  match recs with
  | [] => mret tt
  | (t, el, blink, art_power, pglint) :: recs' =>
      mrgaze.WritePupilometry stream t el blink art_power pglint;;
      write_records stream recs'
  end.

(** The area of the ellipse of a record is in range. *)
Definition area_in_range (rec : record) : bool :=
  let '(t, el, blink, art_power, pglint) := rec in is_ok (mrgaze.PupilArea el).

(** The row numpy reads back from the line of a record. *)
Definition row_read_back {L : Libs} (rec : record) : list float :=
  let '(t, el, blink, art_power, pglint) := rec in
  [strtod_fmt 3 t; strtod_fmt 1 (area_value el);
   strtod_fmt 1 (fst (fst (fst el))); strtod_fmt 1 (snd (fst (fst el)));
   if blink then 1%float else 0%float;
   strtod_fmt 3 art_power; strtod_fmt 3 (fst pglint); strtod_fmt 3 (snd pglint);
   np_nan].

(** The sections [InitConfig] writes. *)
Definition default_VIDEO : gmap string string :=
  {["inputextension" := ".mov"; "outputextension" := ".mov"]}.

Definition default_RANSAC : gmap string string :=
  {["maxiterations" := "5"; "maxrefinements" := "3"; "maxinlierperc" := "95"]}.

Definition default_LBP : gmap string string := {["strictness" := "40"]}.

(** The parser [config] after [InitConfig] when it had none of the three
    sections. *)
Definition with_defaults (config : ConfigParser.t) : ConfigParser.t :=
  ConfigParser.Parser (ConfigParser._defaults config)
    (<["LBP" := default_LBP]>
       (<["RANSAC" := default_RANSAC]>
          (<["VIDEO" := default_VIDEO]> (ConfigParser._sections config)))).

(** A configuration with the two output flags. *)
Definition output_cfg (verbose graphics : string) : ConfigParser.t :=
  ConfigParser.Parser ∅ {["OUTPUT" := {["verbose" := verbose; "graphics" := graphics]}]}.

(** The splash [main] prints before it runs the pipeline. *)
Definition splash (now data_dir subj_sess : string) : list string :=
  [""; "--------------------------------------------------";
   "GeeTee Single Session Gaze Tracking Video Analysis";
   "--------------------------------------------------";
   "Version   : 0.1"; "Date      : " +:+ now; "Data dir  : " +:+ data_dir;
   "Subj/Sess : " +:+ subj_sess; ""].

(** A pipeline that only reports the session it is given. *)
Definition report_session (data_dir subj_sess : string) : M unit :=
  print (data_dir +:+ " " +:+ subj_sess).




(** No value of the examples holds a reference to expand. *)
Definition no_interpolation (config : ConfigParser.t) (section option rawval : string)
  : ConfigParser.outcome string := ConfigParser.Done rawval.

(** An artifact value for the examples: a flag, zero for a clean frame. *)
Definition example_artifact (x : float) : Z := if PrimFloat.eqb x 0 then 0 else 1.


(** * Properties *)

(** ** Pupil area (C9) *)

Lemma float_neq_by_eqb (x y : float) :
  PrimFloat.eqb x x = true -> PrimFloat.eqb x y = false -> x <> y.
Proof. intros Hx Hxy E. subst y. congruence. Qed.

(** C9: the area recorded for an ellipse [((x0, y0), (b, a), phi)] is
    [np.pi * a**2] with [a] the second element of the axes pair, in the
    mrgaze and in the geetee module: the double nearest to pi times the
    rounded product [a * a].  [WritePupilometry] writes this value as the
    second field of the line and returns it.  When [a] is finite and its
    square is out of the range of a double, [a**2] raises [OverflowError]
    and nothing is recorded.  The area does not depend on the first axis
    element, the centre or the rotation, and it is not the ellipse area
    [pi * a * b] (the ellipse with axes (1, 2) gives 4 pi, not 2 pi). *)
Theorem C9_pupil_area_is_pi_a_squared :
  forall (x0 y0 b a phi : float),
    let el := ((x0, y0), (b, a), phi) in
    let sq := PrimFloat.mul a a in
    let pi64 := 0x1.921fb54442d18p+1%float in
    let out_of_range := PrimFloat.is_infinity sq && negb (PrimFloat.is_infinity a) in
    (out_of_range = false ->
     mrgaze.PupilArea el = Ok (PrimFloat.mul pi64 sq)
     /\ geetee.PupilArea el = Ok (PrimFloat.mul pi64 sq)
     /\ forall fs arr n out ks path lines t blink art_power px py,
          mrgaze.WritePupilometry path t el blink art_power (px, py)
            (World (<[path := Csv lines]> fs) arr n out ks)
          = (Ok (PrimFloat.mul pi64 sq),
             World (<[path := Csv (lines ++
                       [[FmtF 3 t; FmtF 1 (PrimFloat.mul pi64 sq);
                         FmtF 1 x0; FmtF 1 y0; FmtD (Z.b2z blink);
                         FmtF 3 art_power; FmtF 3 px; FmtF 3 py; Blank]])]> fs)
                   arr n out ks))
    /\ (out_of_range = true ->
        mrgaze.PupilArea el = Raise OverflowError
        /\ geetee.PupilArea el = Raise OverflowError
        /\ forall w path t blink art_power pglint,
             mrgaze.WritePupilometry path t el blink art_power pglint w
             = (Raise OverflowError, w))
    /\ (forall x0' y0' b' phi' : float,
          mrgaze.PupilArea ((x0', y0'), (b', a), phi') = mrgaze.PupilArea el)
    /\ (exists (el' : ellipse) (area : float),
          mrgaze.PupilArea el' = Ok area /\ area <> ellipse_area el').
Proof.
  intros x0 y0 b a phi el sq pi64 out_of_range.
  assert (Hm : mrgaze.PupilArea el
               = if out_of_range then Raise OverflowError
                 else Ok (PrimFloat.mul pi64 sq)).
  { unfold mrgaze.PupilArea, el, float_sq. fold sq. fold out_of_range.
    destruct out_of_range; reflexivity. }
  assert (Hg : geetee.PupilArea el
               = if out_of_range then Raise OverflowError
                 else Ok (PrimFloat.mul pi64 sq)).
  { unfold geetee.PupilArea, el, float_sq. fold sq. fold out_of_range.
    destruct out_of_range; reflexivity. }
  split; [| split; [| split]].
  - intros Hr. rewrite Hr in Hm, Hg. split; [exact Hm |]. split; [exact Hg |].
    intros fs arr n out ks path lines t blink art_power px py.
    unfold mrgaze.WritePupilometry. fold el. rewrite Hm.
    unfold stream_write, mbind, M_bind, lift, get_world, set_files, mret, M_ret; cbn.
    rewrite lookup_insert_eq. cbn. rewrite insert_insert_eq. reflexivity.
  - intros Hr. rewrite Hr in Hm, Hg. split; [exact Hm |]. split; [exact Hg |].
    intros w path t blink art_power pglint.
    unfold mrgaze.WritePupilometry. fold el. rewrite Hm. reflexivity.
  - intros x0' y0' b' phi'. reflexivity.
  - exists ((0%float, 0%float), (1%float, 2%float), 0%float). eexists.
    split; [vm_compute; reflexivity |].
    apply float_neq_by_eqb; vm_compute; reflexivity.
Qed.

(** The ellipse with axes (1, 2), and one whose second axis is 2^600. *)
Lemma C9_area_witness :
  mrgaze.PupilArea ((0%float, 0%float), (1%float, 2%float), 0%float)
  = Ok (PrimFloat.mul 0x1.921fb54442d18p+1 (PrimFloat.mul 2 2))
  /\ mrgaze.PupilArea ((0%float, 0%float), (1%float, 0x1p+600%float), 0%float)
     = Raise OverflowError.
Proof.
  split.
  - destruct (C9_pupil_area_is_pi_a_squared 0 0 1 2 0) as (H & _).
    destruct (H eq_refl) as (H1 & _). exact H1.
  - destruct (C9_pupil_area_is_pi_a_squared 0 0 1 0x1p+600 0) as (_ & H & _).
    destruct (H eq_refl) as (H1 & _). exact H1.
Defined.

(** ** Segmentation method dispatch (C10) *)

Section Dispatch.
Context {L : Libs}.

Lemma binarize_None (roi : image) (method : string) :
  mrgaze.binarize roi method = None <-> (method <> "otsu" /\ method <> "kmeans").
Proof.
  unfold mrgaze.binarize.
  destruct (String.eqb_spec method "otsu") as [E1 | N1].
  - destruct (cv2_threshold_binary_inv_otsu roi 128 255).
    split; [discriminate | intros [H _]; contradiction].
  - destruct (String.eqb_spec method "kmeans") as [E2 | N2].
    + destruct (scipy_kmeans _ _), (scipy_vq _ _).
      split; [discriminate | intros [_ H]; contradiction].
    + split; auto.
Qed.

(** The largest-blob selection never raises [UnboundLocalError]. *)
Lemma selection_not_unbound (areas : list Z) (labels : image) (name : string) :
  (areas_max ← np_max areas;
   pupil_label ← getitem0 (np_where_eq areas areas_max);
   Ok (eq_mask labels pupil_label)) <> Raise (UnboundLocalError name).
Proof.
  unfold mbind, result_bind.
  destruct areas as [| a areas]; [discriminate |].
  cbn [np_max]. unfold getitem0.
  destruct (np_where_eq _ _); discriminate.
Qed.

End Dispatch.

(** C10: [SegmentPupil] raises [UnboundLocalError] on [blobs] (the mask
    variable is read by the morphological opening before any branch has
    assigned it) exactly when the configured method is neither ['otsu'] nor
    ['kmeans']; it returns a mask only for one of these two methods. *)
Theorem C10_unknown_method_leaves_blobs_unbound :
  forall (L : Libs) (roi : image) (cfg : config),
    (mrgaze.SegmentPupil roi cfg = Raise (UnboundLocalError "blobs")
     <-> (PUPILSEG_method cfg <> "otsu" /\ PUPILSEG_method cfg <> "kmeans"))
    /\ (forall pupil_bw : image,
          mrgaze.SegmentPupil roi cfg = Ok pupil_bw ->
          PUPILSEG_method cfg = "otsu" \/ PUPILSEG_method cfg = "kmeans").
Proof.
  intros L roi cfg. unfold mrgaze.SegmentPupil.
  pose proof (binarize_None
                (improc_RobustRescale (mrgaze.RemoveGlint roi 95 5)
                   (PUPILSEG_percmin cfg, PUPILSEG_percmax cfg))
                (PUPILSEG_method cfg)) as HN.
  destruct (mrgaze.binarize _ _) as [blobs |].
  - assert (Hm : PUPILSEG_method cfg = "otsu" \/ PUPILSEG_method cfg = "kmeans").
    { destruct (String.eqb_spec (PUPILSEG_method cfg) "otsu"); [auto |].
      destruct (String.eqb_spec (PUPILSEG_method cfg) "kmeans"); [auto |].
      assert (@None image = None) as H by reflexivity.
      destruct HN as [_ HN]. specialize (HN (conj n n0)). discriminate HN. }
    split; [| intros; exact Hm].
    destruct (scipy_label _) as [labels n_labels].
    split.
    + intros H. exfalso. revert H. apply selection_not_unbound.
    + intros [H1 H2]. destruct Hm; contradiction.
  - destruct HN as [HN _]. specialize (HN eq_refl).
    split; [split; auto | discriminate].
Qed.

(** At the method ['watershed'] the segmentation of a 1 x 1 ROI fails. *)
Example SegmentPupil_watershed :
  @mrgaze.SegmentPupil
     (example_libs [] [[255]] [[255]] ([[1]], 1) [[0]] nan_ellipse)
     [[7]] (example_cfg "watershed")
  = Raise (UnboundLocalError "blobs").
Proof. reflexivity. Qed.

(** ** The blink flag (C2) *)

(** C2: the engine (of mrgaze and of geetee) returns [blink = True] exactly
    when the detector returned no rectangle, and then the ellipse and
    [roi_rect] it returns are the NaN values, every field of which is NaN;
    with no rectangle the engine always returns.  (With a rectangle the
    engine returns [blink = False] or raises what segmentation raised.) *)
Theorem C2_blink_iff_no_candidate :
  forall (L : Libs) (frame : image) (cfg : config),
    let pupils := cascade_detectMultiScale frame (LBP_minneighbors cfg)
                    (Some (LBP_scalefactor cfg)) in
    let pupils' := cascade_detectMultiScale frame 40 None in
    match mrgaze.PupilometryEngine frame cfg with
    | Ok (el, rr, blink) =>
        (blink = true <-> pupils = [])
        /\ (if blink then el = nan_ellipse /\ rr = nan_rect
            else rect_is_nan rr = false)
    | Raise _ => pupils <> []
    end
    /\ match geetee.PupilometryEngine frame with
       | Ok (el, rr, blink) =>
           (blink = true <-> pupils' = [])
           /\ (if blink then el = nan_ellipse /\ rr = nan_rect
               else rect_is_nan rr = false)
       | Raise _ => pupils' <> []
       end
    /\ ellipse_is_nan nan_ellipse = true
    /\ rect_is_nan nan_rect = true.
Proof.
  intros L frame cfg pupils pupils'.
  unfold mrgaze.PupilometryEngine, geetee.PupilometryEngine.
  fold pupils pupils'.
  split; [| split; [| split; reflexivity]].
  - destruct pupils as [| p ps] eqn:E; cbn [length Nat.ltb Nat.leb].
    + cbn. split; [tauto | split; reflexivity].
    + destruct ((p :: ps) !! argmax (mrgaze.sizes (p :: ps))) as [[[[x y] w] h] |];
        [| discriminate].
      destruct (mrgaze.SegmentPupil _ cfg) as [bw | e]; cbn; [| discriminate].
      destruct (mrgaze.FitPupil _ _) as [[c axes] phi].
      split; [split; [discriminate | discriminate] | reflexivity].
  - destruct pupils' as [| p ps] eqn:E; cbn [length Nat.ltb Nat.leb].
    + cbn. split; [tauto | split; reflexivity].
    + cbn [lookup list_lookup]. destruct p as [[[x y] w] h].
      destruct (geetee.SegmentPupil _) as [bw | e]; cbn; [| discriminate].
      destruct (geetee.FitPupil _ _) as [[c axes] phi].
      split; [split; [discriminate | discriminate] | reflexivity].
Qed.

(** ** Boundary points (C8) *)

Lemma nonzero_row_spec (r c0 : Z) (row : list Z) (r' c : Z) :
  In (r', c) (nonzero_row r c0 row)
  <-> r' = r /\ c0 <= c /\ exists v, row !! Z.to_nat (c - c0) = Some v /\ v <> 0.
Proof.
  revert c0. induction row as [| x row IH]; intros c0; cbn [nonzero_row].
  - split; [intros [] | intros (_ & _ & v & H & _); discriminate H].
  - assert (Hstep : (r' = r /\ c0 + 1 <= c /\
                     exists v, row !! Z.to_nat (c - (c0 + 1)) = Some v /\ v <> 0)
                    <-> (r' = r /\ c0 < c /\
                         exists v, (x :: row) !! Z.to_nat (c - c0) = Some v /\ v <> 0)).
    { split; intros (Hr & Hc & v & Hv & Hnz); (split; [exact Hr |]); (split; [lia |]);
        exists v; (split; [| exact Hnz]).
      - replace (Z.to_nat (c - c0)) with (S (Z.to_nat (c - (c0 + 1)))) by lia. exact Hv.
      - replace (Z.to_nat (c - c0)) with (S (Z.to_nat (c - (c0 + 1)))) in Hv by lia.
        exact Hv. }
    destruct (Z.eqb_spec x 0) as [Hx | Hx].
    + rewrite IH, Hstep. split.
      * intros (Hr & Hc & Hv). split; [exact Hr |]. split; [lia | exact Hv].
      * intros (Hr & Hc & v & Hv & Hnz). split; [exact Hr |].
        assert (c0 < c).
        { destruct (Z.eq_dec c c0) as [-> |]; [| lia].
          rewrite Z.sub_diag in Hv. simpl in Hv. congruence. }
        split; [assumption |]. exists v. auto.
    + cbn [In]. rewrite IH, Hstep. split.
      * intros [E | (Hr & Hc & Hv)].
        -- inversion E; subst. split; [reflexivity |]. split; [lia |].
           exists x. rewrite Z.sub_diag. simpl. auto.
        -- split; [exact Hr |]. split; [lia | exact Hv].
      * intros (Hr & Hc & v & Hv & Hnz).
        destruct (Z.eq_dec c c0) as [-> | Hne].
        -- left. subst. reflexivity.
        -- right. split; [exact Hr |]. split; [lia |]. exists v. auto.
Qed.

Lemma nonzero_from_spec (r0 : Z) (img : image) (r c : Z) :
  In (r, c) (nonzero_from r0 img)
  <-> r0 <= r /\ 0 <= c /\
      exists row v, img !! Z.to_nat (r - r0) = Some row
                    /\ row !! Z.to_nat c = Some v /\ v <> 0.
Proof.
  revert r0. induction img as [| row0 img IH]; intros r0; cbn [nonzero_from].
  - split; [intros [] | intros (_ & _ & row & v & H & _); discriminate H].
  - rewrite in_app_iff, nonzero_row_spec, IH. rewrite Z.sub_0_r. split.
    + intros [(-> & Hc & v & Hv & Hnz) | (Hr & Hc & row & v & Hrow & Hv & Hnz)].
      * split; [lia |]. split; [exact Hc |]. exists row0, v.
        rewrite Z.sub_diag. simpl. auto.
      * split; [lia |]. split; [exact Hc |]. exists row, v.
        replace (Z.to_nat (r - r0)) with (S (Z.to_nat (r - (r0 + 1)))) by lia. auto.
    + intros (Hr & Hc & row & v & Hrow & Hv & Hnz).
      destruct (Z.eq_dec r r0) as [-> | Hne].
      * left. rewrite Z.sub_diag in Hrow. simpl in Hrow. inversion Hrow; subst.
        split; [reflexivity |]. split; [exact Hc |]. exists v. auto.
      * right. split; [lia |]. split; [exact Hc |]. exists row, v.
        replace (Z.to_nat (r - r0)) with (S (Z.to_nat (r - (r0 + 1)))) in Hrow by lia.
        auto.
Qed.

Lemma nonzero_pixel (img : image) (r c : Z) :
  In (r, c) (nonzero_from 0 img) <-> exists v, pixel img r c = Some v /\ v <> 0.
Proof.
  rewrite nonzero_from_spec, Z.sub_0_r. unfold pixel. split.
  - intros (Hr & Hc & row & v & Hrow & Hv & Hnz). exists v.
    destruct (Z.ltb_spec r 0); [lia |]. destruct (Z.ltb_spec c 0); [lia |].
    cbn. rewrite Hrow. cbn. auto.
  - intros (v & Hv & Hnz).
    destruct (Z.ltb_spec r 0); [discriminate Hv |].
    destruct (Z.ltb_spec c 0); [discriminate Hv |].
    cbn in Hv. destruct (img !! Z.to_nat r) as [row |] eqn:Hrow; [| discriminate Hv].
    cbn in Hv. split; [lia |]. split; [lia |]. exists row, v. auto.
Qed.

Lemma nonzero_row_length (r c0 : Z) (row : list Z) :
  length (nonzero_row r c0 row) = length (List.filter (fun v => negb (v =? 0)) row).
Proof.
  revert c0. induction row as [| x row IH]; intros c0; cbn; [reflexivity |].
  destruct (x =? 0); cbn; rewrite IH; reflexivity.
Qed.

Lemma nonzero_from_length (r0 : Z) (img : image) :
  length (nonzero_from r0 img)
  = length (List.filter (fun v => negb (v =? 0)) (flatten img)).
Proof.
  revert r0. unfold flatten.
  induction img as [| row img IH]; intros r0; cbn; [reflexivity |].
  rewrite List.length_app, List.filter_app, List.length_app, nonzero_row_length, IH.
  reflexivity.
Qed.

Lemma nonzero_row_NoDup (r c0 : Z) (row : list Z) :
  List.NoDup (nonzero_row r c0 row).
Proof.
  revert c0. induction row as [| x row IH]; intros c0; cbn; [constructor |].
  destruct (x =? 0); [apply IH |].
  constructor; [| apply IH].
  rewrite nonzero_row_spec. intros (_ & Hc & _). lia.
Qed.

Lemma nonzero_from_NoDup (r0 : Z) (img : image) :
  List.NoDup (nonzero_from r0 img).
Proof.
  revert r0. induction img as [| row img IH]; intros r0; cbn; [constructor |].
  apply List.NoDup_app; [apply nonzero_row_NoDup | apply IH |].
  intros [r c]. rewrite nonzero_row_spec, nonzero_from_spec.
  intros (-> & _) (Hr & _). lia.
Qed.

Lemma transpose2_of_pairs (rc : list (Z * Z)) :
  np_transpose2 (map fst rc) (map snd rc) = map (fun '(r, c) => [r; c]) rc.
Proof.
  induction rc as [| [r c] rc IH]; cbn; [reflexivity |]. rewrite IH. reflexivity.
Qed.

(** The assignment [pnts[:,[0,1]] = pnts[:,[1,0]]] on an array of pairs
    exchanges the two columns: the right-hand side is a copy taken before
    the first column is overwritten. *)
Lemma swap_columns (rc : list (Z * Z)) :
  assign_cols (map (fun '(r, c) => [r; c]) rc) [0; 1]%nat
    (take_cols (map (fun '(r, c) => [r; c]) rc) [1; 0]%nat)
  = map (fun '(r, c) => [c; r]) rc.
Proof.
  induction rc as [| [r c] rc IH]; [reflexivity |].
  change (assign_row [r; c] [0; 1]%nat [c; r]
          :: assign_cols (map (fun '(r, c) => [r; c]) rc) [0; 1]%nat
               (take_cols (map (fun '(r, c) => [r; c]) rc) [1; 0]%nat)
          = [c; r] :: map (fun '(r, c) => [c; r]) rc).
  rewrite IH. reflexivity.
Qed.

Lemma swapped_In (rc : list (Z * Z)) (r c : Z) :
  In [c; r] (map (fun '(r, c) => [c; r]) rc) <-> In (r, c) rc.
Proof.
  rewrite in_map_iff. split.
  - intros ([r' c'] & E & H). inversion E; subst. exact H.
  - intros H. exists (r, c). auto.
Qed.

Lemma swapped_NoDup (rc : list (Z * Z)) :
  List.NoDup rc -> List.NoDup (map (fun '(r, c) => [c; r]) rc).
Proof.
  intros H. apply List.NoDup_map_NoDup_ForallPairs; [| exact H].
  intros [r c] [r' c'] _ _ E. inversion E; subst. reflexivity.
Qed.

Section BoundaryPoints.
Context {L : Libs}.

Lemma mrgaze_pnts (bw : image) :
  mrgaze.FitPupil_pnts bw
  = map (fun '(r, c) => [c; r]) (nonzero_from 0 (cv2_Canny bw 0 1)).
Proof.
  unfold mrgaze.FitPupil_pnts, np_nonzero.
  rewrite transpose2_of_pairs. apply swap_columns.
Qed.

Lemma geetee_pnts (bw : image) :
  geetee.FitPupil_pnts bw
  = map (fun '(r, c) => [c; r]) (nonzero_from 0 (cv2_Canny bw 0 1)).
Proof.
  unfold geetee.FitPupil_pnts, np_nonzero.
  rewrite transpose2_of_pairs. apply swap_columns.
Qed.

End BoundaryPoints.

(** C8: the points [FitPupil] passes to the RANSAC fitter are the
    coordinates of the non-zero pixels of the edge image, in row-major
    order, each [(row, col)] turned into [(x, y) = (col, row)]: a point
    [(x, y)] is passed exactly when the edge pixel at row [y], column [x] is
    non-zero, no point occurs twice, and there are as many points as edge
    pixels.  The same holds in mrgaze and in geetee. *)
Theorem C8_boundary_points_swapped :
  forall (L : Libs) (bw roi : image),
    let roi_edges := cv2_Canny bw 0 1 in
    let pnts := map (fun '(r, c) => [c; r]) (nonzero_from 0 roi_edges) in
    mrgaze.FitPupil_pnts bw = pnts
    /\ mrgaze.FitPupil bw roi = fitellipse_FitEllipse_RANSAC pnts roi
    /\ geetee.FitPupil_pnts bw = pnts
    /\ geetee.FitPupil bw roi = fitellipse_FitEllipse_RANSAC pnts roi
    /\ (forall x y : Z,
          In [x; y] pnts <-> exists v, pixel roi_edges y x = Some v /\ v <> 0)
    /\ List.NoDup pnts
    /\ length pnts
       = length (List.filter (fun v => negb (v =? 0)) (flatten roi_edges)).
Proof.
  intros L bw roi roi_edges pnts.
  split; [apply mrgaze_pnts |].
  split; [unfold mrgaze.FitPupil; rewrite mrgaze_pnts; reflexivity |].
  split; [apply geetee_pnts |].
  split; [unfold geetee.FitPupil; rewrite geetee_pnts; reflexivity |].
  split; [| split].
  - intros x y. unfold pnts. rewrite swapped_In. apply nonzero_pixel.
  - apply swapped_NoDup, nonzero_from_NoDup.
  - unfold pnts. rewrite List.length_map. apply nonzero_from_length.
Qed.

(** An edge image with three edge pixels. *)
Example FitPupil_pnts_example :
  @mrgaze.FitPupil_pnts
     (example_libs [] [] [] ([], 0) [[0; 255; 0]; [0; 0; 0]; [255; 0; 255]]
        nan_ellipse) [[1]]
  = [[1; 0]; [0; 2]; [2; 2]].
Proof. reflexivity. Qed.

(** ** Largest-blob selection (C3, C4) *)

Lemma fold_max_spec (l : list Z) (x : Z) :
  x <= fold_left Z.max l x
  /\ (forall y, In y l -> y <= fold_left Z.max l x)
  /\ (fold_left Z.max l x = x \/ In (fold_left Z.max l x) l).
Proof.
  revert x. induction l as [| a l IH]; intros x; cbn.
  - split; [lia |]. split; [intros y [] | auto].
  - destruct (IH (Z.max x a)) as (H1 & H2 & H3).
    split; [lia |]. split.
    + intros y [-> | Hy]; [lia | auto].
    + destruct H3 as [H3 | H3]; [| auto].
      destruct (Z.max_spec x a) as [[_ E] | [_ E]].
      * right. left. rewrite H3. symmetry. exact E.
      * left. rewrite H3. exact E.
Qed.

Lemma np_max_spec (a : list Z) (x : Z) (l : list Z) :
  a = x :: l ->
  exists m, np_max a = Ok m /\ In m a /\ forall y, In y a -> y <= m.
Proof.
  intros ->. exists (fold_left Z.max l x). cbn [np_max].
  destruct (fold_max_spec l x) as (H1 & H2 & H3).
  split; [reflexivity |]. split.
  - destruct H3 as [-> | H3]; [left; reflexivity | right; exact H3].
  - intros y [<- | Hy]; auto.
Qed.

(** [np.where(a == m)[0][0]] is the first position of [m] in [a]. *)
Lemma where_eq_first (a : list Z) (m i0 : Z) :
  In m a ->
  exists k : nat,
    getitem0 (where_eq_from i0 a m) = Ok (i0 + Z.of_nat k)
    /\ a !! k = Some m
    /\ forall j x, (j < k)%nat -> a !! j = Some x -> x <> m.
Proof.
  revert i0. induction a as [| x a IH]; intros i0 Hin; [destruct Hin |].
  cbn [where_eq_from]. destruct (Z.eqb_spec x m) as [E | N].
  - exists 0%nat. cbn. rewrite Z.add_0_r. subst. split; [reflexivity |].
    split; [reflexivity |]. intros j y Hj. lia.
  - destruct Hin as [E | Hin]; [contradiction |].
    destruct (IH (i0 + 1) Hin) as (k & Hk & Hm & Hfirst).
    exists (S k). split; [rewrite Hk; f_equal; lia |]. split; [exact Hm |].
    intros [| j] y Hj Hy.
    + cbn in Hy. congruence.
    + cbn in Hy. eapply Hfirst; [| exact Hy]. lia.
Qed.

Lemma In_lookup_Z (a : list Z) (y : Z) : In y a <-> exists j : nat, a !! j = Some y.
Proof. rewrite <- list_elem_of_In. apply list_elem_of_lookup. Qed.

(** The label selected from a non-empty array of areas: the first index
    whose area is the largest. *)
Lemma first_largest (areas : list Z) :
  areas <> [] ->
  exists (m : Z) (k : nat),
    np_max areas = Ok m
    /\ getitem0 (np_where_eq areas m) = Ok (Z.of_nat k)
    /\ areas !! k = Some m
    /\ (forall j x, areas !! j = Some x -> x <= m)
    /\ (forall j x, (j < k)%nat -> areas !! j = Some x -> x < m).
Proof.
  intros Hne. destruct areas as [| x l]; [contradiction |].
  destruct (np_max_spec (x :: l) x l eq_refl) as (m & Hm & Hin & Hmax).
  destruct (where_eq_first (x :: l) m 0 Hin) as (k & Hk & Hlk & Hfirst).
  exists m, k. split; [exact Hm |]. split; [exact Hk |]. split; [exact Hlk |].
  split.
  - intros j y Hy. apply Hmax. apply In_lookup_Z. eauto.
  - intros j y Hj Hy.
    assert (y <= m) by (apply Hmax; apply In_lookup_Z; eauto).
    assert (y <> m) by (eapply Hfirst; eauto). lia.
Qed.

Lemma range_lookup (n : Z) (i : nat) :
  (Z.of_nat i < n) -> range n !! i = Some (Z.of_nat i).
Proof.
  intros H. unfold range. rewrite list_lookup_fmap.
  rewrite lookup_seq_lt by lia. reflexivity.
Qed.

Lemma range_length (n : Z) : length (range n) = Z.to_nat n.
Proof. unfold range. rewrite length_fmap, length_seq. reflexivity. Qed.

Lemma ndi_sum_lookup (input labels : image) (n : Z) (i : nat) :
  Z.of_nat i < n ->
  ndi_sum input labels (range n) !! i = Some (label_area input labels (Z.of_nat i)).
Proof.
  intros H. unfold ndi_sum. rewrite list_lookup_fmap, range_lookup by exact H.
  reflexivity.
Qed.

Lemma ndi_sum_length (input labels : image) (n : Z) :
  length (ndi_sum input labels (range n)) = Z.to_nat n.
Proof. unfold ndi_sum. rewrite length_fmap. apply range_length. Qed.

Lemma same_shape_flatten (a b : image) :
  same_shape a b = true -> length (flatten a) = length (flatten b).
Proof.
  unfold same_shape, flatten. intros H. apply bool_decide_eq_true in H.
  revert b H. induction a as [| r a IH]; intros [| r' b] H; try discriminate H.
  - reflexivity.
  - cbn in H. injection H as Hr Hab. cbn.
    rewrite !List.length_app, Hr, (IH b Hab). reflexivity.
Qed.

Lemma pixels_labelled (vs ls : list Z) (v n : Z) :
  length vs = length ls ->
  forallb (fun '(x, l) => (0 <=? l) && (l <=? n) && Bool.eqb (x =? 0) (l =? 0))
          (zip vs ls) = true ->
  forallb (fun x => (x =? 0) || (x =? v)) vs = true ->
  Forall2 (pixel_labelled v n) vs ls.
Proof.
  revert ls. induction vs as [| x vs IH]; intros [| l ls] Hlen Hz Hb;
    try discriminate Hlen; [constructor |].
  cbn in Hz, Hb. apply andb_true_iff in Hz as [Hx Hz].
  apply andb_true_iff in Hb as [Hxb Hb].
  constructor; [| apply IH; [cbn in Hlen; lia | exact Hz | exact Hb]].
  apply andb_true_iff in Hx as [Hx He]. apply andb_true_iff in Hx as [H0 Hn].
  apply Bool.eqb_prop in He. unfold pixel_labelled.
  split; [lia |]. split.
  - destruct (Z.eqb_spec x 0), (Z.eqb_spec l 0); try discriminate He; tauto.
  - apply orb_true_iff in Hxb as [H | H]; apply Z.eqb_eq in H; auto.
Qed.

Lemma area_of_label (vs ls : list Z) (v n i : Z) :
  Forall2 (pixel_labelled v n) vs ls ->
  fold_right Z.add 0 (zip_with (fun x l => if l =? i then x else 0) vs ls)
  = if i =? 0 then 0
    else v * Z.of_nat (length (List.filter (fun l => l =? i) ls)).
Proof.
  induction 1 as [| x l vs ls (Hl & Hxl & Hx) _ IH]; cbn.
  - destruct (i =? 0); lia.
  - rewrite IH. destruct (Z.eqb_spec i 0) as [-> | Hi].
    + destruct (Z.eqb_spec l 0) as [E | N]; [| lia].
      assert (x = 0) by tauto. lia.
    + destruct (Z.eqb_spec l i) as [E | N]; cbn [length]; [| lia].
      assert (x = v) by (destruct Hx as [Hx | Hx]; [| exact Hx]; subst; tauto).
      lia.
Qed.

Lemma range_In (n z : Z) : In z (range n) <-> 0 <= z < n.
Proof.
  unfold range. rewrite in_map_iff. split.
  - intros (k & <- & Hk). apply in_seq in Hk. lia.
  - intros H. exists (Z.to_nat z). split; [lia |]. apply in_seq. lia.
Qed.

Lemma label_ok_unpack (blobs labels : image) (n v : Z) :
  label_ok blobs (labels, n) = true ->
  is_binary v blobs = true ->
  same_shape blobs labels = true
  /\ 0 <= n
  /\ Forall2 (pixel_labelled v n) (flatten blobs) (flatten labels)
  /\ (forall i, 1 <= i <= n -> 1 <= pixel_count labels i).
Proof.
  unfold label_ok, is_binary. intros H Hb.
  apply andb_true_iff in H as [H Hused]. apply andb_true_iff in H as [H Hpix].
  apply andb_true_iff in H as [Hshape Hn].
  split; [exact Hshape |]. split; [lia |]. split.
  - apply pixels_labelled; [apply same_shape_flatten; exact Hshape | exact Hpix | exact Hb].
  - intros i Hi. rewrite forallb_forall in Hused.
    specialize (Hused (i - 1)). rewrite range_In in Hused.
    specialize (Hused ltac:(lia)). apply existsb_exists in Hused as (l & Hin & Hl).
    replace (i - 1 + 1) with i in Hl by lia.
    unfold pixel_count.
    assert (Hf : In l (List.filter (fun l => l =? i) (flatten labels)))
      by (apply filter_In; auto).
    destruct (List.filter _ _); [destruct Hf | cbn [length]; lia].
Qed.

Lemma eq_mask_shape (labels : image) (l : Z) :
  same_shape labels (eq_mask labels l) = true.
Proof.
  unfold same_shape, eq_mask. apply bool_decide_eq_true.
  induction labels as [| r labels IH]; cbn; [reflexivity |].
  rewrite List.length_map, <- IH. reflexivity.
Qed.

Lemma same_shape_trans (a b c : image) :
  same_shape a b = true -> same_shape b c = true -> same_shape a c = true.
Proof.
  unfold same_shape. intros H1 H2.
  apply bool_decide_eq_true in H1. apply bool_decide_eq_true in H2.
  apply bool_decide_eq_true. congruence.
Qed.

Lemma eq_mask_all (labels : image) (l : Z) :
  Forall (fun x => x = l) (flatten labels) ->
  eq_mask labels l = map (map (fun _ => 1)) labels.
Proof.
  unfold flatten, eq_mask.
  induction labels as [| r labels IH]; cbn; intros H; [reflexivity |].
  apply Forall_app in H as [Hr H]. rewrite (IH H). f_equal.
  clear -Hr. induction Hr as [| x r Hx _ IHr]; cbn; [reflexivity |].
  rewrite IHr. subst x. rewrite Z.eqb_refl. reflexivity.
Qed.

Lemma ones_same_shape (a b : image) :
  same_shape a b = true ->
  map (map (fun _ => 1)) b = map (map (fun _ => 1)) a.
Proof.
  unfold same_shape. intros H. apply bool_decide_eq_true in H.
  revert b H. induction a as [| r a IH]; intros [| r' b] H; try discriminate H;
    [reflexivity |].
  cbn in H. injection H as Hr Hab. cbn. rewrite (IH b Hab). f_equal.
  clear -Hr. revert r' Hr. induction r as [| x r IHr]; intros [| y r'] Hr;
    try discriminate Hr; [reflexivity |].
  cbn. rewrite (IHr r'); [reflexivity | cbn in Hr; lia].
Qed.

(** The selection on an empty mask: the only area is that of label 0, the
    background, so label 0 is selected and every pixel of the mask returned
    is set. *)
Lemma largest_blob_empty (blobs labels : image) (n : Z) :
  all_zero blobs = true ->
  label_ok blobs (labels, n) = true ->
  n = 0
  /\ largest_blob blobs (labels, n) = Ok (map (map (fun _ => 1)) blobs).
Proof.
  intros Hz Hok.
  assert (Hb : is_binary 0 blobs = true).
  { unfold is_binary, all_zero in *. rewrite forallb_forall in Hz.
    apply forallb_forall. intros x Hx. rewrite (Hz x Hx). reflexivity. }
  destruct (label_ok_unpack _ _ _ _ Hok Hb) as (Hshape & Hn & Hpix & Hused).
  assert (Hall : Forall (fun x => x = 0) (flatten labels)).
  { clear -Hpix. induction Hpix as [| x l vs ls (_ & Hxl & Hx) _ IH];
      constructor; [| exact IH].
    destruct Hx as [Hx | Hx]; tauto. }
  assert (n = 0) as ->.
  { destruct (Z.eq_dec n 0) as [E | N]; [exact E | exfalso].
    pose proof (Hused 1 ltac:(lia)) as H1. unfold pixel_count in H1.
    assert (List.filter (fun l => l =? 1) (flatten labels) = []) as E.
    { clear -Hall. induction Hall as [| x ls Hx _ IH]; cbn; [reflexivity |].
      subst x. cbn. exact IH. }
    rewrite E in H1. cbn in H1. lia. }
  split; [reflexivity |].
  unfold largest_blob. change (range (0 + 1)) with [0].
  unfold ndi_sum. cbn [map np_max fold_left]. unfold mbind, result_bind.
  unfold np_where_eq. cbn [where_eq_from]. rewrite Z.eqb_refl. cbn [getitem0].
  rewrite (eq_mask_all labels 0 Hall). f_equal. apply ones_same_shape. exact Hshape.
Qed.

Section Selection.
Context {L : Libs}.

Lemma mrgaze_SegmentPupil_selection (roi : image) (cfg : config) :
  mrgaze.SegmentPupil roi cfg
  = match mrgaze_opened roi cfg with
    | None => Raise (UnboundLocalError "blobs")
    | Some blobs => largest_blob blobs (scipy_label blobs)
    end.
Proof.
  unfold mrgaze.SegmentPupil, mrgaze_opened.
  destruct (mrgaze.binarize _ _) as [b0 |]; cbn; [| reflexivity].
  unfold largest_blob. destruct (scipy_label _). reflexivity.
Qed.

Lemma geetee_SegmentPupil_selection (roi : image) :
  geetee.SegmentPupil roi
  = largest_blob (geetee_opened roi) (scipy_label (geetee_opened roi)).
Proof.
  unfold geetee.SegmentPupil, geetee_opened.
  destruct (cv2_threshold_binary_inv_otsu _ _ _) as [thresh b0]; cbn [snd].
  unfold largest_blob. destruct (scipy_label _). reflexivity.
Qed.

(** The engine on a frame whose selected rectangle is [(x, y, w, h)]. *)
Lemma mrgaze_engine_selected (frame : image) (cfg : config) (x y w h : Z) :
  let pupils := cascade_detectMultiScale frame (LBP_minneighbors cfg)
                  (Some (LBP_scalefactor cfg)) in
  pupils !! argmax (mrgaze.sizes pupils) = Some (x, y, w, h) ->
  mrgaze.PupilometryEngine frame cfg
  = (let pupil_roi := slice2 frame y (int32 (y + h)) x (int32 (x + w)) in
     pupil_bw ← mrgaze.SegmentPupil pupil_roi cfg;
     let '(c, axes, phi) := mrgaze.FitPupil pupil_bw pupil_roi in
     Ok (((PrimFloat.add (fst c) (Z2float x), PrimFloat.add (snd c) (Z2float y)),
          axes, phi),
         ((Int x, Int y), (Int (int32 (x + w)), Int (int32 (y + h)))),
         false)).
Proof.
  intros pupils H. unfold mrgaze.PupilometryEngine. fold pupils.
  destruct pupils as [| p ps] eqn:E; [discriminate H |].
  cbn [length Nat.ltb Nat.leb]. rewrite H. reflexivity.
Qed.

Lemma geetee_engine_selected (img : image) (x y w h : Z) :
  cascade_detectMultiScale img 40 None !! 0%nat = Some (x, y, w, h) ->
  geetee.PupilometryEngine img
  = (let pupil_roi := slice2 img y (int32 (y + h)) x (int32 (x + w)) in
     pupil_bw ← geetee.SegmentPupil pupil_roi;
     let '(c, axes, phi) := geetee.FitPupil pupil_bw pupil_roi in
     Ok (((PrimFloat.add (fst c) (Z2float x), PrimFloat.add (snd c) (Z2float y)),
          axes, phi),
         ((Int x, Int y), (Int (int32 (x + w)), Int (int32 (y + h)))),
         false)).
Proof.
  intros H. unfold geetee.PupilometryEngine.
  destruct (cascade_detectMultiScale img 40 None) as [| p ps] eqn:E;
    [discriminate H |].
  cbn [length Nat.ltb Nat.leb]. rewrite H. reflexivity.
Qed.

End Selection.

(** *** Independence of the label order *)

Lemma permutes_inj (sigma tau : Z -> Z) (n l i : Z) :
  permutes sigma tau n -> 0 <= l <= n -> 0 <= i <= n ->
  (sigma l =? sigma i) = (l =? i).
Proof.
  intros [H0 Hp] Hl Hi.
  destruct (Z.eqb_spec l i) as [-> | N]; [apply Z.eqb_refl |].
  apply Z.eqb_neq. intros E.
  destruct (Z.eq_dec l 0) as [-> | Nl], (Z.eq_dec i 0) as [-> | Ni]; try lia.
  - destruct (Hp i ltac:(lia)) as (? & _). lia.
  - destruct (Hp l ltac:(lia)) as (? & _). lia.
  - destruct (Hp l ltac:(lia)) as (_ & _ & Tl & _).
    destruct (Hp i ltac:(lia)) as (_ & _ & Ti & _). congruence.
Qed.

Lemma flatten_map (sigma : Z -> Z) (labels : image) :
  flatten (map (map sigma) labels) = map sigma (flatten labels).
Proof.
  unfold flatten. induction labels as [| r labels IH]; cbn; [reflexivity |].
  rewrite IH, List.map_app. reflexivity.
Qed.

Lemma labels_in_range (vs ls : list Z) (v n : Z) :
  Forall2 (pixel_labelled v n) vs ls -> Forall (fun l => 0 <= l <= n) ls.
Proof. induction 1 as [| x l vs ls (Hl & _) _ IH]; constructor; auto. Qed.

Lemma relabelled_pixels (sigma tau : Z -> Z) (vs ls : list Z) (v n : Z) :
  permutes sigma tau n ->
  Forall2 (pixel_labelled v n) vs ls ->
  Forall2 (pixel_labelled v n) vs (map sigma ls).
Proof.
  intros [H0 Hp]. induction 1 as [| x l vs ls (Hl & Hxl & Hx) _ IH]; cbn;
    constructor; [| exact IH].
  unfold pixel_labelled. destruct (Z.eq_dec l 0) as [-> | N].
  - rewrite H0. split; [lia |]. split; [tauto | exact Hx].
  - destruct (Hp l ltac:(lia)) as (Hs & _). split; [lia |].
    split; [| exact Hx]. split; intros; [tauto | lia].
Qed.

Lemma relabelled_count (sigma tau : Z -> Z) (ls : list Z) (n i : Z) :
  permutes sigma tau n ->
  Forall (fun l => 0 <= l <= n) ls -> 0 <= i <= n ->
  length (List.filter (fun l => l =? sigma i) (map sigma ls))
  = length (List.filter (fun l => l =? i) ls).
Proof.
  intros Hp Hls Hi. induction Hls as [| l ls Hl _ IH]; cbn; [reflexivity |].
  rewrite (permutes_inj sigma tau n l i Hp Hl Hi).
  destruct (l =? i); cbn; rewrite IH; reflexivity.
Qed.

Lemma relabelled_mask (sigma tau : Z -> Z) (labels : image) (n i : Z) :
  permutes sigma tau n ->
  Forall (fun l => 0 <= l <= n) (flatten labels) -> 0 <= i <= n ->
  eq_mask (map (map sigma) labels) (sigma i) = eq_mask labels i.
Proof.
  intros Hp Hls Hi. unfold eq_mask, flatten in *.
  induction labels as [| r labels IH]; cbn; [reflexivity |].
  cbn in Hls. apply Forall_app in Hls as [Hr Hls]. rewrite (IH Hls). f_equal.
  clear -Hp Hr Hi. induction Hr as [| l r Hl _ IHr]; cbn; [reflexivity |].
  rewrite IHr, (permutes_inj sigma tau n l i Hp Hl Hi). reflexivity.
Qed.

(** The selection from the pixel-level facts alone. *)
Lemma largest_blob_first_max (blobs labels : image) (n v : Z) :
  Forall2 (pixel_labelled v n) (flatten blobs) (flatten labels) ->
  (forall i, 1 <= i <= n -> 1 <= pixel_count labels i) ->
  0 < v -> 1 <= n ->
  exists pupil_label : Z,
    largest_blob blobs (labels, n) = Ok (eq_mask labels pupil_label)
    /\ 1 <= pupil_label <= n
    /\ (forall i, 1 <= i <= n ->
                  pixel_count labels i <= pixel_count labels pupil_label)
    /\ (forall i, 1 <= i < pupil_label ->
                  pixel_count labels i < pixel_count labels pupil_label).
Proof.
  intros Hpix Hused Hv Hn.
  assert (Harea : forall i : nat, Z.of_nat i < n + 1 ->
            ndi_sum blobs labels (range (n + 1)) !! i
            = Some (if Z.of_nat i =? 0 then 0
                    else v * pixel_count labels (Z.of_nat i))).
  { intros i Hi. rewrite ndi_sum_lookup by exact Hi. unfold label_area.
    erewrite area_of_label by exact Hpix. reflexivity. }
  destruct (first_largest (ndi_sum blobs labels (range (n + 1))))
    as (m & k & Hm & Hk & Hlk & Hmax & Hfirst).
  { intros E. apply (f_equal (@length Z)) in E. rewrite ndi_sum_length in E.
    cbn in E. lia. }
  assert (Hkn : Z.of_nat k < n + 1).
  { apply lookup_lt_Some in Hlk. rewrite ndi_sum_length in Hlk. lia. }
  assert (H1 : v * pixel_count labels 1 <= m).
  { apply (Hmax 1%nat). rewrite (Harea 1%nat) by lia. reflexivity. }
  pose proof (Hused 1 ltac:(lia)) as Hc1.
  rewrite (Harea k Hkn) in Hlk.
  destruct (Z.eqb_spec (Z.of_nat k) 0) as [E | N].
  { injection Hlk as <-. nia. }
  injection Hlk as Hmk.
  exists (Z.of_nat k). split; [| split; [lia | split]].
  - unfold largest_blob, mbind, result_bind. rewrite Hm, Hk. reflexivity.
  - intros i Hi.
    assert (Hle : v * pixel_count labels i <= m).
    { apply (Hmax (Z.to_nat i)). rewrite Harea by lia.
      rewrite Z2Nat.id by lia. destruct (Z.eqb_spec i 0); [lia | reflexivity]. }
    nia.
  - intros i Hi.
    assert (Hlt : v * pixel_count labels i < m).
    { apply (Hfirst (Z.to_nat i)); [lia |]. rewrite Harea by lia.
      rewrite Z2Nat.id by lia. destruct (Z.eqb_spec i 0); [lia | reflexivity]. }
    nia.
Qed.

(** The selection on a non-empty binary mask: the label returned is the
    first of the labels 1 .. [n] whose pixel count is the largest. *)
Lemma largest_blob_spec (blobs labels : image) (n v : Z) :
  label_ok blobs (labels, n) = true ->
  is_binary v blobs = true ->
  0 < v -> 1 <= n ->
  exists pupil_label : Z,
    largest_blob blobs (labels, n) = Ok (eq_mask labels pupil_label)
    /\ 1 <= pupil_label <= n
    /\ (forall i, 1 <= i <= n ->
                  pixel_count labels i <= pixel_count labels pupil_label)
    /\ (forall i, 1 <= i < pupil_label ->
                  pixel_count labels i < pixel_count labels pupil_label).
Proof.
  intros Hok Hb Hv Hn.
  destruct (label_ok_unpack _ _ _ _ Hok Hb) as (_ & _ & Hpix & Hused).
  apply (largest_blob_first_max blobs labels n v Hpix Hused Hv Hn).
Qed.

(** When one component is strictly the largest, renumbering the components
    does not change the mask selected. *)
Lemma largest_blob_relabelled (blobs labels : image) (n v : Z)
    (sigma tau : Z -> Z) (pupil_label : Z) :
  label_ok blobs (labels, n) = true ->
  is_binary v blobs = true ->
  0 < v -> 1 <= n ->
  permutes sigma tau n ->
  1 <= pupil_label <= n ->
  (forall i, 1 <= i <= n -> i <> pupil_label ->
             pixel_count labels i < pixel_count labels pupil_label) ->
  largest_blob blobs (map (map sigma) labels, n) = Ok (eq_mask labels pupil_label).
Proof.
  intros Hok Hb Hv Hn Hp HL Huniq.
  destruct (label_ok_unpack _ _ _ _ Hok Hb) as (_ & _ & Hpix & Hused).
  pose proof (labels_in_range _ _ _ _ Hpix) as Hrange.
  assert (Hcount : forall i, 0 <= i <= n ->
            pixel_count (map (map sigma) labels) (sigma i) = pixel_count labels i).
  { intros i Hi. unfold pixel_count. rewrite flatten_map.
    rewrite (relabelled_count sigma tau _ n i Hp Hrange Hi). reflexivity. }
  assert (Hpix' : Forall2 (pixel_labelled v n) (flatten blobs)
                    (flatten (map (map sigma) labels))).
  { rewrite flatten_map. apply (relabelled_pixels sigma tau); assumption. }
  assert (Hused' : forall j, 1 <= j <= n ->
                     1 <= pixel_count (map (map sigma) labels) j).
  { intros j Hj. destruct Hp as [H0 Hp].
    destruct (Hp j Hj) as (_ & Ht & _ & Hst).
    rewrite <- Hst, Hcount by lia. apply Hused. lia. }
  destruct (largest_blob_first_max blobs _ n v Hpix' Hused' Hv Hn)
    as (l' & Hsel & Hl' & Hmax' & _).
  transitivity (Ok (eq_mask (map (map sigma) labels) l')); [exact Hsel |].
  f_equal.
  destruct Hp as [H0 Hp].
  destruct (Hp l' Hl') as (_ & Ht & _ & Hst).
  destruct (Hp pupil_label HL) as (HsL & _).
  assert (tau l' = pupil_label) as E.
  { destruct (Z.eq_dec (tau l') pupil_label) as [E | N]; [exact E | exfalso].
    pose proof (Huniq (tau l') Ht N) as Hlt.
    pose proof (Hmax' (sigma pupil_label) HsL) as Hle.
    rewrite Hcount in Hle by lia.
    rewrite <- Hst in Hle. rewrite Hcount in Hle by lia. lia. }
  rewrite <- Hst, E.
  apply (relabelled_mask sigma tau labels n pupil_label); [split | |]; auto; lia.
Qed.

(** *** The mask, pixel by pixel *)

Lemma pixel_Some (img : image) (r c x : Z) :
  pixel img r c = Some x <->
  0 <= r /\ 0 <= c
  /\ exists row, img !! Z.to_nat r = Some row /\ row !! Z.to_nat c = Some x.
Proof.
  unfold pixel. destruct (Z.ltb_spec r 0); [cbn; split; [discriminate | lia] |].
  destruct (Z.ltb_spec c 0); [cbn; split; [discriminate | lia] |]. cbn.
  destruct (img !! Z.to_nat r) as [row |]; cbn.
  - split; [intros Hx; eauto 6 | intros (_ & _ & row' & E & Hx)].
    injection E as <-. exact Hx.
  - split; [discriminate | intros (_ & _ & row' & E & _); discriminate E].
Qed.

(** A pixel of [np.uint8(a == v)]. *)
Lemma eq_mask_pixel (a : image) (v r c : Z) :
  pixel (eq_mask a v) r c = (fun x => if x =? v then 1 else 0) <$> pixel a r c.
Proof.
  unfold pixel, eq_mask. destruct ((r <? 0) || (c <? 0)); [reflexivity |].
  change (map (map ?f) a) with (fmap (M := list) (fmap (M := list) f) a).
  unfold image in *. rewrite list_lookup_fmap.
  destruct (a !! Z.to_nat r) as [row |]; cbn; [| reflexivity].
  apply list_lookup_fmap.
Qed.

(** Pixels of two images of the same shape, paired as their flattenings
    pair them. *)
Lemma Forall2_flatten_pixel (P : Z -> Z -> Prop) (a b : image) :
  same_shape a b = true ->
  Forall2 P (flatten a) (flatten b) ->
  forall r c y, pixel b r c = Some y -> exists x, pixel a r c = Some x /\ P x y.
Proof.
  unfold same_shape, flatten. intros Hs. apply bool_decide_eq_true in Hs.
  revert b Hs. induction a as [| ra a IH]; intros [| rb b] Hs HF r c y Hy;
    try discriminate Hs.
  - apply pixel_Some in Hy as (_ & _ & row & E & _). discriminate E.
  - cbn in Hs. injection Hs as Hlen Hs. cbn in HF.
    apply Forall2_app_inv in HF as [Hrow Hrest]; [| exact Hlen].
    apply pixel_Some in Hy as (Hr & Hc & row & E & Hx).
    destruct (Z.to_nat r) as [| k] eqn:Ek.
    + cbn in E. injection E as <-.
      destruct (Forall2_lookup_r _ _ _ _ _ Hrow Hx) as (x & Hax & Hp).
      exists x. split; [| exact Hp]. apply pixel_Some.
      split; [exact Hr |]. split; [exact Hc |]. exists ra. rewrite Ek. auto.
    + cbn in E.
      destruct (IH b Hs Hrest (Z.of_nat k) c y) as (x & Hax & Hp).
      { apply pixel_Some. split; [lia |]. split; [exact Hc |].
        exists row. rewrite Nat2Z.id. auto. }
      exists x. split; [| exact Hp].
      apply pixel_Some in Hax as (_ & _ & row' & E' & Hx').
      rewrite Nat2Z.id in E'.
      apply pixel_Some. split; [exact Hr |]. split; [exact Hc |].
      exists row'. rewrite Ek. auto.
Qed.

(** The indicator mask of the label [l >= 1], pixel by pixel: it is set
    exactly where the labelling has [l], it holds 0 or 1, and where it is
    set the mask labelled is set. *)
Lemma eq_mask_indicator (blobs labels : image) (n v l : Z) :
  same_shape blobs labels = true ->
  Forall2 (pixel_labelled v n) (flatten blobs) (flatten labels) ->
  1 <= l ->
  same_shape blobs (eq_mask labels l) = true
  /\ (forall r c, pixel (eq_mask labels l) r c = Some 1 <-> pixel labels r c = Some l)
  /\ (forall r c x, pixel (eq_mask labels l) r c = Some x -> x = 0 \/ x = 1)
  /\ (forall r c, pixel (eq_mask labels l) r c = Some 1 -> pixel blobs r c = Some v).
Proof.
  intros Hs HF Hl.
  assert (Hset : forall r c, pixel (eq_mask labels l) r c = Some 1
                             <-> pixel labels r c = Some l).
  { intros r c. rewrite eq_mask_pixel.
    destruct (pixel labels r c) as [y |]; cbn; [| split; discriminate].
    destruct (Z.eqb_spec y l) as [-> | N]; split; try reflexivity; try discriminate.
    intros E. injection E as E. contradiction. }
  split; [apply (same_shape_trans _ labels); [exact Hs | apply eq_mask_shape] |].
  split; [exact Hset |]. split.
  - intros r c x. rewrite eq_mask_pixel.
    destruct (pixel labels r c) as [y |]; cbn; [| discriminate].
    intros E. injection E as <-. destruct (y =? l); auto.
  - intros r c H1. apply Hset in H1.
    destruct (Forall2_flatten_pixel _ blobs labels Hs HF r c l H1)
      as (x & Hx & _ & Hxl & Hxv).
    rewrite Hx. f_equal. destruct Hxv as [-> | ->]; [| reflexivity].
    assert (l = 0) by tauto. lia.
Qed.

(** C4: on a non-empty binary mask (foreground value [v], components
    labelled 1 .. [n]) [SegmentPupil] returns the indicator mask of one
    component, the one with the largest pixel count: the mask has the shape
    of the mask segmented, holds 0 and 1 only, is 1 exactly at the pixels
    that carry the label of that component, all of them foreground pixels.
    Among components of equal largest count it is the one with the smallest
    label, that is the first in the label order; and when one component is
    strictly the largest the mask does not depend on how the components are
    numbered.  [blobs] is the mask after the morphological opening, in
    mrgaze and in geetee. *)
Theorem C4_largest_component_selected :
  forall (L : Libs) (blobs labels : image) (n v : Z),
    scipy_label blobs = (labels, n) ->
    label_ok blobs (labels, n) = true ->
    is_binary v blobs = true ->
    0 < v -> 1 <= n ->
    exists (pupil_label : Z) (pupil_bw : image),
      1 <= pupil_label <= n
      /\ (forall i, 1 <= i <= n ->
                    pixel_count labels i <= pixel_count labels pupil_label)
      /\ (forall i, 1 <= i < pupil_label ->
                    pixel_count labels i < pixel_count labels pupil_label)
      /\ same_shape blobs pupil_bw = true
      /\ (forall r c, pixel pupil_bw r c = Some 1
                      <-> pixel labels r c = Some pupil_label)
      /\ (forall r c x, pixel pupil_bw r c = Some x -> x = 0 \/ x = 1)
      /\ (forall r c, pixel pupil_bw r c = Some 1 -> pixel blobs r c = Some v)
      /\ (forall roi cfg,
            mrgaze_opened roi cfg = Some blobs ->
            mrgaze.SegmentPupil roi cfg = Ok pupil_bw)
      /\ (forall roi,
            geetee_opened roi = blobs ->
            geetee.SegmentPupil roi = Ok pupil_bw)
      /\ (forall sigma tau,
            permutes sigma tau n ->
            (forall i, 1 <= i <= n -> i <> pupil_label ->
                       pixel_count labels i < pixel_count labels pupil_label) ->
            (forall roi cfg,
               mrgaze_opened roi cfg = Some blobs ->
               @mrgaze.SegmentPupil (with_relabelling sigma L) roi cfg
               = Ok pupil_bw)
            /\ (forall roi,
                  geetee_opened roi = blobs ->
                  @geetee.SegmentPupil (with_relabelling sigma L) roi
                  = Ok pupil_bw)).
Proof.
  intros L blobs labels n v Hlab Hok Hb Hv Hn.
  destruct (largest_blob_spec blobs labels n v Hok Hb Hv Hn)
    as (pl & Hsel & Hpl & Hmax & Hfirst).
  destruct (label_ok_unpack _ _ _ _ Hok Hb) as (Hshape & _ & Hpix & _).
  destruct (eq_mask_indicator blobs labels n v pl Hshape Hpix ltac:(lia))
    as (M1 & M2 & M3 & M4).
  exists pl, (eq_mask labels pl).
  split; [exact Hpl |]. split; [exact Hmax |]. split; [exact Hfirst |].
  split; [exact M1 |]. split; [exact M2 |]. split; [exact M3 |]. split; [exact M4 |].
  split; [| split].
  - intros roi cfg Ho. rewrite mrgaze_SegmentPupil_selection, Ho, Hlab. exact Hsel.
  - intros roi Ho. rewrite geetee_SegmentPupil_selection, Ho, Hlab. exact Hsel.
  - intros sigma tau Hp Huniq.
    pose proof (largest_blob_relabelled blobs labels n v sigma tau pl
                  Hok Hb Hv Hn Hp Hpl Huniq) as Hrel.
    split.
    + intros roi cfg Ho.
      rewrite (@mrgaze_SegmentPupil_selection (with_relabelling sigma L)).
      change (@mrgaze_opened (with_relabelling sigma L) roi cfg)
        with (@mrgaze_opened L roi cfg).
      rewrite Ho. cbn [scipy_label with_relabelling]. rewrite Hlab. exact Hrel.
    + intros roi Ho.
      rewrite (@geetee_SegmentPupil_selection (with_relabelling sigma L)).
      change (@geetee_opened (with_relabelling sigma L) roi)
        with (@geetee_opened L roi).
      rewrite Ho. cbn [scipy_label with_relabelling]. rewrite Hlab. exact Hrel.
Qed.

(** The mask of two blobs: the four-pixel blob is returned, from a ROI
    that the libraries of the example threshold to that mask. *)
Lemma C4_two_blobs_witness :
  exists (pupil_label : Z) (pupil_bw : image),
    1 <= pupil_label <= 2
    /\ (forall i, 1 <= i <= 2 ->
          pixel_count two_blobs_labels i <= pixel_count two_blobs_labels pupil_label)
    /\ same_shape two_blobs pupil_bw = true
    /\ (forall r c, pixel pupil_bw r c = Some 1
                    <-> pixel two_blobs_labels r c = Some pupil_label)
    /\ @mrgaze.SegmentPupil two_blobs_libs
         [[9; 9; 9; 9]; [9; 9; 9; 9]; [9; 9; 9; 9]] (example_cfg "otsu")
       = Ok pupil_bw
    /\ @geetee.SegmentPupil two_blobs_libs
         [[9; 9; 9; 9]; [9; 9; 9; 9]; [9; 9; 9; 9]]
       = Ok pupil_bw.
Proof.
  destruct (C4_largest_component_selected two_blobs_libs two_blobs two_blobs_labels
              2 255)
    as (pl & bw & H1 & H2 & _ & H4 & H5 & _ & _ & H8 & H9 & _);
    [reflexivity | reflexivity | reflexivity | lia | lia |].
  exists pl, bw. split; [exact H1 |]. split; [exact H2 |]. split; [exact H4 |].
  split; [exact H5 |]. split; [apply H8; reflexivity | apply H9; reflexivity].
Defined.

(** The larger blob is returned, whichever of the two labels it carries. *)
Example SegmentPupil_two_blobs :
  @mrgaze.SegmentPupil two_blobs_libs [[9; 9; 9; 9]; [9; 9; 9; 9]; [9; 9; 9; 9]]
     (example_cfg "otsu")
  = Ok [[0; 0; 1; 1]; [0; 0; 1; 1]; [0; 0; 0; 0]]
  /\ @mrgaze.SegmentPupil
       (with_relabelling (fun l => if l =? 0 then 0 else 3 - l) two_blobs_libs)
       [[9; 9; 9; 9]; [9; 9; 9; 9]; [9; 9; 9; 9]] (example_cfg "otsu")
     = Ok [[0; 0; 1; 1]; [0; 0; 1; 1]; [0; 0; 0; 0]].
Proof. split; reflexivity. Qed.

(** Two blobs of two pixels each: the first label wins. *)
Example SegmentPupil_tie :
  @mrgaze.SegmentPupil
     (example_libs [] [[1; 1; 0; 1; 1]] [[1; 1; 0; 1; 1]] ([[1; 1; 0; 2; 2]], 2)
        [] nan_ellipse)
     [[9; 9; 9; 9; 9]] (example_cfg "kmeans")
  = Ok [[1; 1; 0; 0; 0]].
Proof. reflexivity. Qed.

(** ** Order of doubles *)

Lemma SFleb_key (x y : spec_float) :
  x <> S754_nan -> y <> S754_nan ->
  (SFleb x y = true <-> lex_le (SFkey x) (SFkey y)).
Proof.
  intros Hx Hy. unfold SFleb, SFcompare, lex_le, SFkey.
  destruct x as [sx | sx | | sx mx ex]; [| | contradiction |];
    (destruct y as [sy | sy | | sy my ey]; [| | contradiction |]);
    try destruct sx; try destruct sy;
    try (split; [intros _; lia | reflexivity]);
    try (split; [discriminate | intros H; exfalso; lia]).
  - (* two negative values *)
    change (Pos.compare_cont Eq mx my) with (Pos.compare mx my).
    destruct (Z.compare_spec ex ey) as [E | E | E].
    + destruct (Pos.compare_spec mx my) as [F | F | F]; cbn;
        (split; [intros H; try discriminate H; lia | intros H; try reflexivity; exfalso; lia]).
    + split; [discriminate | intros H; exfalso; lia].
    + split; [intros _; lia | reflexivity].
  - (* two positive values *)
    change (Pos.compare_cont Eq mx my) with (Pos.compare mx my).
    destruct (Z.compare_spec ex ey) as [E | E | E].
    + destruct (Pos.compare_spec mx my) as [F | F | F];
        (split; [intros H; try discriminate H; lia | intros H; try reflexivity; exfalso; lia]).
    + split; [intros _; lia | reflexivity].
    + split; [discriminate | intros H; exfalso; lia].
Qed.

Lemma is_nan_spec (x : float) :
  PrimFloat.is_nan x = true <-> Prim2SF x = S754_nan.
Proof.
  unfold PrimFloat.is_nan. rewrite FloatAxioms.eqb_spec. unfold SFeqb, SFcompare.
  destruct (Prim2SF x) as [s | s | | s m e].
  - split; discriminate.
  - destruct s; split; discriminate.
  - split; reflexivity.
  - change (Pos.compare_cont Eq m m) with (Pos.compare m m).
    rewrite Z.compare_refl, Pos.compare_refl. destruct s; split; discriminate.
Qed.

Lemma not_nan_spec (x : float) :
  PrimFloat.is_nan x = false <-> Prim2SF x <> S754_nan.
Proof.
  rewrite <- is_nan_spec. destruct (PrimFloat.is_nan x); split; congruence.
Qed.

Lemma leb_refl (a : float) :
  PrimFloat.is_nan a = false -> PrimFloat.leb a a = true.
Proof.
  intros Ha. apply not_nan_spec in Ha. rewrite FloatAxioms.leb_spec.
  apply SFleb_key; [exact Ha | exact Ha |].
  unfold lex_le. destruct (SFkey (Prim2SF a)) as [[k1 k2] k3]. lia.
Qed.

Lemma leb_total (a b : float) :
  PrimFloat.is_nan a = false -> PrimFloat.is_nan b = false ->
  PrimFloat.leb a b = false -> PrimFloat.leb b a = true.
Proof.
  intros Ha Hb H. apply not_nan_spec in Ha. apply not_nan_spec in Hb.
  rewrite FloatAxioms.leb_spec in H. rewrite FloatAxioms.leb_spec. apply SFleb_key; [exact Hb | exact Ha |].
  assert (N : ~ lex_le (SFkey (Prim2SF a)) (SFkey (Prim2SF b))).
  { intros K. apply (SFleb_key _ _ Ha Hb) in K. congruence. }
  unfold lex_le in *.
  destruct (SFkey (Prim2SF a)) as [[a1 a2] a3], (SFkey (Prim2SF b)) as [[b1 b2] b3].
  lia.
Qed.

Lemma leb_trans (a b c : float) :
  PrimFloat.is_nan a = false -> PrimFloat.is_nan b = false ->
  PrimFloat.is_nan c = false ->
  PrimFloat.leb a b = true -> PrimFloat.leb b c = true -> PrimFloat.leb a c = true.
Proof.
  intros Ha Hb Hc. apply not_nan_spec in Ha. apply not_nan_spec in Hb.
  apply not_nan_spec in Hc. rewrite !FloatAxioms.leb_spec.
  rewrite (SFleb_key _ _ Ha Hb), (SFleb_key _ _ Hb Hc), (SFleb_key _ _ Ha Hc).
  unfold lex_le.
  destruct (SFkey (Prim2SF a)) as [[a1 a2] a3], (SFkey (Prim2SF b)) as [[b1 b2] b3],
    (SFkey (Prim2SF c)) as [[c1 c2] c3].
  lia.
Qed.

(** *** Rounding keeps the sign: no NaN from a non-negative mantissa *)

Lemma iter_pos_invariant {A} (P : A -> Prop) (f : A -> A) :
  (forall x, P x -> P (f x)) ->
  forall (p : positive) (x : A), P x -> P (SpecFloat.iter_pos f p x).
Proof.
  intros Hf. induction p as [p IH | p IH |]; intros x Hx; cbn.
  - apply IH, IH, Hf, Hx.
  - apply IH, IH, Hx.
  - apply Hf, Hx.
Qed.

Lemma shr_1_nonneg (mrs : shr_record) : 0 <= shr_m mrs -> 0 <= shr_m (shr_1 mrs).
Proof.
  destruct mrs as [m r s]. cbn [shr_m]. intros H.
  destruct m as [| [p | p |] | p]; cbn; lia.
Qed.

Lemma shr_nonneg (mrs : shr_record) (e n : Z) :
  0 <= shr_m mrs -> 0 <= shr_m (fst (shr mrs e n)).
Proof.
  intros H. unfold shr. destruct n as [| p | p]; cbn [fst]; [exact H | | exact H].
  apply (iter_pos_invariant (fun mrs => 0 <= shr_m mrs)); [apply shr_1_nonneg | exact H].
Qed.

Lemma shr_record_of_loc_m (m : Z) (l : location) : shr_m (shr_record_of_loc m l) = m.
Proof. destruct l as [| []]; reflexivity. Qed.

Lemma shr_fexp_nonneg (m e : Z) (l : location) :
  0 <= m -> 0 <= shr_m (fst (shr_fexp prec emax m e l)).
Proof.
  intros H. unfold shr_fexp. apply shr_nonneg. rewrite shr_record_of_loc_m. exact H.
Qed.

Lemma round_nearest_even_nonneg (mx : Z) (lx : location) :
  0 <= mx -> 0 <= round_nearest_even mx lx.
Proof.
  intros H. unfold round_nearest_even.
  destruct lx as [| []]; try destruct (Z.even mx); lia.
Qed.

Lemma binary_round_aux_nonneg (mx ex : Z) (lx : location) :
  0 <= mx -> SFnonneg (binary_round_aux prec emax false mx ex lx).
Proof.
  intros H. unfold binary_round_aux.
  pose proof (shr_fexp_nonneg mx ex lx H) as H1.
  destruct (shr_fexp prec emax mx ex lx) as [mrs' e']. cbn [fst] in H1.
  pose proof (shr_fexp_nonneg _ e' loc_Exact
                (round_nearest_even_nonneg _ (loc_of_shr_record mrs') H1)) as H2.
  destruct (shr_fexp prec emax _ e' loc_Exact) as [mrs'' e'']. cbn [fst] in H2.
  destruct (shr_m mrs'') as [| m | m]; [exact I | | lia].
  destruct (Z.leb e'' (Z.sub emax prec)); exact I.
Qed.

Lemma Z2float_nonneg (z : Z) : 0 <= z -> SFnonneg (Prim2SF (Z2float z)).
Proof.
  intros H. unfold Z2float. destruct (Z.ltb_spec z 0); [lia |].
  rewrite of_uint63_spec. unfold binary_normalize.
  pose proof (Uint63.to_Z_bounded (Uint63.of_Z z)) as Hb.
  destruct (Uint63.to_Z (Uint63.of_Z z)) as [| m | m]; [exact I | | lia].
  unfold binary_round. destruct (shl_align _ _ _) as [mz ez].
  apply binary_round_aux_nonneg. lia.
Qed.

Lemma sqrt_nonneg (x : float) :
  SFnonneg (Prim2SF x) -> SFnonneg (Prim2SF (PrimFloat.sqrt x)).
Proof.
  rewrite FloatAxioms.sqrt_spec. unfold SF64sqrt, SFsqrt.
  destruct (Prim2SF x) as [[] | [] | | [] m e]; cbn; try tauto. intros _.
  unfold SFsqrt_core_binary.
  pose proof (Z.sqrtrem_sqrt
    match e - 2 * Z.min (fexp prec emax (Z.div2 (Zdigits2 (Z.pos m) + e + 1))) (Z.div2 e) with
    | Z.pos _ => Z.shiftl (Z.pos m)
                   (e - 2 * Z.min (fexp prec emax (Z.div2 (Zdigits2 (Z.pos m) + e + 1))) (Z.div2 e))
    | 0 => Z.pos m
    | Z.neg _ => 0
    end) as Hq.
  destruct (Z.sqrtrem _) as [q r]. cbn [fst] in Hq.
  apply binary_round_aux_nonneg. rewrite Hq. apply Z.sqrt_nonneg.
Qed.

Lemma SFnonneg_not_nan (x : float) :
  SFnonneg (Prim2SF x) -> PrimFloat.is_nan x = false.
Proof.
  intros H. apply not_nan_spec. intros E. rewrite E in H. exact H.
Qed.

Lemma int32_small (z : Z) : - 2 ^ 31 <= z < 2 ^ 31 -> int32 z = z.
Proof. intros H. unfold int32. rewrite Z.mod_small; lia. Qed.

(** ** Candidate selection (C1) *)

Lemma argmax_from_spec (l pre : list float) (mp : float) (best : nat) :
  Forall (fun x => PrimFloat.is_nan x = false) (pre ++ l) ->
  pre !! best = Some mp ->
  (forall j x, pre !! j = Some x -> PrimFloat.leb x mp = true) ->
  (forall j x, (j < best)%nat -> pre !! j = Some x -> PrimFloat.leb mp x = false) ->
  exists m,
    (pre ++ l) !! argmax_from mp best (length pre) l = Some m
    /\ (forall j x, (pre ++ l) !! j = Some x -> PrimFloat.leb x m = true)
    /\ (forall j x, (j < argmax_from mp best (length pre) l)%nat ->
                    (pre ++ l) !! j = Some x -> PrimFloat.leb m x = false).
Proof.
  revert pre mp best. induction l as [| x l IH]; intros pre mp best Hnan Hbest Hle Hlt.
  - cbn [argmax_from]. rewrite app_nil_r. exists mp. auto.
  - pose proof (proj1 (Forall_forall _ _) Hnan) as Hin.
    assert (Hmp : PrimFloat.is_nan mp = false).
    { apply Hin. apply elem_of_app. left.
      eapply list_elem_of_lookup_2. exact Hbest. }
    assert (Hx : PrimFloat.is_nan x = false).
    { apply Hin. apply elem_of_app. right. apply list_elem_of_here. }
    assert (Hpre : forall j y, pre !! j = Some y -> PrimFloat.is_nan y = false).
    { intros j y Hy. apply Hin. apply elem_of_app. left.
      eapply list_elem_of_lookup_2. exact Hy. }
    clear Hin.
    cbn [argmax_from]. rewrite Hmp.
    replace (pre ++ x :: l) with ((pre ++ [x]) ++ l) in *
      by (rewrite <- app_assoc; reflexivity).
    replace (S (length pre)) with (length (pre ++ [x]))
      by (rewrite length_app; cbn; lia).
    destruct (PrimFloat.leb x mp) eqn:Hxmp.
    + apply IH; [exact Hnan | | |].
      * rewrite lookup_app_l; [exact Hbest |]. eapply lookup_lt_Some. exact Hbest.
      * intros j y Hy. apply lookup_snoc_Some in Hy as [[_ Hy] | [_ <-]];
          [eapply Hle; exact Hy | exact Hxmp].
      * intros j y Hj Hy. apply lookup_snoc_Some in Hy as [[_ Hy] | [E _]].
        -- eapply Hlt; [exact Hj | exact Hy].
        -- apply lookup_lt_Some in Hbest. lia.
    + apply IH; [exact Hnan | | |].
      * rewrite lookup_app_r by lia. rewrite Nat.sub_diag. reflexivity.
      * intros j y Hy. apply lookup_snoc_Some in Hy as [[_ Hy] | [_ <-]].
        -- apply (leb_trans y mp x); [eapply Hpre; exact Hy | exact Hmp | exact Hx
                                     | eapply Hle; exact Hy |].
           apply leb_total; assumption.
        -- apply leb_refl. exact Hx.
      * intros j y Hj Hy. apply lookup_snoc_Some in Hy as [[_ Hy] | [E _]]; [| lia].
        destruct (PrimFloat.leb x y) eqn:Hxy; [| reflexivity].
        assert (PrimFloat.leb x mp = true) as C; [| congruence].
        apply (leb_trans x y mp); [exact Hx | eapply Hpre; exact Hy | exact Hmp
                                  | exact Hxy | eapply Hle; exact Hy].
Qed.

(** [argmax] on non-NaN doubles: the first index of a largest element. *)
Lemma argmax_spec (l : list float) :
  l <> [] ->
  Forall (fun x => PrimFloat.is_nan x = false) l ->
  exists m,
    l !! argmax l = Some m
    /\ (forall j x, l !! j = Some x -> PrimFloat.leb x m = true)
    /\ (forall j x, (j < argmax l)%nat -> l !! j = Some x -> PrimFloat.leb m x = false).
Proof.
  intros Hne Hnan. destruct l as [| x l]; [contradiction |].
  apply (argmax_from_spec l [x] x 0%nat); [exact Hnan | reflexivity | |].
  - intros [| j] y Hy; [| destruct j; discriminate Hy].
    injection Hy as <-. apply leb_refl. inversion Hnan; assumption.
  - intros j y Hj. lia.
Qed.

Lemma sizes_lookup (pupils : list rect) (j : nat) (x y w h : Z) :
  pupils !! j = Some (x, y, w, h) ->
  area_fits (x, y, w, h) ->
  mrgaze.sizes pupils !! j = Some (geometric_mean w h).
Proof.
  intros H Hfit. unfold mrgaze.sizes.
  revert j H. induction pupils as [| p ps IH]; intros [| j] H; try discriminate H.
  - cbn in H. injection H as ->. cbn. unfold geometric_mean. cbn in Hfit.
    rewrite int32_small by lia. reflexivity.
  - cbn in H. cbn. apply IH. exact H.
Qed.

Lemma geometric_mean_not_nan (w h : Z) :
  0 <= w * h -> PrimFloat.is_nan (geometric_mean w h) = false.
Proof.
  intros H. apply SFnonneg_not_nan, sqrt_nonneg, Z2float_nonneg, H.
Qed.

Lemma sizes_not_nan (pupils : list rect) :
  Forall area_fits pupils ->
  Forall (fun s => PrimFloat.is_nan s = false) (mrgaze.sizes pupils).
Proof.
  unfold mrgaze.sizes. induction 1 as [| [[[x y] w] h] ps Hfit _ IH]; cbn;
    constructor; [| exact IH].
  cbn in Hfit. rewrite int32_small by lia. apply geometric_mean_not_nan. lia.
Qed.

Lemma sizes_length (pupils : list rect) :
  length (mrgaze.sizes pupils) = length pupils.
Proof. unfold mrgaze.sizes. apply List.length_map. Qed.

(** Segmentation returns a mask when the method is known and the labelling
    counts its components. *)
Lemma largest_blob_returns (blobs labels : image) (n : Z) :
  0 <= n -> exists l, largest_blob blobs (labels, n) = Ok (eq_mask labels l).
Proof.
  intros Hn.
  destruct (first_largest (ndi_sum blobs labels (range (n + 1))))
    as (m & k & Hm & Hk & _).
  { intros E. apply (f_equal (@length Z)) in E. rewrite ndi_sum_length in E.
    cbn in E. lia. }
  exists (Z.of_nat k). unfold largest_blob, mbind, result_bind.
  rewrite Hm, Hk. reflexivity.
Qed.

Section Returns.
Context {L : Libs}.

Lemma mrgaze_SegmentPupil_returns (roi : image) (cfg : config) :
  PUPILSEG_method cfg = "otsu" \/ PUPILSEG_method cfg = "kmeans" ->
  label_counts ->
  exists pupil_bw, mrgaze.SegmentPupil roi cfg = Ok pupil_bw.
Proof.
  intros Hm Hl. rewrite mrgaze_SegmentPupil_selection. unfold mrgaze_opened.
  destruct (mrgaze.binarize _ _) as [b0 |] eqn:Hb.
  - cbn. specialize (Hl (cv2_morphologyEx b0 MORPH_OPEN
                           (cv2_getStructuringElement_ellipse 5 5))).
    destruct (scipy_label _) as [labels n]. cbn in Hl.
    destruct (largest_blob_returns
                (cv2_morphologyEx b0 MORPH_OPEN (cv2_getStructuringElement_ellipse 5 5))
                labels n Hl) as [l Hsel].
    eauto.
  - apply binarize_None in Hb. destruct Hb, Hm; contradiction.
Qed.

Lemma geetee_SegmentPupil_returns (roi : image) :
  label_counts -> exists pupil_bw, geetee.SegmentPupil roi = Ok pupil_bw.
Proof.
  intros Hl. rewrite geetee_SegmentPupil_selection.
  specialize (Hl (geetee_opened roi)).
  destruct (scipy_label _) as [labels n]. cbn in Hl.
  destruct (largest_blob_returns (geetee_opened roi) labels n Hl) as [l Hsel].
  eauto.
Qed.

Lemma engine_result_returns (segmented : result image)
    (fit : image -> image -> ellipse) (frame : image) (x y w h : Z) :
  (exists pupil_bw, segmented = Ok pupil_bw) ->
  exists (cx cy : float) (axes : float * float) (phi : float),
    engine_result segmented fit frame x y w h
    = Ok (((PrimFloat.add cx (Z2float x), PrimFloat.add cy (Z2float y)), axes, phi),
          ((Int x, Int y), (Int (int32 (x + w)), Int (int32 (y + h)))),
          false).
Proof.
  intros [bw ->]. unfold engine_result. cbn [mbind result_bind].
  destruct (fit bw _) as [[[cx cy] axes] phi]. exists cx, cy, axes, phi. reflexivity.
Qed.

End Returns.

(** C1, as the code has it.  With at least one rectangle from the detector
    (each of an area that fits [int32]) the mrgaze engine selects the first
    rectangle whose [sqrt(w * h)] is the largest; the geetee engine takes
    the first rectangle the detector returned.  Both cut that rectangle out
    as the ROI, segment it and fit the ellipse, and return the ellipse with
    its centre moved by the ROI origin [(x0, y0)], the rectangle, and
    [blink = False]; they return whenever segmentation does, which it does
    for the methods ['otsu'] and ['kmeans']. *)
Theorem C1_engine_on_candidates :
  forall (L : Libs) (frame : image) (cfg : config),
    (forall pupils : list rect,
       pupils = cascade_detectMultiScale frame (LBP_minneighbors cfg)
                  (Some (LBP_scalefactor cfg)) ->
       pupils <> [] ->
       Forall area_fits pupils ->
       exists (best : nat) (x y w h : Z),
         best = argmax (mrgaze.sizes pupils)
         /\ pupils !! best = Some (x, y, w, h)
         /\ (forall j x' y' w' h',
               pupils !! j = Some (x', y', w', h') ->
               PrimFloat.leb (geometric_mean w' h') (geometric_mean w h) = true)
         /\ (forall j x' y' w' h',
               (j < best)%nat -> pupils !! j = Some (x', y', w', h') ->
               PrimFloat.leb (geometric_mean w h) (geometric_mean w' h') = false)
         /\ mrgaze.PupilometryEngine frame cfg
            = engine_result
                (mrgaze.SegmentPupil
                   (slice2 frame y (int32 (y + h)) x (int32 (x + w))) cfg)
                mrgaze.FitPupil frame x y w h
         /\ (PUPILSEG_method cfg = "otsu" \/ PUPILSEG_method cfg = "kmeans" ->
             label_counts ->
             exists (cx cy : float) (axes : float * float) (phi : float),
               mrgaze.PupilometryEngine frame cfg
               = Ok (((PrimFloat.add cx (Z2float x), PrimFloat.add cy (Z2float y)),
                      axes, phi),
                     ((Int x, Int y), (Int (int32 (x + w)), Int (int32 (y + h)))),
                     false)))
    /\ (forall (x y w h : Z) (others : list rect),
          cascade_detectMultiScale frame 40 None = (x, y, w, h) :: others ->
          geetee.PupilometryEngine frame
          = engine_result
              (geetee.SegmentPupil
                 (slice2 frame y (int32 (y + h)) x (int32 (x + w))))
              geetee.FitPupil frame x y w h
          /\ (label_counts ->
              exists (cx cy : float) (axes : float * float) (phi : float),
                geetee.PupilometryEngine frame
                = Ok (((PrimFloat.add cx (Z2float x), PrimFloat.add cy (Z2float y)),
                       axes, phi),
                      ((Int x, Int y), (Int (int32 (x + w)), Int (int32 (y + h)))),
                      false))).
Proof.
  intros L frame cfg. split.
  - intros pupils Hp Hne Hfit.
    destruct (argmax_spec (mrgaze.sizes pupils)) as (m & Hm & Hmax & Hfirst).
    { intros E. apply (f_equal (@length float)) in E.
      rewrite sizes_length in E. destruct pupils; [contradiction | discriminate E]. }
    { apply sizes_not_nan, Hfit. }
    destruct (pupils !! argmax (mrgaze.sizes pupils)) as [[[[x y] w] h] |] eqn:Hbest.
    2:{ apply lookup_ge_None in Hbest. apply lookup_lt_Some in Hm.
        rewrite sizes_length in Hm. lia. }
    assert (Hall : forall j r, pupils !! j = Some r -> area_fits r).
    { intros j r Hr. rewrite Forall_forall in Hfit. apply Hfit.
      eapply list_elem_of_lookup_2. exact Hr. }
    rewrite (sizes_lookup _ _ _ _ _ _ Hbest (Hall _ _ Hbest)) in Hm.
    injection Hm as <-.
    assert (Heng : mrgaze.PupilometryEngine frame cfg
                   = engine_result
                       (mrgaze.SegmentPupil
                          (slice2 frame y (int32 (y + h)) x (int32 (x + w))) cfg)
                       mrgaze.FitPupil frame x y w h).
    { subst pupils. rewrite (mrgaze_engine_selected frame cfg x y w h Hbest).
      reflexivity. }
    exists (argmax (mrgaze.sizes pupils)), x, y, w, h.
    split; [reflexivity |]. split; [exact Hbest |]. split; [| split; [| split]].
    + intros j x' y' w' h' Hj. apply (Hmax j).
      apply (sizes_lookup pupils j x' y' w' h'); [exact Hj | apply (Hall _ _ Hj)].
    + intros j x' y' w' h' Hlt Hj. apply (Hfirst j); [exact Hlt |].
      apply (sizes_lookup pupils j x' y' w' h'); [exact Hj | apply (Hall _ _ Hj)].
    + exact Heng.
    + intros Hmeth Hlab. rewrite Heng. apply engine_result_returns.
      apply mrgaze_SegmentPupil_returns; assumption.
  - intros x y w h others Hd.
    assert (Heng : geetee.PupilometryEngine frame
                   = engine_result
                       (geetee.SegmentPupil
                          (slice2 frame y (int32 (y + h)) x (int32 (x + w))))
                       geetee.FitPupil frame x y w h).
    { rewrite (geetee_engine_selected frame x y w h); [reflexivity |].
      rewrite Hd. reflexivity. }
    split; [exact Heng |].
    intros Hlab. rewrite Heng. apply engine_result_returns.
    apply geetee_SegmentPupil_returns, Hlab.
Qed.

Lemma C1_two_rects_witness :
  (exists (best : nat) (x y w h : Z),
     best = argmax (mrgaze.sizes [(0, 0, 1, 1); (0, 0, 2, 2)])
     /\ [(0, 0, 1, 1); (0, 0, 2, 2)] !! best = Some (x, y, w, h)
     /\ (forall j x' y' w' h',
           [(0, 0, 1, 1); (0, 0, 2, 2)] !! j = Some (x', y', w', h') ->
           PrimFloat.leb (geometric_mean w' h') (geometric_mean w h) = true)
     /\ (forall j x' y' w' h',
           (j < best)%nat ->
           [(0, 0, 1, 1); (0, 0, 2, 2)] !! j = Some (x', y', w', h') ->
           PrimFloat.leb (geometric_mean w h) (geometric_mean w' h') = false)
     /\ @mrgaze.PupilometryEngine two_rects_libs two_rects_frame (example_cfg "otsu")
        = engine_result
            (@mrgaze.SegmentPupil two_rects_libs
               (slice2 two_rects_frame y (int32 (y + h)) x (int32 (x + w)))
               (example_cfg "otsu"))
            (@mrgaze.FitPupil two_rects_libs) two_rects_frame x y w h
     /\ exists (cx cy : float) (axes : float * float) (phi : float),
          @mrgaze.PupilometryEngine two_rects_libs two_rects_frame (example_cfg "otsu")
          = Ok (((PrimFloat.add cx (Z2float x), PrimFloat.add cy (Z2float y)),
                 axes, phi),
                ((Int x, Int y), (Int (int32 (x + w)), Int (int32 (y + h)))),
                false))
  /\ @geetee.PupilometryEngine two_rects_libs two_rects_frame
     = engine_result
         (@geetee.SegmentPupil two_rects_libs
            (slice2 two_rects_frame 0 (int32 (0 + 1)) 0 (int32 (0 + 1))))
         (@geetee.FitPupil two_rects_libs) two_rects_frame 0 0 1 1
  /\ exists (cx cy : float) (axes : float * float) (phi : float),
       @geetee.PupilometryEngine two_rects_libs two_rects_frame
       = Ok (((PrimFloat.add cx (Z2float 0), PrimFloat.add cy (Z2float 0)),
              axes, phi),
             ((Int 0, Int 0), (Int (int32 (0 + 1)), Int (int32 (0 + 1)))),
             false).
Proof.
  assert (Hlab : @label_counts two_rects_libs) by (intros blobs; cbn; lia).
  destruct (C1_engine_on_candidates two_rects_libs two_rects_frame
              (example_cfg "otsu")) as [Hm Hg].
  split.
  - destruct (Hm [(0, 0, 1, 1); (0, 0, 2, 2)])
      as (best & x & y & w & h & H1 & H2 & H3 & H4 & H5 & H6).
    + reflexivity.
    + discriminate.
    + repeat constructor; cbn; lia.
    + exists best, x, y, w, h.
      split; [exact H1 |]. split; [exact H2 |]. split; [exact H3 |].
      split; [exact H4 |]. split; [exact H5 |].
      apply H6; [left; reflexivity | exact Hlab].
  - destruct (Hg 0 0 1 1 [(0, 0, 2, 2)] eq_refl) as [H1 H2].
    split; [exact H1 | apply H2, Hlab].
Defined.

(** The claim as stated fails on the geetee engine: of the rectangles
    (0,0,1,1) and (0,0,2,2) it returns the first, whose geometric mean 1 is
    below the 2 of the second; the mrgaze engine returns the second. *)
Lemma C1_geetee_takes_first_counterexample :
  @geetee.PupilometryEngine two_rects_libs two_rects_frame
  = Ok (((0.5%float, 0.5%float), (1%float, 1%float), 0%float),
        ((Int 0, Int 0), (Int 1, Int 1)), false)
  /\ PrimFloat.ltb (geometric_mean 1 1) (geometric_mean 2 2) = true
  /\ @mrgaze.PupilometryEngine two_rects_libs two_rects_frame (example_cfg "otsu")
     = Ok (((0.5%float, 0.5%float), (1%float, 1%float), 0%float),
           ((Int 0, Int 0), (Int 2, Int 2)), false).
Proof. repeat split; vm_compute; reflexivity. Qed.

(** ** The empty mask (C3) *)

Section Shapes.
Context {L : Libs}.

Lemma mrgaze_opened_shape (roi : image) (cfg : config) (blobs : image) :
  mrgaze_shapes_kept roi cfg = true ->
  mrgaze_opened roi cfg = Some blobs ->
  same_shape roi blobs = true.
Proof.
  unfold mrgaze_shapes_kept, mrgaze_opened. intros H Ho.
  apply andb_true_iff in H as [H H3]. apply andb_true_iff in H as [H1 H2].
  destruct (mrgaze.binarize _ _) as [b0 |]; [| discriminate Ho].
  cbn in Ho. injection Ho as <-.
  apply andb_true_iff in H3 as [H3 H4].
  eauto using same_shape_trans.
Qed.

Lemma geetee_opened_shape (roi : image) :
  geetee_shapes_kept roi = true -> same_shape roi (geetee_opened roi) = true.
Proof.
  unfold geetee_shapes_kept, geetee_opened. intros H.
  apply andb_true_iff in H as [H H3]. apply andb_true_iff in H as [H1 H2].
  eauto using same_shape_trans.
Qed.

End Shapes.

(** The mask with every pixel set. *)
Lemma ones_pixel (blobs : image) (r c x : Z) :
  pixel (map (map (fun _ => 1)) blobs) r c = Some x -> x = 1.
Proof.
  intros H. apply pixel_Some in H as (_ & _ & row & Hrow & Hx).
  change (map (map ?f) blobs) with (fmap (M := list) (fmap (M := list) f) blobs) in Hrow.
  unfold image in *. rewrite list_lookup_fmap in Hrow.
  destruct (blobs !! Z.to_nat r) as [row0 |]; [| discriminate Hrow].
  cbn in Hrow. injection Hrow as <-. rewrite list_lookup_fmap in Hx.
  destruct (row0 !! Z.to_nat c); [| discriminate Hx]. cbn in Hx. congruence.
Qed.

Lemma ones_shape (blobs : image) :
  same_shape blobs (map (map (fun _ => 1)) blobs) = true.
Proof.
  unfold same_shape. apply bool_decide_eq_true.
  rewrite List.map_map. apply List.map_ext. intros r.
  rewrite List.length_map. reflexivity.
Qed.

(** C3, as the code has it.  When the mask is empty after the opening the
    largest-area selection does not crash, and no failure is signalled:
    [SegmentPupil] (of mrgaze and of geetee) returns a mask of the shape of
    the ROI (the image calls keeping the shape of their input) with every
    pixel set, and the engine returns a record with [blink = False] for
    the frame. *)
Theorem C3_empty_mask_returns_mask :
  forall (L : Libs),
    (forall roi cfg blobs,
       mrgaze_opened roi cfg = Some blobs ->
       all_zero blobs = true ->
       label_ok blobs (scipy_label blobs) = true ->
       mrgaze_shapes_kept roi cfg = true ->
       exists pupil_bw,
         mrgaze.SegmentPupil roi cfg = Ok pupil_bw
         /\ same_shape roi pupil_bw = true
         /\ (forall r c x, pixel pupil_bw r c = Some x -> x = 1))
    /\ (forall roi,
          all_zero (geetee_opened roi) = true ->
          label_ok (geetee_opened roi) (scipy_label (geetee_opened roi)) = true ->
          geetee_shapes_kept roi = true ->
          exists pupil_bw,
            geetee.SegmentPupil roi = Ok pupil_bw
            /\ same_shape roi pupil_bw = true
            /\ (forall r c x, pixel pupil_bw r c = Some x -> x = 1))
    /\ (forall frame cfg x y w h blobs,
          let pupils := cascade_detectMultiScale frame (LBP_minneighbors cfg)
                          (Some (LBP_scalefactor cfg)) in
          pupils !! argmax (mrgaze.sizes pupils) = Some (x, y, w, h) ->
          mrgaze_opened (slice2 frame y (int32 (y + h)) x (int32 (x + w))) cfg
          = Some blobs ->
          all_zero blobs = true ->
          label_ok blobs (scipy_label blobs) = true ->
          exists el rr, mrgaze.PupilometryEngine frame cfg = Ok (el, rr, false))
    /\ (forall frame x y w h,
          let blobs := geetee_opened (slice2 frame y (int32 (y + h)) x (int32 (x + w))) in
          cascade_detectMultiScale frame 40 None !! 0%nat = Some (x, y, w, h) ->
          all_zero blobs = true ->
          label_ok blobs (scipy_label blobs) = true ->
          exists el rr, geetee.PupilometryEngine frame = Ok (el, rr, false)).
Proof.
  intros L.
  assert (Hsel : forall blobs, all_zero blobs = true ->
                   label_ok blobs (scipy_label blobs) = true ->
                   largest_blob blobs (scipy_label blobs)
                   = Ok (map (map (fun _ => 1)) blobs)).
  { intros blobs Hz Hok. destruct (scipy_label blobs) as [labels n].
    apply (largest_blob_empty blobs labels n Hz Hok). }
  assert (Hm : forall roi cfg blobs, mrgaze_opened roi cfg = Some blobs ->
                 all_zero blobs = true ->
                 label_ok blobs (scipy_label blobs) = true ->
                 mrgaze.SegmentPupil roi cfg = Ok (map (map (fun _ => 1)) blobs)).
  { intros roi cfg blobs Ho Hz Hok.
    rewrite mrgaze_SegmentPupil_selection, Ho. apply Hsel; assumption. }
  assert (Hg : forall roi, all_zero (geetee_opened roi) = true ->
                 label_ok (geetee_opened roi) (scipy_label (geetee_opened roi)) = true ->
                 geetee.SegmentPupil roi
                 = Ok (map (map (fun _ => 1)) (geetee_opened roi))).
  { intros roi Hz Hok. rewrite geetee_SegmentPupil_selection. apply Hsel; assumption. }
  split; [| split; [| split]].
  - intros roi cfg blobs Ho Hz Hok Hshapes. eexists.
    split; [apply (Hm roi cfg blobs Ho Hz Hok) |]. split.
    + apply (same_shape_trans _ blobs);
        [apply (mrgaze_opened_shape roi cfg blobs Hshapes Ho) | apply ones_shape].
    + apply ones_pixel.
  - intros roi Hz Hok Hshapes. eexists.
    split; [apply (Hg roi Hz Hok) |]. split.
    + apply (same_shape_trans _ (geetee_opened roi));
        [apply (geetee_opened_shape roi Hshapes) | apply ones_shape].
    + apply ones_pixel.
  - intros frame cfg x y w h blobs pupils Hbest Ho Hz Hok.
    rewrite (mrgaze_engine_selected frame cfg x y w h Hbest).
    cbv zeta. rewrite (Hm _ _ _ Ho Hz Hok). cbn [mbind result_bind].
    destruct (mrgaze.FitPupil _ _) as [[c axes] phi]. eauto.
  - intros frame x y w h blobs Hbest Hz Hok.
    rewrite (geetee_engine_selected frame x y w h Hbest).
    cbv zeta. rewrite (Hg _ Hz Hok). cbn [mbind result_bind].
    destruct (geetee.FitPupil _ _) as [[c axes] phi]. eauto.
Qed.

(** The 2 x 2 frame of the example: its mask is empty after the opening. *)
Lemma C3_empty_mask_witness :
  (exists pupil_bw,
     @mrgaze.SegmentPupil empty_mask_libs two_rects_frame (example_cfg "otsu")
     = Ok pupil_bw
     /\ same_shape two_rects_frame pupil_bw = true
     /\ (forall r c x, pixel pupil_bw r c = Some x -> x = 1))
  /\ (exists pupil_bw,
        @geetee.SegmentPupil empty_mask_libs two_rects_frame = Ok pupil_bw
        /\ same_shape two_rects_frame pupil_bw = true
        /\ (forall r c x, pixel pupil_bw r c = Some x -> x = 1))
  /\ (exists el rr,
        @mrgaze.PupilometryEngine empty_mask_libs two_rects_frame (example_cfg "otsu")
        = Ok (el, rr, false))
  /\ (exists el rr,
        @geetee.PupilometryEngine empty_mask_libs two_rects_frame = Ok (el, rr, false)).
Proof.
  destruct (C3_empty_mask_returns_mask empty_mask_libs) as (H1 & H2 & H3 & H4).
  split; [| split; [| split]].
  - apply (H1 two_rects_frame (example_cfg "otsu") [[0; 0]; [0; 0]]); reflexivity.
  - apply (H2 two_rects_frame); reflexivity.
  - apply (H3 two_rects_frame (example_cfg "otsu") 0 0 2 2 [[0; 0]; [0; 0]]);
      reflexivity.
  - apply (H4 two_rects_frame 0 0 2 2); reflexivity.
Defined.

(** The claim as stated fails: on the frame [[10; 200]; [200; 200]] the
    mask is empty after the opening, yet [SegmentPupil] signals nothing and
    returns the mask with every pixel set, and the engines return
    [blink = False] with the ellipse fitted to it. *)
Lemma C3_empty_mask_counterexample :
  @mrgaze_opened empty_mask_libs two_rects_frame (example_cfg "otsu")
  = Some [[0; 0]; [0; 0]]
  /\ @mrgaze.SegmentPupil empty_mask_libs two_rects_frame (example_cfg "otsu")
     = Ok [[1; 1]; [1; 1]]
  /\ @mrgaze.PupilometryEngine empty_mask_libs two_rects_frame (example_cfg "otsu")
     = Ok (((1%float, 1%float), (1%float, 1%float), 0%float),
           ((Int 0, Int 0), (Int 2, Int 2)), false)
  /\ @geetee.SegmentPupil empty_mask_libs two_rects_frame = Ok [[1; 1]; [1; 1]]
  /\ @geetee.PupilometryEngine empty_mask_libs two_rects_frame
     = Ok (((1%float, 1%float), (1%float, 1%float), 0%float),
           ((Int 0, Int 0), (Int 2, Int 2)), false)
  /\ ~ (forall (L : Libs) (roi : image) (cfg : config) (blobs : image),
          mrgaze_opened roi cfg = Some blobs ->
          all_zero blobs = true ->
          is_ok (mrgaze.SegmentPupil roi cfg) = false).
Proof.
  repeat split; try (vm_compute; reflexivity).
  intros H.
  specialize (H empty_mask_libs two_rects_frame (example_cfg "otsu")
                [[0; 0]; [0; 0]] eq_refl eq_refl).
  vm_compute in H. discriminate H.
Qed.

(** ** Temporal filtering (C5, C6, C7) *)

(** *** Tables and their columns *)

Lemma column_cons (row : list float) (rows : list (list float)) (j : nat) :
  column (row :: rows) j
  = match row !! j, column rows j with
    | Some x, Some c => Some (x :: c)
    | _, _ => None
    end.
Proof.
  unfold column. cbn. destruct (row !! j) as [x |]; [| reflexivity].
  cbn. destruct (mapM _ rows); reflexivity.
Qed.

Lemma column_length (rows : list (list float)) (j : nat) (c : list float) :
  column rows j = Some c -> length c = length rows.
Proof.
  revert c. induction rows as [| row rows IH]; intros c H.
  - cbn in H. injection H as <-. reflexivity.
  - rewrite column_cons in H. destruct (row !! j); [| discriminate H].
    destruct (column rows j) as [c' |]; [| discriminate H].
    injection H as <-. cbn. rewrite (IH c' eq_refl). reflexivity.
Qed.

Lemma column_exists (rows : list (list float)) (ncols j : nat) :
  Forall (fun r => length r = ncols) rows -> (j < ncols)%nat ->
  exists c, column rows j = Some c.
Proof.
  intros H Hj. induction H as [| row rows Hrow _ [c IH]].
  - exists []. reflexivity.
  - destruct (lookup_lt_is_Some_2 row j ltac:(lia)) as [x Hx].
    exists (x :: c). rewrite column_cons, Hx, IH. reflexivity.
Qed.

Lemma set_column_length (rows : list (list float)) (j : nat) (c : list float) :
  length c = length rows -> length (set_column rows j c) = length rows.
Proof. intros H. unfold set_column. rewrite length_zip_with. lia. Qed.

Lemma set_column_widths (rows : list (list float)) (j : nat) (c : list float)
    (ncols : nat) :
  Forall (fun r => length r = ncols) rows ->
  Forall (fun r => length r = ncols) (set_column rows j c).
Proof.
  intros H. revert c. induction H as [| row rows Hrow _ IH]; intros [| x c]; cbn;
    try constructor.
  - rewrite length_insert. exact Hrow.
  - apply IH.
Qed.

Lemma column_set_same (rows : list (list float)) (j : nat) (c c0 : list float) :
  column rows j = Some c0 -> length c = length rows ->
  column (set_column rows j c) j = Some c.
Proof.
  revert c c0. induction rows as [| row rows IH]; intros [| x c] c0 H0 Hlen;
    try discriminate Hlen; [reflexivity |].
  rewrite column_cons in H0.
  destruct (row !! j) as [y |] eqn:Hy; [| discriminate H0].
  destruct (column rows j) as [c' |] eqn:Hc'; [| discriminate H0].
  cbn [set_column zip_with]. rewrite column_cons.
  rewrite list_lookup_insert_eq by (eapply lookup_lt_Some; exact Hy).
  fold (set_column rows j c). rewrite (IH c c' eq_refl); [reflexivity |].
  cbn in Hlen. lia.
Qed.

Lemma column_set_other (rows : list (list float)) (j j' : nat) (c : list float) :
  j <> j' -> length c = length rows ->
  column (set_column rows j c) j' = column rows j'.
Proof.
  intros Hne. revert c. induction rows as [| row rows IH]; intros [| x c] Hlen;
    try discriminate Hlen; [reflexivity |].
  cbn [set_column zip_with]. rewrite !column_cons.
  rewrite list_lookup_insert_ne by exact Hne.
  fold (set_column rows j c). rewrite IH; [reflexivity | cbn in Hlen; lia].
Qed.

(** *** Running the primitives *)

Section Running.
Context {L : Libs}.

Lemma bind_run {A B} (f : A -> M B) (m : M A) (w w' : world) (a : A) :
  m w = (Ok a, w') -> (m ≫= f) w = f a w'.
Proof. intros H. unfold mbind, M_bind. rewrite H. reflexivity. Qed.


Lemma run_read_array fs arr nx out ks (p : nat) (a : ndarray) :
  arr !! p = Some a ->
  read_array p (World fs arr nx out ks) = (Ok a, World fs arr nx out ks).
Proof. intros H. unfold read_array. cbn. rewrite H. reflexivity. Qed.

Lemma run_getitem2 fs arr nx out ks (p i j : nat) rows row x :
  arr !! p = Some (A2 rows) -> rows !! i = Some row -> row !! j = Some x ->
  getitem2 p i j (World fs arr nx out ks) = (Ok x, World fs arr nx out ks).
Proof.
  intros Hp Hi Hj. unfold getitem2.
  rewrite (bind_run _ _ _ _ _ (run_read_array _ _ _ _ _ _ _ Hp)).
  rewrite Hi, Hj. reflexivity.
Qed.

Lemma run_getcol fs arr nx out ks (p j : nat) rows c :
  arr !! p = Some (A2 rows) -> column rows j = Some c ->
  getcol p j (World fs arr nx out ks) = (Ok c, World fs arr nx out ks).
Proof.
  intros Hp Hc. unfold getcol.
  rewrite (bind_run _ _ _ _ _ (run_read_array _ _ _ _ _ _ _ Hp)).
  rewrite Hc. reflexivity.
Qed.

Lemma run_setcol fs arr nx out ks (p j : nat) rows c0 c :
  arr !! p = Some (A2 rows) -> column rows j = Some c0 ->
  length c = length rows ->
  setcol p j c (World fs arr nx out ks)
  = (Ok tt, World fs (<[p := A2 (set_column rows j c)]> arr) nx out ks).
Proof.
  intros Hp Hc Hlen. unfold setcol.
  rewrite (bind_run _ _ _ _ _ (run_read_array _ _ _ _ _ _ _ Hp)).
  rewrite Hc. rewrite bool_decide_eq_true_2 by exact Hlen. reflexivity.
Qed.

End Running.

(** *** Kernel widths *)

Lemma forceodd_odd (x : float) (k : Z) : mrgaze._forceodd x = Ok k -> Z.odd k = true.
Proof.
  unfold mrgaze._forceodd. destruct (mrgaze.float_ceil x) as [n | e]; cbn; [| discriminate].
  intros H. injection H as <-. destruct (Z.odd n) eqn:E; [exact E |].
  replace (n + 1) with (Z.succ n) by lia. rewrite Z.odd_succ.
  rewrite <- Z.negb_odd, E. reflexivity.
Qed.

Lemma float_ceil_nonneg (x : float) :
  SFnonneg (Prim2SF x) ->
  (exists n, mrgaze.float_ceil x = Ok n /\ 0 <= n)
  \/ (Prim2SF x = S754_infinity false /\ mrgaze.float_ceil x = Raise OverflowError).
Proof.
  unfold mrgaze.float_ceil. destruct (Prim2SF x) as [[] | [] | | [] m e]; cbn; try tauto.
  - intros _. left. exists 0. split; [reflexivity | lia].
  - intros _. left. destruct (Z.leb_spec 0 e).
    + eexists. split; [reflexivity |]. apply Z.mul_nonneg_nonneg; [lia |].
      apply Z.pow_nonneg. lia.
    + eexists. split; [reflexivity |].
      assert (0 < 2 ^ (- e)) by (apply Z.pow_pos_nonneg; lia).
      assert (- Z.pos m / 2 ^ (- e) < 0); [| lia].
      apply Z.div_lt_upper_bound; lia.
Qed.

(** On a non-negative double [_forceodd] returns an odd integer >= 1, or
    raises [OverflowError] on plus infinity. *)
Lemma forceodd_nonneg (x : float) :
  SFnonneg (Prim2SF x) ->
  (exists k, mrgaze._forceodd x = Ok k /\ Z.odd k = true /\ 1 <= k)
  \/ (Prim2SF x = S754_infinity false /\ mrgaze._forceodd x = Raise OverflowError).
Proof.
  intros H. destruct (float_ceil_nonneg x H) as [(n & Hn & Hpos) | [Hinf Hr]].
  - left. unfold mrgaze._forceodd. rewrite Hn. cbn.
    eexists. split; [reflexivity |].
    destruct (Z.odd n) eqn:E.
    + split; [exact E |]. destruct (Z.eq_dec n 0) as [-> | N]; [discriminate E | lia].
    + split; [| lia]. replace (n + 1) with (Z.succ n) by lia.
      rewrite Z.odd_succ, <- Z.negb_odd, E. reflexivity.
  - right. split; [exact Hinf |]. unfold mrgaze._forceodd. rewrite Hr. reflexivity.
Qed.

(** A positive double. *)
Lemma positive_spec (dt : float) :
  PrimFloat.ltb 0 dt = true ->
  Prim2SF dt = S754_infinity false
  \/ exists m e, Prim2SF dt = S754_finite false m e.
Proof.
  rewrite FloatAxioms.ltb_spec. change (Prim2SF 0) with (S754_zero false).
  unfold SFltb, SFcompare.
  destruct (Prim2SF dt) as [s | [] | | [] m e]; try discriminate; eauto.
Qed.

(** The quotient of a positive finite double by a positive double is zero,
    positive or plus infinity. *)
Lemma quotient_nonneg (c dt : float) (mc : positive) (ec : Z) :
  Prim2SF c = S754_finite false mc ec ->
  PrimFloat.ltb 0 dt = true ->
  SFnonneg (Prim2SF (PrimFloat.div c dt)).
Proof.
  intros Hc Hdt. rewrite FloatAxioms.div_spec, Hc. unfold SF64div, SFdiv.
  destruct (positive_spec dt Hdt) as [-> | (m & e & ->)]; [exact I |].
  cbn [xorb]. unfold SFdiv_core_binary.
  set (s := ec - e - Z.min (fexp prec emax (Zdigits2 (Z.pos mc) + ec
                                           - (Zdigits2 (Z.pos m) + e))) (ec - e)).
  set (m' := match s with
             | Z.pos _ => Z.shiftl (Z.pos mc) s
             | 0 => Z.pos mc
             | Z.neg _ => 0
             end).
  assert (Hm' : 0 <= m').
  { unfold m'. destruct s; [lia | | lia]. apply Z.shiftl_nonneg. lia. }
  pose proof (Z.div_pos m' (Z.pos m) Hm' ltac:(lia)) as Hq.
  unfold Z.div in Hq.
  destruct (Z.div_eucl m' (Z.pos m)) as [q r]. cbn [fst] in Hq.
  apply binary_round_aux_nonneg. exact Hq.
Qed.

Lemma quarter_spec : Prim2SF 0.25 = S754_finite false 4503599627370496 (-54).
Proof. reflexivity. Qed.

Lemma one_spec : Prim2SF 1 = S754_finite false 4503599627370496 (-52).
Proof. reflexivity. Qed.

Section Filters.
Context {L : Libs}.

Lemma order_filter_length (volume : list float) (k order : nat) :
  length (mrgaze.order_filter volume k order) = length volume.
Proof. unfold mrgaze.order_filter. rewrite List.length_map, length_seq. reflexivity. Qed.

Lemma medfilt_odd (volume : list float) (k : Z) :
  Z.odd k = true -> 1 <= k ->
  mrgaze.medfilt volume k
  = Ok (mrgaze.order_filter volume (Z.to_nat k) (Z.to_nat (k / 2))).
Proof.
  intros Hodd Hk. unfold mrgaze.medfilt.
  rewrite Zmod_odd, Hodd. cbn [Z.eqb negb]. 
  destruct (Z.ltb_spec k 0); [lia | reflexivity].
Qed.

End Filters.

(** *** The run of [FilterPupilometry] *)

Section FilterRun.
Context {L : Libs}.

Lemma medfilt_out_length (c : list float) (k : Z) :
  length (medfilt_out c k) = length c.
Proof. apply order_filter_length. Qed.

Lemma run_lift {A} (r : result A) (a : A) (w : world) :
  r = Ok a -> lift r w = (Ok a, w).
Proof. intros ->. reflexivity. Qed.

Lemma run_medfilt (c : list float) (k : Z) (w : world) :
  Z.odd k = true -> 1 <= k ->
  lift (mrgaze.medfilt c k) w = (Ok (medfilt_out c k), w).
Proof. intros Ho Hk. apply run_lift, medfilt_odd; assumption. Qed.

Lemma run_genfromtxt fs arr nx out ks (path : string) lines r0 r1 rest ncols :
  fs !! path = Some (Csv lines) ->
  map (map mrgaze.parse_field) lines = r0 :: r1 :: rest ->
  Forall (fun r => length r = ncols) (r0 :: r1 :: rest) ->
  mrgaze.genfromtxt path (World fs arr nx out ks)
  = (Ok nx, World fs (<[nx := A2 (r0 :: r1 :: rest)]> arr) (S nx) out ks).
Proof.
  intros Hf Hrows Hw. unfold mrgaze.genfromtxt, mbind, M_bind, get_world. cbn [files].
  rewrite Hf, Hrows.
  assert (forallb (fun r : list float => (length r =? length r0)%nat)
            (r0 :: r1 :: rest) = true) as ->.
  { apply forallb_forall. intros r Hr. apply Nat.eqb_eq.
    rewrite List.Forall_forall in Hw.
    rewrite (Hw r Hr), (Hw r0 (or_introl eq_refl)). reflexivity. }
  reflexivity.
Qed.

Lemma run_np_copy fs arr nx out ks (p : nat) (a : ndarray) :
  arr !! p = Some a ->
  np_copy p (World fs arr nx out ks)
  = (Ok nx, World fs (<[nx := a]> arr) (S nx) out ks).
Proof.
  intros Hp. unfold np_copy.
  rewrite (bind_run _ _ _ _ _ (run_read_array _ _ _ _ _ _ _ Hp)). reflexivity.
Qed.

Lemma run_savetxt fs arr nx out ks (path : string) (p : nat) rows (digits : nat) :
  arr !! p = Some (A2 rows) ->
  mrgaze.savetxt path p digits (World fs arr nx out ks)
  = (Ok tt, World (<[path := Csv (map (map (FmtF digits)) rows)]> fs) arr nx out ks).
Proof.
  intros Hp. unfold mrgaze.savetxt.
  rewrite (bind_run _ _ _ _ _ (run_read_array _ _ _ _ _ _ _ Hp)). reflexivity.
Qed.

End FilterRun.

Section FilterMain.
Context {L : Libs}.

(** The run on a series of at least two rows of equal width with columns
    1 to 5, once the kernel widths have been computed. *)
Lemma FilterPupilometry_run fs arr nx out ks (raw filt : string)
    (lines : csv) (r0 r1 : list float) (rest : list (list float)) (ncols : nat)
    (t0 t1 : float) (c1 c2 c3 c4 c5 : list float) (k_area k_art : Z) :
  let rows := r0 :: r1 :: rest in
  let dt := PrimFloat.sub t1 t0 in
  fs !! raw = Some (Csv lines) ->
  map (map mrgaze.parse_field) lines = rows ->
  Forall (fun r => length r = ncols) rows ->
  r0 !! 0%nat = Some t0 -> r1 !! 0%nat = Some t1 ->
  column rows 1 = Some c1 -> column rows 2 = Some c2 ->
  column rows 3 = Some c3 -> column rows 4 = Some c4 ->
  column rows 5 = Some c5 ->
  mrgaze._forceodd (PrimFloat.div 0.25 dt) = Ok k_area ->
  mrgaze._forceodd (PrimFloat.div 1 dt) = Ok k_art ->
  1 <= k_area -> 1 <= k_art ->
  length (scipy_gaussian_filter1d c5 1) = length c5 ->
  mrgaze.FilterPupilometry raw filt (World fs arr nx out ks)
  = (Ok true,
     World (<[filt := Csv (map (map (FmtF 6))
                             (filtered rows c1 c2 c3 c4 c5 k_area k_art))]> fs)
           (<[S nx := A2 (filtered rows c1 c2 c3 c4 c5 k_area k_art)]>
              (<[nx := A2 rows]> arr))
           (S (S nx)) out ks).
Proof.
  intros rows dt Hf Hrows Hw H00 H10 Hc1 Hc2 Hc3 Hc4 Hc5 Hka Hkt Hka1 Hkt1 Hg.
  pose proof (forceodd_odd _ _ Hka) as Hoa.
  pose proof (forceodd_odd _ _ Hkt) as Hot.
  pose proof (column_length _ _ _ Hc1) as L1.
  pose proof (column_length _ _ _ Hc2) as L2.
  pose proof (column_length _ _ _ Hc3) as L3.
  pose proof (column_length _ _ _ Hc4) as L4.
  pose proof (column_length _ _ _ Hc5) as L5.
  unfold mrgaze.FilterPupilometry.
  (* the raw file exists *)
  unfold mbind at 1, M_bind at 1, isfile at 1. cbn [files].
  rewrite bool_decide_eq_true_2 by (rewrite Hf; eauto). cbn [negb].
  (* p = ReadPupilometry(...) *)
  unfold mrgaze.ReadPupilometry.
  rewrite (bind_run _ _ _ _ _
             (run_genfromtxt fs arr nx out ks raw lines r0 r1 rest ncols Hf Hrows Hw)).
  fold rows.
  set (arr1 := <[nx := A2 rows]> arr).
  assert (Hp : arr1 !! nx = Some (A2 rows)) by apply lookup_insert_eq.
  (* dt = p[1,0] - p[0,0] *)
  rewrite (bind_run _ _ _ _ _
             (run_getitem2 fs arr1 (S nx) out ks nx 1 0 rows r1 t1 Hp eq_refl H10)).
  rewrite (bind_run _ _ _ _ _
             (run_getitem2 fs arr1 (S nx) out ks nx 0 0 rows r0 t0 Hp eq_refl H00)).
  fold dt.
  (* kernel widths *)
  rewrite (bind_run _ _ _ _ _ (run_lift _ _ _ Hka)).
  rewrite (bind_run _ _ _ _ _ (run_lift _ _ _ Hka)).
  rewrite (bind_run _ _ _ _ _ (run_lift _ _ _ Hkt)).
  (* pf = p.copy() *)
  rewrite (bind_run _ _ _ _ _ (run_np_copy fs arr1 (S nx) out ks nx _ Hp)).
  assert (Hne : S nx <> nx) by lia.
  assert (Hp' : forall a, (<[S nx := a]> arr1) !! nx = Some (A2 rows)).
  { intros a. rewrite lookup_insert_ne by exact Hne. exact Hp. }
  assert (Hpf : forall a, (<[S nx := a]> arr1) !! S nx = Some a).
  { intros a. apply lookup_insert_eq. }
  (* column 1 *)
  rewrite (bind_run _ _ _ _ _ (run_getcol _ _ _ _ _ nx 1 rows c1 (Hp' _) Hc1)).
  rewrite (bind_run _ _ _ _ _ (run_medfilt c1 k_area _ Hoa Hka1)).
  assert (M1 : length (medfilt_out c1 k_area) = length rows)
    by (rewrite medfilt_out_length; lia).
  rewrite (bind_run _ _ _ _ _
             (run_setcol _ _ _ _ _ (S nx) 1 rows c1 (medfilt_out c1 k_area)
                (Hpf _) Hc1 M1)).
  rewrite insert_insert_eq.
  set (pf1 := set_column rows 1 (medfilt_out c1 k_area)).
  assert (P1 : length pf1 = length rows)
    by (unfold pf1; rewrite set_column_length; lia).
  assert (C12 : column pf1 2 = Some c2)
    by (unfold pf1; rewrite column_set_other; [exact Hc2 | lia | exact M1]).
  assert (C13 : column pf1 3 = Some c3)
    by (unfold pf1; rewrite column_set_other; [exact Hc3 | lia | exact M1]).
  assert (C14 : column pf1 4 = Some c4)
    by (unfold pf1; rewrite column_set_other; [exact Hc4 | lia | exact M1]).
  assert (C15 : column pf1 5 = Some c5)
    by (unfold pf1; rewrite column_set_other; [exact Hc5 | lia | exact M1]).
  (* column 2 *)
  rewrite (bind_run _ _ _ _ _ (run_getcol _ _ _ _ _ nx 2 rows c2 (Hp' _) Hc2)).
  rewrite (bind_run _ _ _ _ _ (run_medfilt c2 3 _ eq_refl ltac:(lia))).
  assert (M2 : length (medfilt_out c2 3) = length pf1)
    by (rewrite medfilt_out_length; lia).
  rewrite (bind_run _ _ _ _ _
             (run_setcol _ _ _ _ _ (S nx) 2 pf1 c2 (medfilt_out c2 3)
                (Hpf _) C12 M2)).
  rewrite insert_insert_eq.
  set (pf2 := set_column pf1 2 (medfilt_out c2 3)).
  assert (P2 : length pf2 = length rows)
    by (unfold pf2; rewrite set_column_length; lia).
  assert (C23 : column pf2 3 = Some c3)
    by (unfold pf2; rewrite column_set_other; [exact C13 | lia | exact M2]).
  assert (C24 : column pf2 4 = Some c4)
    by (unfold pf2; rewrite column_set_other; [exact C14 | lia | exact M2]).
  assert (C25 : column pf2 5 = Some c5)
    by (unfold pf2; rewrite column_set_other; [exact C15 | lia | exact M2]).
  (* column 3 *)
  rewrite (bind_run _ _ _ _ _ (run_getcol _ _ _ _ _ nx 3 rows c3 (Hp' _) Hc3)).
  rewrite (bind_run _ _ _ _ _ (run_medfilt c3 3 _ eq_refl ltac:(lia))).
  assert (M3 : length (medfilt_out c3 3) = length pf2)
    by (rewrite medfilt_out_length; lia).
  rewrite (bind_run _ _ _ _ _
             (run_setcol _ _ _ _ _ (S nx) 3 pf2 c3 (medfilt_out c3 3)
                (Hpf _) C23 M3)).
  rewrite insert_insert_eq.
  set (pf3 := set_column pf2 3 (medfilt_out c3 3)).
  assert (P3 : length pf3 = length rows)
    by (unfold pf3; rewrite set_column_length; lia).
  assert (C34 : column pf3 4 = Some c4)
    by (unfold pf3; rewrite column_set_other; [exact C24 | lia | exact M3]).
  assert (C35 : column pf3 5 = Some c5)
    by (unfold pf3; rewrite column_set_other; [exact C25 | lia | exact M3]).
  (* column 4 *)
  rewrite (bind_run _ _ _ _ _ (run_getcol _ _ _ _ _ nx 4 rows c4 (Hp' _) Hc4)).
  rewrite (bind_run _ _ _ _ _ (run_medfilt c4 k_area _ Hoa Hka1)).
  assert (M4 : length (medfilt_out c4 k_area) = length pf3)
    by (rewrite medfilt_out_length; lia).
  rewrite (bind_run _ _ _ _ _
             (run_setcol _ _ _ _ _ (S nx) 4 pf3 c4 (medfilt_out c4 k_area)
                (Hpf _) C34 M4)).
  rewrite insert_insert_eq.
  set (pf4 := set_column pf3 4 (medfilt_out c4 k_area)).
  assert (P4 : length pf4 = length rows)
    by (unfold pf4; rewrite set_column_length; lia).
  assert (C45 : column pf4 5 = Some c5)
    by (unfold pf4; rewrite column_set_other; [exact C35 | lia | exact M4]).
  (* column 5: Gaussian, then median *)
  rewrite (bind_run _ _ _ _ _ (run_getcol _ _ _ _ _ nx 5 rows c5 (Hp' _) Hc5)).
  assert (G5 : length (scipy_gaussian_filter1d c5 1) = length pf4) by lia.
  rewrite (bind_run _ _ _ _ _
             (run_setcol _ _ _ _ _ (S nx) 5 pf4 c5 (scipy_gaussian_filter1d c5 1)
                (Hpf _) C45 G5)).
  rewrite insert_insert_eq.
  set (pf5 := set_column pf4 5 (scipy_gaussian_filter1d c5 1)).
  assert (P5 : length pf5 = length rows)
    by (unfold pf5; rewrite set_column_length; lia).
  assert (C55 : column pf5 5 = Some (scipy_gaussian_filter1d c5 1))
    by (unfold pf5; apply (column_set_same pf4 5 _ c5 C45 G5)).
  rewrite (bind_run _ _ _ _ _ (run_getcol _ _ _ _ _ (S nx) 5 pf5 _ (Hpf _) C55)).
  rewrite (bind_run _ _ _ _ _ (run_medfilt _ k_art _ Hot Hkt1)).
  assert (M5 : length (medfilt_out (scipy_gaussian_filter1d c5 1) k_art) = length pf5)
    by (rewrite medfilt_out_length; lia).
  rewrite (bind_run _ _ _ _ _
             (run_setcol _ _ _ _ _ (S nx) 5 pf5 _
                (medfilt_out (scipy_gaussian_filter1d c5 1) k_art) (Hpf _) C55 M5)).
  rewrite insert_insert_eq.
  (* np.savetxt *)
  rewrite (bind_run _ _ _ _ _ (run_savetxt _ _ _ _ _ filt (S nx) _ 6 (Hpf _))).
  reflexivity.
Qed.

End FilterMain.

(** *** The raw series *)

Lemma infinity_spec (x : float) :
  Prim2SF x = S754_infinity false -> x = PrimFloat.infinity.
Proof. intros H. apply Prim2SF_inj. rewrite H. reflexivity. Qed.

Section FilterSpec.
Context {L : Libs}.

(** Kernel widths for a positive sampling interval. *)
Lemma kernel_width (c dt : float) (mc : positive) (ec : Z) :
  Prim2SF c = S754_finite false mc ec ->
  PrimFloat.ltb 0 dt = true ->
  (forall k, mrgaze._forceodd (PrimFloat.div c dt) = Ok k ->
             Z.odd k = true /\ 1 <= k)
  /\ (PrimFloat.div c dt <> PrimFloat.infinity ->
      exists k n, mrgaze._forceodd (PrimFloat.div c dt) = Ok k
                  /\ mrgaze.float_ceil (PrimFloat.div c dt) = Ok n
                  /\ n <= k <= n + 1).
Proof.
  intros Hc Hdt. pose proof (quotient_nonneg c dt mc ec Hc Hdt) as Hq.
  destruct (forceodd_nonneg _ Hq) as [(k & Hk & Ho & H1) | [Hinf Hr]].
  - split.
    + intros k' Hk'. rewrite Hk in Hk'. injection Hk' as <-. auto.
    + intros _. exists k. unfold mrgaze._forceodd in Hk |- *.
      destruct (mrgaze.float_ceil _) as [n |]; [| discriminate Hk].
      cbn in Hk |- *. injection Hk as <-. exists n.
      split; [reflexivity |]. split; [reflexivity |].
      destruct (Z.odd n); lia.
  - split.
    + intros k Hk. rewrite Hr in Hk. discriminate Hk.
    + intros Hfin. exfalso. apply Hfin, infinity_spec, Hinf.
Qed.

Lemma raw_series_rows fs raw lines rows ncols t0 t1 c1 c2 c3 c4 c5 :
  raw_series fs raw lines rows ncols t0 t1 c1 c2 c3 c4 c5 ->
  exists r0 r1 rest,
    rows = r0 :: r1 :: rest /\ r0 !! 0%nat = Some t0 /\ r1 !! 0%nat = Some t1.
Proof.
  intros (_ & _ & _ & H0 & H1 & _).
  destruct rows as [| r0 [| r1 rest]]; try discriminate.
  exists r0, r1, rest. auto.
Qed.

(** The complete run, from the raw series and a positive, not too small
    sampling interval. *)
Lemma FilterPupilometry_complete fs arr nx out ks raw filt lines rows ncols
    t0 t1 c1 c2 c3 c4 c5 :
  let dt := PrimFloat.sub t1 t0 in
  raw_series fs raw lines rows ncols t0 t1 c1 c2 c3 c4 c5 ->
  PrimFloat.ltb 0 dt = true ->
  PrimFloat.div 0.25 dt <> PrimFloat.infinity ->
  PrimFloat.div 1 dt <> PrimFloat.infinity ->
  length (scipy_gaussian_filter1d c5 1) = length c5 ->
  exists k_area k_art,
    mrgaze._forceodd (PrimFloat.div 0.25 dt) = Ok k_area
    /\ mrgaze._forceodd (PrimFloat.div 1 dt) = Ok k_art
    /\ mrgaze.FilterPupilometry raw filt (World fs arr nx out ks)
       = (Ok true,
          filtered_world fs arr nx out ks filt rows
            (filtered rows c1 c2 c3 c4 c5 k_area k_art)).
Proof.
  intros dt Hs Hdt Hfa Hft Hg.
  destruct (raw_series_rows _ _ _ _ _ _ _ _ _ _ _ _ Hs)
    as (r0 & r1 & rest & -> & H00 & H10).
  destruct Hs as (Hf & Hrows & Hw & _ & _ & Hc1 & Hc2 & Hc3 & Hc4 & Hc5).
  destruct (kernel_width 0.25 dt _ _ quarter_spec Hdt) as [Ha1 Ha2].
  destruct (kernel_width 1 dt _ _ one_spec Hdt) as [Ht1 Ht2].
  destruct (Ha2 Hfa) as (k_area & _ & Hka & _).
  destruct (Ht2 Hft) as (k_art & _ & Hkt & _).
  exists k_area, k_art. split; [exact Hka |]. split; [exact Hkt |].
  apply (FilterPupilometry_run fs arr nx out ks raw filt lines r0 r1 rest ncols
           t0 t1 c1 c2 c3 c4 c5 k_area k_art); try assumption.
  - apply (Ha1 k_area Hka).
  - apply (Ht1 k_art Hkt).
Qed.

(** The columns of the filtered table. *)
Lemma filtered_columns (rows : list (list float)) (ncols : nat)
    (c1 c2 c3 c4 c5 : list float) (k_area k_art : Z) :
  Forall (fun r => length r = ncols) rows ->
  column rows 1 = Some c1 -> column rows 2 = Some c2 ->
  column rows 3 = Some c3 -> column rows 4 = Some c4 ->
  column rows 5 = Some c5 ->
  length (scipy_gaussian_filter1d c5 1) = length c5 ->
  let pf := filtered rows c1 c2 c3 c4 c5 k_area k_art in
  length pf = length rows
  /\ Forall (fun r => length r = ncols) pf
  /\ column pf 1 = Some (medfilt_out c1 k_area)
  /\ column pf 2 = Some (medfilt_out c2 3)
  /\ column pf 3 = Some (medfilt_out c3 3)
  /\ column pf 4 = Some (medfilt_out c4 k_area)
  /\ column pf 5 = Some (medfilt_out (scipy_gaussian_filter1d c5 1) k_art)
  /\ (forall j, (j = 0 \/ 6 <= j)%nat -> column pf j = column rows j).
Proof.
  intros Hw Hc1 Hc2 Hc3 Hc4 Hc5 Hg.
  pose proof (column_length _ _ _ Hc1) as L1.
  pose proof (column_length _ _ _ Hc2) as L2.
  pose proof (column_length _ _ _ Hc3) as L3.
  pose proof (column_length _ _ _ Hc4) as L4.
  pose proof (column_length _ _ _ Hc5) as L5.
  unfold filtered.
  set (pf1 := set_column rows 1 (medfilt_out c1 k_area)).
  set (pf2 := set_column pf1 2 (medfilt_out c2 3)).
  set (pf3 := set_column pf2 3 (medfilt_out c3 3)).
  set (pf4 := set_column pf3 4 (medfilt_out c4 k_area)).
  set (pf5 := set_column pf4 5 (scipy_gaussian_filter1d c5 1)).
  set (g := scipy_gaussian_filter1d c5 1) in *.
  assert (M1 : length (medfilt_out c1 k_area) = length rows)
    by (rewrite medfilt_out_length; lia).
  assert (P1 : length pf1 = length rows)
    by (unfold pf1; rewrite set_column_length; lia).
  assert (M2 : length (medfilt_out c2 3) = length pf1)
    by (rewrite medfilt_out_length; lia).
  assert (P2 : length pf2 = length rows)
    by (unfold pf2; rewrite set_column_length; lia).
  assert (M3 : length (medfilt_out c3 3) = length pf2)
    by (rewrite medfilt_out_length; lia).
  assert (P3 : length pf3 = length rows)
    by (unfold pf3; rewrite set_column_length; lia).
  assert (M4 : length (medfilt_out c4 k_area) = length pf3)
    by (rewrite medfilt_out_length; lia).
  assert (P4 : length pf4 = length rows)
    by (unfold pf4; rewrite set_column_length; lia).
  assert (G5 : length g = length pf4) by lia.
  assert (P5 : length pf5 = length rows)
    by (unfold pf5; rewrite set_column_length; lia).
  assert (M5 : length (medfilt_out g k_art) = length pf5)
    by (rewrite medfilt_out_length; lia).
  assert (Hother : forall j cj, j <> 1%nat -> j <> 2%nat -> j <> 3%nat -> j <> 4%nat -> j <> 5%nat ->
            column rows j = cj -> column (set_column pf5 5 (medfilt_out g k_art)) j = cj).
  { intros j cj. intros. subst cj.
    rewrite column_set_other by (try exact M5; lia). unfold pf5.
    rewrite column_set_other by (try exact G5; lia). unfold pf4.
    rewrite column_set_other by (try exact M4; lia). unfold pf3.
    rewrite column_set_other by (try exact M3; lia). unfold pf2.
    rewrite column_set_other by (try exact M2; lia). unfold pf1.
    rewrite column_set_other by (try exact M1; lia). reflexivity. }
  split; [rewrite set_column_length; lia |].
  split; [repeat apply set_column_widths; exact Hw |].
  assert (C1 : column pf1 1 = Some (medfilt_out c1 k_area))
    by (apply (column_set_same rows 1 _ c1 Hc1 M1)).
  assert (C2 : column pf2 2 = Some (medfilt_out c2 3)).
  { apply (column_set_same pf1 2 _ c2); [| exact M2].
    unfold pf1. rewrite column_set_other by (try exact M1; lia). exact Hc2. }
  assert (C3 : column pf3 3 = Some (medfilt_out c3 3)).
  { apply (column_set_same pf2 3 _ c3); [| exact M3]. unfold pf2.
    rewrite column_set_other by (try exact M2; lia). unfold pf1.
    rewrite column_set_other by (try exact M1; lia). exact Hc3. }
  assert (C4 : column pf4 4 = Some (medfilt_out c4 k_area)).
  { apply (column_set_same pf3 4 _ c4); [| exact M4]. unfold pf3.
    rewrite column_set_other by (try exact M3; lia). unfold pf2.
    rewrite column_set_other by (try exact M2; lia). unfold pf1.
    rewrite column_set_other by (try exact M1; lia). exact Hc4. }
  assert (C5 : column pf5 5 = Some g).
  { apply (column_set_same pf4 5 _ c5); [| exact G5]. unfold pf4.
    rewrite column_set_other by (try exact M4; lia). unfold pf3.
    rewrite column_set_other by (try exact M3; lia). unfold pf2.
    rewrite column_set_other by (try exact M2; lia). unfold pf1.
    rewrite column_set_other by (try exact M1; lia). exact Hc5. }
  split.
  { rewrite column_set_other by (try exact M5; lia). unfold pf5.
    rewrite column_set_other by (try exact G5; lia). unfold pf4.
    rewrite column_set_other by (try exact M4; lia). unfold pf3.
    rewrite column_set_other by (try exact M3; lia). unfold pf2.
    rewrite column_set_other by (try exact M2; lia). exact C1. }
  split.
  { rewrite column_set_other by (try exact M5; lia). unfold pf5.
    rewrite column_set_other by (try exact G5; lia). unfold pf4.
    rewrite column_set_other by (try exact M4; lia). unfold pf3.
    rewrite column_set_other by (try exact M3; lia). exact C2. }
  split.
  { rewrite column_set_other by (try exact M5; lia). unfold pf5.
    rewrite column_set_other by (try exact G5; lia). unfold pf4.
    rewrite column_set_other by (try exact M4; lia). exact C3. }
  split.
  { rewrite column_set_other by (try exact M5; lia). unfold pf5.
    rewrite column_set_other by (try exact G5; lia). exact C4. }
  split.
  { apply (column_set_same pf5 5 _ g C5 M5). }
  intros j Hj. apply Hother; try lia. reflexivity.
Qed.

End FilterSpec.

(** *** The moving median *)

Lemma padded_lookup (c : list float) (j : Z) :
  (if j <? 0 then 0%float else default 0%float (c !! Z.to_nat j)) = padded c j.
Proof.
  unfold padded. destruct (Z.ltb_spec j 0), (Z.leb_spec 0 j); try lia; cbn [andb];
    [reflexivity |].
  destruct (Z.ltb_spec j (Z.of_nat (length c))).
  - destruct (lookup_lt_is_Some_2 c (Z.to_nat j) ltac:(lia)) as [x Hx].
    rewrite Hx. cbn. symmetry. apply nth_lookup_Some with (d := 0%float) in Hx.
    exact Hx.
  - rewrite lookup_ge_None_2 by lia. reflexivity.
Qed.

Section Median.
Context {L : Libs}.

Lemma window_centred (c : list float) (k : Z) (i : nat) :
  1 <= k -> centred_window c k i (mrgaze.window c (Z.to_nat k) i).
Proof.
  intros Hk. unfold centred_window, mrgaze.window. split.
  - rewrite List.length_map, length_seq. lia.
  - intros d Hd. change (map ?f ?l) with (f <$> l).
    rewrite list_lookup_fmap, lookup_seq_lt by lia. cbn [fmap option_fmap option_map].
    f_equal. cbv zeta. rewrite padded_lookup. f_equal.
    rewrite Nat2Z.inj_div, Z2Nat.id by lia. change (Z.of_nat 2) with 2.
    change (0 + d)%nat with d. lia.
Qed.

Lemma medfilt_out_median (c : list float) (k : Z) :
  select_by_rank -> Z.odd k = true -> 1 <= k ->
  is_moving_median k c (medfilt_out c k).
Proof.
  intros Hsel Hodd Hk. unfold is_moving_median, medfilt_out. split.
  - unfold mrgaze.order_filter. rewrite List.length_map, length_seq. reflexivity.
  - intros i x Hx. unfold mrgaze.order_filter in Hx.
    change (map ?f ?l) with (f <$> l) in Hx.
    rewrite list_lookup_fmap in Hx.
    destruct (seq 0 (length c) !! i) as [i' |] eqn:Hi; [| discriminate Hx].
    apply lookup_seq in Hi as [-> _]. cbn in Hx. injection Hx as <-.
    exists (mrgaze.window c (Z.to_nat k) i).
    pose proof (window_centred c k i Hk) as Hw.
    split; [exact Hw |]. split; [reflexivity |].
    intros Hnan. destruct Hw as [Hlen _].
    assert (Hk2 : k = 2 * (k / 2) + 1).
    { rewrite (Z.div_mod k 2) at 1 by lia. rewrite Zmod_odd, Hodd. reflexivity. }
    assert (Hh : 0 <= k / 2) by (apply Z.div_pos; lia).
    destruct (Hsel (Z.to_nat (k / 2)) (mrgaze.window c (Z.to_nat k) i))
      as (Hin & Hb & Ha); [lia | exact Hnan |].
    split; [exact Hin |]. split; lia.
Qed.

End Median.

(** *** The rank filter of the examples *)

Lemma SFltb_key (x y : spec_float) :
  x <> S754_nan -> y <> S754_nan ->
  (SFltb x y = true <-> ~ lex_le (SFkey y) (SFkey x)).
Proof.
  intros Hx Hy. unfold SFltb, SFcompare, lex_le, SFkey.
  destruct x as [sx | sx | | sx mx ex]; [| | contradiction |];
    (destruct y as [sy | sy | | sy my ey]; [| | contradiction |]);
    try destruct sx; try destruct sy;
    try change (Pos.compare_cont Eq mx my) with (Pos.compare mx my);
    try destruct (Z.compare_spec ex ey) as [E | E | E];
    try destruct (Pos.compare_spec mx my) as [F | F | F]; cbn;
    (split; [intros H; first [discriminate H | lia]
            | intros H; first [reflexivity | exfalso; lia]]).
Qed.

(** Of two doubles that are not NaN, one is below the other exactly when
    the other is not below or equal to it. *)
Lemma ltb_leb (a b : float) :
  PrimFloat.is_nan a = false -> PrimFloat.is_nan b = false ->
  PrimFloat.leb a b = true -> PrimFloat.ltb b a = false.
Proof.
  intros Ha Hb H. apply not_nan_spec in Ha. apply not_nan_spec in Hb.
  rewrite FloatAxioms.leb_spec in H. apply (SFleb_key _ _ Ha Hb) in H.
  destruct (PrimFloat.ltb b a) eqn:E; [| reflexivity].
  rewrite FloatAxioms.ltb_spec in E. apply (SFltb_key _ _ Hb Ha) in E. contradiction.
Qed.

Lemma insert_sorted_In (x : float) (l : list float) (z : float) :
  In z (insert_sorted x l) <-> z = x \/ In z l.
Proof.
  induction l as [| y l IH]; cbn; [intuition congruence |].
  destruct (PrimFloat.leb x y); cbn; [intuition congruence |].
  rewrite IH. intuition congruence.
Qed.

Lemma insert_sorted_count (f : float -> bool) (x : float) (l : list float) :
  length (List.filter f (insert_sorted x l)) = length (List.filter f (x :: l)).
Proof.
  induction l as [| y l IH]; [reflexivity |]. cbn [insert_sorted].
  destruct (PrimFloat.leb x y); [reflexivity |].
  cbn [List.filter] in *. destruct (f y), (f x); cbn [length] in *; lia.
Qed.

Lemma insert_sorted_length (x : float) (l : list float) :
  length (insert_sorted x l) = S (length l).
Proof.
  induction l as [| y l IH]; [reflexivity |]. cbn [insert_sorted].
  destruct (PrimFloat.leb x y); cbn [length]; lia.
Qed.

Lemma sort_floats_In (l : list float) (z : float) : In z (sort_floats l) <-> In z l.
Proof.
  induction l as [| x l IH]; [reflexivity |]. unfold sort_floats in *. cbn [fold_right].
  rewrite insert_sorted_In, IH. cbn. intuition congruence.
Qed.

Lemma sort_floats_count (f : float -> bool) (l : list float) :
  length (List.filter f (sort_floats l)) = length (List.filter f l).
Proof.
  induction l as [| x l IH]; [reflexivity |]. unfold sort_floats in *. cbn [fold_right].
  rewrite insert_sorted_count. cbn [List.filter]. destruct (f x); cbn [length]; lia.
Qed.

Lemma sort_floats_length (l : list float) : length (sort_floats l) = length l.
Proof.
  induction l as [| x l IH]; [reflexivity |]. unfold sort_floats in *. cbn [fold_right].
  rewrite insert_sorted_length, IH. reflexivity.
Qed.

Lemma insert_sorted_ascending (x : float) (l : list float) :
  PrimFloat.is_nan x = false -> no_nan l ->
  StronglySorted (fun a b => PrimFloat.leb a b = true) l ->
  StronglySorted (fun a b => PrimFloat.leb a b = true) (insert_sorted x l).
Proof.
  intros Hx Hn Hs. induction Hs as [| y l Hs IH Hy]; cbn [insert_sorted].
  - constructor; [constructor | constructor].
  - inversion Hn as [| ? ? Hny Hnl]; subst.
    destruct (PrimFloat.leb x y) eqn:E.
    + constructor; [constructor; assumption |].
      constructor; [exact E |].
      rewrite List.Forall_forall in Hy |- *. intros z Hz.
      assert (PrimFloat.is_nan z = false).
      { unfold no_nan in Hnl. rewrite List.Forall_forall in Hnl. apply Hnl, Hz. }
      apply (leb_trans x y z); auto.
    + constructor; [apply IH, Hnl |].
      rewrite List.Forall_forall in Hy |- *. intros z Hz.
      apply insert_sorted_In in Hz as [-> | Hz]; [| apply Hy, Hz].
      apply leb_total; assumption.
Qed.

Lemma sort_floats_ascending (l : list float) :
  no_nan l -> StronglySorted (fun a b => PrimFloat.leb a b = true) (sort_floats l).
Proof.
  intros Hn. induction Hn as [| x l Hx Hn IH]; [constructor |].
  unfold sort_floats in *. cbn [fold_right].
  apply insert_sorted_ascending; [exact Hx | | exact IH].
  unfold no_nan. rewrite List.Forall_forall. intros z Hz.
  apply (sort_floats_In l) in Hz. unfold no_nan in Hn.
  rewrite List.Forall_forall in Hn. apply Hn, Hz.
Qed.

Lemma none_below (a : float) (s : list float) :
  PrimFloat.is_nan a = false ->
  (forall z, In z s -> PrimFloat.is_nan z = false) ->
  (forall z, In z s -> PrimFloat.leb a z = true) ->
  List.filter (fun y => PrimFloat.ltb y a) s = [].
Proof.
  intros Ha Hn Hle. induction s as [| b s IH]; [reflexivity |]. cbn [List.filter].
  rewrite (ltb_leb a b) by (auto using in_eq).
  apply IH; intros z Hz; [apply Hn | apply Hle]; right; exact Hz.
Qed.

(** In an ascending list the sample at position [k] has at most [k] samples
    below it and at most [length s - 1 - k] above it. *)
Lemma ascending_rank (s : list float) :
  no_nan s -> StronglySorted (fun a b => PrimFloat.leb a b = true) s ->
  forall (k : nat) (x : float),
    s !! k = Some x ->
    (count_below s x <= k)%nat /\ (count_above s x <= length s - 1 - k)%nat.
Proof.
  intros Hn Hs. induction Hs as [| a s Hs IH Ha]; intros k x Hk; [discriminate Hk |].
  inversion Hn as [| ? ? Hna Hns]; subst.
  assert (Hall : forall z, In z s -> PrimFloat.is_nan z = false).
  { intros z Hz. unfold no_nan in Hns. rewrite List.Forall_forall in Hns. auto. }
  rewrite List.Forall_forall in Ha.
  unfold count_below, count_above in *. cbn [List.filter].
  destruct k as [| k].
  - cbn in Hk. injection Hk as <-.
    assert (Hself : PrimFloat.ltb a a = false)
      by (apply ltb_leb; auto using leb_refl).
    rewrite Hself.
    assert (Hnone : List.filter (fun y => PrimFloat.ltb y a) s = [])
      by (apply none_below; auto).
    rewrite Hnone. cbn [length]. split; [lia |].
    pose proof (List.filter_length_le (fun y => PrimFloat.ltb a y) s). lia.
  - cbn in Hk. destruct (IH Hns k x Hk) as [Hb Hab].
    assert (Hin : In x s) by (apply list_elem_of_In; eapply list_elem_of_lookup_2; exact Hk).
    rewrite (ltb_leb a x) by auto.
    apply lookup_lt_Some in Hk.
    destruct (PrimFloat.ltb a x); cbn [length]; split; lia.
Qed.

(** The selection of the example libraries meets the contract. *)
Lemma example_select_by_rank pupils blobs opened labelled edges el :
  @select_by_rank (example_libs pupils blobs opened labelled edges el).
Proof.
  intros order w Horder Hnan. cbn [scipy_select example_libs].
  assert (Hs : no_nan (sort_floats w)).
  { unfold no_nan in *. rewrite List.Forall_forall in *. intros z Hz.
    apply Hnan, sort_floats_In, Hz. }
  destruct (lookup_lt_is_Some_2 (sort_floats w) order) as [x Hx];
    [rewrite sort_floats_length; exact Horder |].
  rewrite (nth_lookup_Some _ _ 0%float _ Hx).
  destruct (ascending_rank _ Hs (sort_floats_ascending w Hnan) order x Hx) as [Hb Ha].
  unfold count_below, count_above in *.
  rewrite sort_floats_count in Hb, Ha. rewrite sort_floats_length in Ha.
  split; [| split; assumption].
  apply sort_floats_In. apply list_elem_of_In. eapply list_elem_of_lookup_2. exact Hx.
Qed.

(** *** What a run leaves alone *)

Lemma quiet_bind {A B} (m : M A) (f : A -> M B) :
  quiet m -> (forall a, quiet (f a)) -> quiet (m ≫= f).
Proof.
  intros Hm Hf w. unfold mbind, M_bind. specialize (Hm w).
  destruct (m w) as [[a | e] w1]; cbn [snd] in *.
  - destruct (Hf a w1) as (F & S & K). destruct Hm as (F1 & S1 & K1).
    repeat split; congruence.
  - exact Hm.
Qed.

Lemma quiet_ret {A} (a : A) : quiet (mret a : M A).
Proof. intros w. cbn. auto. Qed.

Lemma quiet_lift {A} (r : result A) : quiet (lift r).
Proof. intros w. cbn. auto. Qed.

Lemma quiet_get_world : quiet get_world.
Proof. intros w. cbn. auto. Qed.

Lemma quiet_read_array (p : nat) : quiet (read_array p).
Proof. intros w. unfold read_array. destruct (arrays w !! p); cbn; auto. Qed.

Lemma quiet_new_array (a : ndarray) : quiet (new_array a).
Proof. intros w. cbn. auto. Qed.

Lemma quiet_write_array (p : nat) (a : ndarray) : quiet (write_array p a).
Proof. intros w. cbn. auto. Qed.

Create HintDb quiet.
#[local] Hint Resolve quiet_ret quiet_lift quiet_get_world quiet_read_array quiet_new_array
  quiet_write_array : quiet.

Ltac quiet_step :=
  first [ apply quiet_bind; [| intros ?]
        | match goal with
          | |- quiet (match ?x with _ => _ end) => destruct x
          | |- quiet (if ?x then _ else _) => destruct x
          end
        | solve [auto with quiet] ].

Lemma quiet_np_copy (p : nat) : quiet (np_copy p).
Proof. unfold np_copy. repeat quiet_step. Qed.

Lemma quiet_getitem2 (p i j : nat) : quiet (getitem2 p i j).
Proof. unfold getitem2. repeat quiet_step. Qed.

Lemma quiet_getcol (p j : nat) : quiet (getcol p j).
Proof. unfold getcol. repeat quiet_step. Qed.

Lemma quiet_setcol (p j : nat) (c : list float) : quiet (setcol p j c).
Proof. unfold setcol. repeat quiet_step. Qed.

Section Frame.
Context {L : Libs}.

Lemma quiet_genfromtxt (path : string) : quiet (mrgaze.genfromtxt path).
Proof.
  unfold mrgaze.genfromtxt. repeat quiet_step.
Qed.

Lemma post_bind {A} (filt : string) (m : M A) (f : A -> M bool) :
  quiet m -> (forall a w, filter_post filt w (f a w)) ->
  forall w, filter_post filt w ((m ≫= f) w).
Proof.
  intros Hm Hf w. unfold mbind, M_bind. destruct (Hm w) as (F & S & K).
  destruct (m w) as [[a | e] w1]; cbn [snd] in *.
  - destruct (Hf a w1) as (P1 & P2 & P3 & P4 & P5 & P6). unfold filter_post.
    rewrite <- F, <- S, <- K. auto 10.
  - unfold filter_post. cbn. repeat split; congruence.
Qed.

Lemma post_savetxt (filt : string) (pf : nat) :
  forall w, filter_post filt w ((mrgaze.savetxt filt pf 6 ≫= fun _ => mret true) w).
Proof.
  intros w. unfold mrgaze.savetxt, mbind, M_bind, read_array.
  destruct (arrays w !! pf) as [a |]; cbn.
  - unfold filter_post. cbn. repeat split; try congruence.
    + intros path Hp. apply lookup_insert_ne. congruence.
    + intros _. rewrite lookup_insert_eq. eauto.
  - unfold filter_post. cbn. repeat split; congruence.
Qed.

Lemma FilterPupilometry_frame :
  forall (raw filt : string) (w : world),
    let r := mrgaze.FilterPupilometry raw filt w in
    (forall path, path <> filt -> files (snd r) !! path = files w !! path)
    /\ (fst r <> Ok true -> files (snd r) = files w)
    /\ (fst r = Ok true -> is_Some (files (snd r) !! filt))
    /\ (fst r = Ok false <-> files w !! raw = None)
    /\ (files w !! raw <> None -> stdout (snd r) = stdout w)
    /\ keys (snd r) = keys w.
Proof.
  intros raw filt w r.
  destruct (files w !! raw) as [f |] eqn:Hraw.
  - assert (P : filter_post filt w r).
    { unfold r, mrgaze.FilterPupilometry.
      unfold mbind at 1, M_bind at 1, isfile at 1.
      rewrite bool_decide_eq_true_2 by (rewrite Hraw; eauto). cbn [negb].
      revert w Hraw r. intros w _ _. revert w.
      repeat (apply post_bind;
              [first [apply quiet_genfromtxt | apply quiet_getitem2 | apply quiet_lift
                     | apply quiet_np_copy | apply quiet_getcol | apply quiet_setcol]
              | intros ?]).
      intros w. apply post_savetxt. }
    destruct P as (P1 & P2 & P3 & P4 & P5 & P6).
    repeat split; auto; try congruence.
  - assert (E : r = (Ok false,
                     World (files w) (arrays w) (next_array w)
                       (stdout w ++ ["* Raw pupilometry CSV file missing - returning"])
                       (keys w))).
    { unfold r, mrgaze.FilterPupilometry.
      unfold mbind at 1, M_bind at 1, isfile at 1.
      rewrite bool_decide_eq_false_2 by (rewrite Hraw; intros [x Hx]; discriminate Hx).
      reflexivity. }
    rewrite E. cbn. repeat split; auto; congruence.
Qed.

End Frame.

(** *** Arrays that a run leaves alone *)

Lemma fresh_bind {A B} (n0 : nat) (m : M A) (f : A -> M B) :
  fresh_only n0 m -> (forall a, fresh_only n0 (f a)) -> fresh_only n0 (m ≫= f).
Proof.
  intros Hm Hf w Hw. unfold mbind, M_bind. destruct (Hm w Hw) as [Hn Ha].
  destruct (m w) as [[a | e] w1]; cbn [snd] in *; [| auto].
  destruct (Hf a w1 Hn) as [Hn' Ha']. split; [exact Hn' |].
  intros x Hx. rewrite Ha', Ha by exact Hx. reflexivity.
Qed.

Lemma fresh_ret {A} (n0 : nat) (a : A) : fresh_only n0 (mret a : M A).
Proof. intros w Hw. cbn. auto. Qed.

Lemma fresh_lift {A} (n0 : nat) (r : result A) : fresh_only n0 (lift r).
Proof. intros w Hw. cbn. auto. Qed.

Lemma fresh_get_world (n0 : nat) : fresh_only n0 get_world.
Proof. intros w Hw. cbn. auto. Qed.

Lemma fresh_set_files (n0 : nat) (fs : gmap string file) : fresh_only n0 (set_files fs).
Proof. intros w Hw. cbn. auto. Qed.

Lemma fresh_read_array (n0 p : nat) : fresh_only n0 (read_array p).
Proof. intros w Hw. unfold read_array. destruct (arrays w !! p); cbn; auto. Qed.

Lemma fresh_new_array (n0 : nat) (a : ndarray) : fresh_only n0 (new_array a).
Proof.
  intros w Hw. cbn. split; [lia |]. intros x Hx. apply lookup_insert_ne. lia.
Qed.

Lemma fresh_write_array (n0 p : nat) (a : ndarray) :
  (n0 <= p)%nat -> fresh_only n0 (write_array p a).
Proof.
  intros Hp w Hw. cbn. split; [exact Hw |]. intros x Hx. apply lookup_insert_ne. lia.
Qed.

Create HintDb fresh.
#[local] Hint Resolve fresh_ret fresh_lift fresh_get_world fresh_set_files
  fresh_read_array fresh_new_array : fresh.

Ltac fresh_step :=
  first [ apply fresh_bind; [| intros ?]
        | match goal with
          | |- fresh_only _ (match ?x with _ => _ end) => destruct x
          | |- fresh_only _ (if ?x then _ else _) => destruct x
          end
        | solve [auto with fresh]
        | solve [apply fresh_write_array; lia] ].

Lemma fresh_getitem2 (n0 p i j : nat) : fresh_only n0 (getitem2 p i j).
Proof. unfold getitem2. repeat fresh_step. Qed.

Lemma fresh_getcol (n0 p j : nat) : fresh_only n0 (getcol p j).
Proof. unfold getcol. repeat fresh_step. Qed.

Lemma fresh_setcol (n0 p j : nat) (c : list float) :
  (n0 <= p)%nat -> fresh_only n0 (setcol p j c).
Proof. intros Hp. unfold setcol. repeat fresh_step. Qed.

(** [pf = p.copy()]: the copy is at a fresh address. *)
Lemma fresh_bind_copy {B} (n0 p : nat) (f : nat -> M B) :
  (forall pf, (n0 <= pf)%nat -> fresh_only n0 (f pf)) ->
  fresh_only n0 (np_copy p ≫= f).
Proof.
  intros Hf w Hw. unfold np_copy, mbind, M_bind, read_array.
  destruct (arrays w !! p) as [a |]; cbn [snd]; [| auto].
  cbn [new_array next_array arrays files stdout keys].
  destruct (Hf (next_array w) Hw
              (World (files w) (<[next_array w := a]> (arrays w)) (S (next_array w))
                 (stdout w) (keys w))) as [Hn Ha]; [cbn; lia |].
  split; [exact Hn |]. intros x Hx. rewrite Ha by exact Hx. cbn.
  apply lookup_insert_ne. lia.
Qed.

Section Arrays.
Context {L : Libs}.

Lemma fresh_savetxt (n0 : nat) (path : string) (p digits : nat) :
  fresh_only n0 (mrgaze.savetxt path p digits).
Proof. unfold mrgaze.savetxt. repeat fresh_step. Qed.

Lemma fresh_genfromtxt (n0 : nat) (path : string) : fresh_only n0 (mrgaze.genfromtxt path).
Proof. unfold mrgaze.genfromtxt. repeat fresh_step. Qed.

(** What [genfromtxt] returns is the address of a new array. *)
Lemma genfromtxt_new (path : string) (w w1 : world) (p : nat) :
  mrgaze.genfromtxt path w = (Ok p, w1) ->
  p = next_array w /\ next_array w1 = S p /\ is_Some (files w !! path).
Proof.
  unfold mrgaze.genfromtxt, mbind, M_bind, get_world.
  destruct (files w !! path) as [[lines | fps nf fr] |]; [| discriminate | discriminate].
  intros H. split; [| split; [| eauto]];
    destruct (map (map mrgaze.parse_field) lines) as [| r0 [| r1 rest]];
    try (cbn in H; injection H as <- <-; reflexivity);
    destruct (forallb _ _); try discriminate H;
    cbn in H; injection H as <- <-; reflexivity.
Qed.

(** No run of [FilterPupilometry] changes an array that was there before,
    nor the array it reads from the raw file. *)
Lemma FilterPupilometry_arrays (raw filt : string) (w : world) :
  let r := mrgaze.FilterPupilometry raw filt w in
  (forall a, (a < next_array w)%nat -> arrays (snd r) !! a = arrays w !! a)
  /\ (forall p w1,
        mrgaze.ReadPupilometry raw w = (Ok p, w1) ->
        arrays (snd r) !! p = arrays w1 !! p).
Proof.
  assert (Htail : forall n0 p,
            fresh_only n0
              (p10 ← getitem2 p 1 0;
               p00 ← getitem2 p 0 0;
               let dt := PrimFloat.sub p10 p00 in
               k_area ← lift (mrgaze._forceodd (PrimFloat.div 0.25 dt));
               let k_px := 3 in
               let k_py := 3 in
               k_blink ← lift (mrgaze._forceodd (PrimFloat.div 0.25 dt));
               k_art ← lift (mrgaze._forceodd (PrimFloat.div 1 dt));
               pf ← np_copy p;
               c ← getcol p 1; f ← lift (mrgaze.medfilt c k_area); setcol pf 1 f;;
               c ← getcol p 2; f ← lift (mrgaze.medfilt c k_px); setcol pf 2 f;;
               c ← getcol p 3; f ← lift (mrgaze.medfilt c k_py); setcol pf 3 f;;
               c ← getcol p 4; f ← lift (mrgaze.medfilt c k_blink); setcol pf 4 f;;
               c ← getcol p 5; setcol pf 5 (scipy_gaussian_filter1d c 1);;
               c ← getcol pf 5; f ← lift (mrgaze.medfilt c k_art); setcol pf 5 f;;
               mrgaze.savetxt filt pf 6;;
               mret true)).
  { intros n0 p.
    do 5 (apply fresh_bind; [first [apply fresh_getitem2 | apply fresh_lift] | intros ?]).
    apply fresh_bind_copy. intros pf Hpf.
    repeat (apply fresh_bind;
            [first [apply fresh_getcol | apply fresh_lift
                   | apply fresh_setcol; lia | apply fresh_savetxt]
            | intros ?]).
    apply fresh_ret. }
  intros r. split.
  - assert (H : fresh_only (next_array w) (mrgaze.FilterPupilometry raw filt)).
    { unfold mrgaze.FilterPupilometry.
      apply fresh_bind; [intros w0 Hw0; cbn; auto | intros raw_exists].
      destruct (negb raw_exists).
      - apply fresh_bind; [intros w0 Hw0; cbn; auto | intros ?]. apply fresh_ret.
      - apply fresh_bind; [apply fresh_genfromtxt | intros p]. apply Htail. }
    apply (H w). lia.
  - intros p w1 Hread.
    pose proof (genfromtxt_new raw w w1 p Hread) as (Hp & Hn1 & Hfile).
    unfold r, mrgaze.FilterPupilometry.
    unfold mbind at 1, M_bind at 1, isfile at 1.
    rewrite bool_decide_eq_true_2 by exact Hfile. cbn [negb].
    unfold mbind at 1, M_bind at 1. rewrite Hread.
    apply (Htail (S p) p); lia.
Qed.

End Arrays.

(** *** The channels of the filtered table *)

Section FilterMedians.
Context {L : Libs}.

Lemma filtered_medians (rows : list (list float)) (ncols : nat)
    (c1 c2 c3 c4 c5 : list float) (k_area k_art : Z) :
  Forall (fun r => length r = ncols) rows ->
  column rows 1 = Some c1 -> column rows 2 = Some c2 ->
  column rows 3 = Some c3 -> column rows 4 = Some c4 ->
  column rows 5 = Some c5 ->
  length (scipy_gaussian_filter1d c5 1) = length c5 ->
  select_by_rank ->
  Z.odd k_area = true -> 1 <= k_area -> Z.odd k_art = true -> 1 <= k_art ->
  let pf := filtered rows c1 c2 c3 c4 c5 k_area k_art in
  exists f1 f2 f3 f4 f5 : list float,
    column pf 1 = Some f1 /\ is_moving_median k_area c1 f1
    /\ column pf 2 = Some f2 /\ is_moving_median 3 c2 f2
    /\ column pf 3 = Some f3 /\ is_moving_median 3 c3 f3
    /\ column pf 4 = Some f4 /\ is_moving_median k_area c4 f4
    /\ column pf 5 = Some f5
    /\ is_moving_median k_art (scipy_gaussian_filter1d c5 1) f5.
Proof.
  intros Hw Hc1 Hc2 Hc3 Hc4 Hc5 Hg Hsel Hoa Hka Hot Hkt pf.
  destruct (filtered_columns rows ncols c1 c2 c3 c4 c5 k_area k_art
              Hw Hc1 Hc2 Hc3 Hc4 Hc5 Hg)
    as (_ & _ & F1 & F2 & F3 & F4 & F5 & _).
  exists (medfilt_out c1 k_area), (medfilt_out c2 3), (medfilt_out c3 3),
    (medfilt_out c4 k_area), (medfilt_out (scipy_gaussian_filter1d c5 1) k_art).
  split; [exact F1 |]. split; [apply medfilt_out_median; assumption |].
  split; [exact F2 |]. split; [apply medfilt_out_median; [assumption | reflexivity | lia] |].
  split; [exact F3 |]. split; [apply medfilt_out_median; [assumption | reflexivity | lia] |].
  split; [exact F4 |]. split; [apply medfilt_out_median; assumption |].
  split; [exact F5 |]. apply medfilt_out_median; assumption.
Qed.

End FilterMedians.

(** *** Kernel widths and channels (C5) *)

(** C5, as the code has it.  For a raw series of at least two records
    [FilterPupilometry] takes the sampling interval [dt] from the first two
    time stamps.  For a positive [dt] every kernel width [_forceodd]
    computes is an odd integer >= 1.  When [dt] is positive and the
    quotients 0.25 / dt and 1.0 / dt are finite the filter returns [True]
    and the table it writes has: area and blink as the moving median over
    [_forceodd(0.25 / dt)] samples, the pupil centre x and y as the moving
    median over 3 samples, and the artifact power as the moving median over
    [_forceodd(1.0 / dt)] samples of the sigma = 1 Gaussian of the channel;
    each width is the ceiling of its quotient or one more.  A moving median
    takes, for each sample, the window of that many samples centred on it
    (zeros beyond the ends of the series) and returns what the order filter
    selects at the middle rank, the median of the window when it holds no
    NaN. *)
Theorem C5_filter_kernels_and_channels :
  forall (L : Libs),
    (forall (dt : float) (k : Z),
       PrimFloat.ltb 0 dt = true ->
       mrgaze._forceodd (PrimFloat.div 0.25 dt) = Ok k
       \/ mrgaze._forceodd (PrimFloat.div 1 dt) = Ok k \/ k = 3 ->
       Z.odd k = true /\ 1 <= k)
    /\ (forall fs arr nx out ks raw filt lines rows ncols t0 t1 c1 c2 c3 c4 c5,
          let dt := PrimFloat.sub t1 t0 in
          raw_series fs raw lines rows ncols t0 t1 c1 c2 c3 c4 c5 ->
          PrimFloat.ltb 0 dt = true ->
          PrimFloat.div 0.25 dt <> PrimFloat.infinity ->
          PrimFloat.div 1 dt <> PrimFloat.infinity ->
          length (scipy_gaussian_filter1d c5 1) = length c5 ->
          select_by_rank ->
          exists (k_area k_art n_area n_art : Z) (pf : list (list float)) (w' : world)
                 (f1 f2 f3 f4 f5 : list float),
            mrgaze._forceodd (PrimFloat.div 0.25 dt) = Ok k_area
            /\ mrgaze._forceodd (PrimFloat.div 1 dt) = Ok k_art
            /\ mrgaze.float_ceil (PrimFloat.div 0.25 dt) = Ok n_area
            /\ n_area <= k_area <= n_area + 1
            /\ mrgaze.float_ceil (PrimFloat.div 1 dt) = Ok n_art
            /\ n_art <= k_art <= n_art + 1
            /\ mrgaze.FilterPupilometry raw filt (World fs arr nx out ks)
               = (Ok true, w')
            /\ files w' !! filt = Some (Csv (map (map (FmtF 6)) pf))
            /\ column pf 1 = Some f1 /\ is_moving_median k_area c1 f1
            /\ column pf 4 = Some f4 /\ is_moving_median k_area c4 f4
            /\ column pf 2 = Some f2 /\ is_moving_median 3 c2 f2
            /\ column pf 3 = Some f3 /\ is_moving_median 3 c3 f3
            /\ column pf 5 = Some f5
            /\ is_moving_median k_art (scipy_gaussian_filter1d c5 1) f5).
Proof.
  intros L. split.
  - intros dt k Hdt [Hk | [Hk | ->]].
    + apply (proj1 (kernel_width 0.25 dt _ _ quarter_spec Hdt) k Hk).
    + apply (proj1 (kernel_width 1 dt _ _ one_spec Hdt) k Hk).
    + split; [reflexivity | lia].
  - intros fs arr nx out ks raw filt lines rows ncols t0 t1 c1 c2 c3 c4 c5 dt
      Hs Hdt Hfa Hft Hg Hsel.
    destruct (FilterPupilometry_complete fs arr nx out ks raw filt lines rows
                ncols t0 t1 c1 c2 c3 c4 c5 Hs Hdt Hfa Hft Hg)
      as (k_area & k_art & Hka & Hkt & Hrun).
    destruct (kernel_width 0.25 dt _ _ quarter_spec Hdt) as [Ha1 Ha2].
    destruct (kernel_width 1 dt _ _ one_spec Hdt) as [Ht1 Ht2].
    destruct (Ha2 Hfa) as (ka & n_area & Hka' & Hna & Hba).
    destruct (Ht2 Hft) as (kt & n_art & Hkt' & Hnt & Hbt).
    fold dt in Hka, Hkt. rewrite Hka in Hka'. rewrite Hkt in Hkt'.
    injection Hka' as <-. injection Hkt' as <-.
    destruct (Ha1 k_area Hka) as [Hoa Hka1]. destruct (Ht1 k_art Hkt) as [Hot Hkt1].
    destruct Hs as (_ & _ & Hw & _ & _ & Hc1 & Hc2 & Hc3 & Hc4 & Hc5).
    destruct (filtered_medians rows ncols c1 c2 c3 c4 c5 k_area k_art
                Hw Hc1 Hc2 Hc3 Hc4 Hc5 Hg Hsel Hoa Hka1 Hot Hkt1)
      as (f1 & f2 & f3 & f4 & f5 & F1 & M1 & F2 & M2 & F3 & M3 & F4 & M4 & F5 & M5).
    exists k_area, k_art, n_area, n_art,
      (filtered rows c1 c2 c3 c4 c5 k_area k_art),
      (filtered_world fs arr nx out ks filt rows
         (filtered rows c1 c2 c3 c4 c5 k_area k_art)),
      f1, f2, f3, f4, f5.
    split; [exact Hka |]. split; [exact Hkt |].
    split; [exact Hna |]. split; [exact Hba |].
    split; [exact Hnt |]. split; [exact Hbt |].
    split; [exact Hrun |].
    split; [unfold filtered_world; cbn [files]; apply lookup_insert_eq |].
    split; [exact F1 |]. split; [exact M1 |]. split; [exact F4 |]. split; [exact M4 |].
    split; [exact F2 |]. split; [exact M2 |]. split; [exact F3 |]. split; [exact M3 |].
    split; [exact F5 | exact M5].
Qed.

Lemma example_series :
  @raw_series filter_libs example_fs "raw.csv" example_raw example_rows 9
    0 0.125 (example_col 1) (example_col 2) (example_col 3) (example_col 4)
    (example_col 5).
Proof.
  unfold raw_series.
  split; [vm_compute; reflexivity |]. split; [reflexivity |].
  split; [repeat constructor |]. repeat split; reflexivity.
Defined.

(** The example series: time stamps 0 and 0.125, kernel widths 3 and 9. *)
Lemma C5_example_witness :
  (Z.odd 3 = true /\ 1 <= 3)
  /\ exists (k_area k_art n_area n_art : Z) (pf : list (list float)) (w' : world)
            (f1 f2 f3 f4 f5 : list float),
       mrgaze._forceodd (PrimFloat.div 0.25 (PrimFloat.sub 0.125 0)) = Ok k_area
       /\ mrgaze._forceodd (PrimFloat.div 1 (PrimFloat.sub 0.125 0)) = Ok k_art
       /\ mrgaze.float_ceil (PrimFloat.div 0.25 (PrimFloat.sub 0.125 0)) = Ok n_area
       /\ n_area <= k_area <= n_area + 1
       /\ mrgaze.float_ceil (PrimFloat.div 1 (PrimFloat.sub 0.125 0)) = Ok n_art
       /\ n_art <= k_art <= n_art + 1
       /\ @mrgaze.FilterPupilometry filter_libs "raw.csv" "filt.csv"
            (World example_fs ∅ 0 [] [])
          = (Ok true, w')
       /\ files w' !! "filt.csv" = Some (Csv (map (map (FmtF 6)) pf))
       /\ column pf 1 = Some f1
       /\ @is_moving_median filter_libs k_area (example_col 1) f1
       /\ column pf 4 = Some f4
       /\ @is_moving_median filter_libs k_area (example_col 4) f4
       /\ column pf 2 = Some f2
       /\ @is_moving_median filter_libs 3 (example_col 2) f2
       /\ column pf 3 = Some f3
       /\ @is_moving_median filter_libs 3 (example_col 3) f3
       /\ column pf 5 = Some f5
       /\ @is_moving_median filter_libs k_art
            (@scipy_gaussian_filter1d filter_libs (example_col 5) 1) f5.
Proof.
  destruct (C5_filter_kernels_and_channels filter_libs) as [Hodd Hrun].
  split.
  - apply (Hodd 0.125%float 3); [reflexivity | left; reflexivity].
  - apply (Hrun example_fs ∅ 0%nat [] [] "raw.csv" "filt.csv" example_raw
             example_rows 9%nat 0%float 0.125%float
             (example_col 1) (example_col 2) (example_col 3) (example_col 4)
             (example_col 5)).
    + exact example_series.
    + reflexivity.
    + apply float_neq_by_eqb; reflexivity.
    + apply float_neq_by_eqb; reflexivity.
    + reflexivity.
    + apply example_select_by_rank.
Defined.

(** The claim as stated fails on a series of two records with the same time
    stamp: the sampling interval is zero, no kernel width can be computed
    from 0.25 / 0 and [FilterPupilometry] raises; no channel is filtered
    and no filtered series is written. *)
Lemma C5_equal_time_stamps_counterexample :
  let raw := [example_line 0 12.5 4 5 0 1 2 3; example_line 0 13 4.5 5 0 3 2 3] in
  let r := @mrgaze.FilterPupilometry filter_libs "raw.csv" "filt.csv"
             (World {["raw.csv" := Csv raw]} ∅ 0 [] []) in
  length raw = 2%nat
  /\ fst r = Raise OverflowError
  /\ files (snd r) !! "filt.csv" = None.
Proof. repeat split; vm_compute; reflexivity. Qed.

(** The example series filtered: kernel widths 3 (0.25 s) and 9 (1 s). *)
Example FilterPupilometry_example :
  mrgaze._forceodd (PrimFloat.div 0.25 0.125) = Ok 3
  /\ mrgaze._forceodd (PrimFloat.div 1 0.125) = Ok 9
  /\ fst (@mrgaze.FilterPupilometry filter_libs "raw.csv" "filt.csv"
            (World example_fs ∅ 0 [] [])) = Ok true.
Proof. repeat split; vm_compute; reflexivity. Qed.

(** *** The output series and the raw series (C6) *)

Lemma append_inj_l (s a b : string) : s +:+ a = s +:+ b -> a = b.
Proof.
  induction s as [| c s IH]; cbn; intros H; [exact H |].
  injection H as H. apply IH, H.
Qed.

(** The two CSV files of [VideoPupilometry] have different paths. *)
Lemma raw_filt_distinct (res_dir v_stub : string) :
  path_join res_dir (v_stub +:+ "_pupils_raw.csv")
  <> path_join res_dir (v_stub +:+ "_pupils_filt.csv").
Proof.
  assert (Hne : v_stub +:+ "_pupils_raw.csv" <> v_stub +:+ "_pupils_filt.csv").
  { intros E. apply append_inj_l in E. discriminate E. }
  assert (Habs : is_absolute (v_stub +:+ "_pupils_raw.csv")
                 = is_absolute (v_stub +:+ "_pupils_filt.csv")).
  { destruct v_stub; reflexivity. }
  unfold path_join. rewrite Habs. clear Habs.
  destruct (is_absolute (v_stub +:+ "_pupils_filt.csv")); [exact Hne |].
  destruct (bool_decide (res_dir = "")); [exact Hne |].
  destruct (String.eqb _ "/"); intros E; apply append_inj_l in E.
  - apply Hne, E.
  - apply append_inj_l in E. apply Hne, E.
Qed.

(** C6, as the code has it.  The filtered series is written to the file
    [filt]; in [VideoPupilometry] its path differs from that of the raw
    file.  No run of [FilterPupilometry], whether it returns or raises,
    changes the raw file, any other file than [filt], an array that was
    there before, or the array [p] it read from the raw file: every
    assignment goes to the copy [pf].  On a raw series of at least two
    records with a positive sampling interval (the quotients 0.25 / dt and
    1.0 / dt finite) the filtered series has as many rows as the raw one
    and rows of the same width; each of the channels 1 .. 5 is the moving
    median of the same channel of the raw series (after the Gaussian for
    channel 5), and the other columns are copied. *)
Theorem C6_filter_output_and_raw_untouched :
  forall (L : Libs),
    (forall res_dir v_stub : string,
       path_join res_dir (v_stub +:+ "_pupils_raw.csv")
       <> path_join res_dir (v_stub +:+ "_pupils_filt.csv"))
    /\ (forall (raw filt : string) (w : world),
          raw <> filt ->
          let r := mrgaze.FilterPupilometry raw filt w in
          files (snd r) !! raw = files w !! raw
          /\ (forall path, path <> filt -> files (snd r) !! path = files w !! path)
          /\ (forall a, (a < next_array w)%nat ->
                        arrays (snd r) !! a = arrays w !! a)
          /\ (forall p w1,
                mrgaze.ReadPupilometry raw w = (Ok p, w1) ->
                arrays (snd r) !! p = arrays w1 !! p))
    /\ (forall fs arr nx out ks raw filt lines rows ncols t0 t1 c1 c2 c3 c4 c5,
          let dt := PrimFloat.sub t1 t0 in
          raw_series fs raw lines rows ncols t0 t1 c1 c2 c3 c4 c5 ->
          PrimFloat.ltb 0 dt = true ->
          PrimFloat.div 0.25 dt <> PrimFloat.infinity ->
          PrimFloat.div 1 dt <> PrimFloat.infinity ->
          length (scipy_gaussian_filter1d c5 1) = length c5 ->
          select_by_rank ->
          exists (k_area k_art : Z) (pf : list (list float)) (w' : world)
                 (f1 f2 f3 f4 f5 : list float),
            mrgaze.FilterPupilometry raw filt (World fs arr nx out ks)
            = (Ok true, w')
            /\ files w' !! filt = Some (Csv (map (map (FmtF 6)) pf))
            /\ length pf = length rows
            /\ Forall (fun r => length r = ncols) pf
            /\ column pf 1 = Some f1 /\ is_moving_median k_area c1 f1
            /\ column pf 2 = Some f2 /\ is_moving_median 3 c2 f2
            /\ column pf 3 = Some f3 /\ is_moving_median 3 c3 f3
            /\ column pf 4 = Some f4 /\ is_moving_median k_area c4 f4
            /\ column pf 5 = Some f5
            /\ is_moving_median k_art (scipy_gaussian_filter1d c5 1) f5
            /\ (forall j, (j = 0 \/ 6 <= j)%nat -> column pf j = column rows j)
            /\ arrays w' !! nx = Some (A2 rows)
            /\ arrays w' !! S nx = Some (A2 pf)
            /\ stdout w' = out).
Proof.
  intros L. split; [apply raw_filt_distinct |]. split.
  - intros raw filt w Hne r.
    destruct (FilterPupilometry_frame raw filt w) as (Hfiles & _).
    destruct (FilterPupilometry_arrays raw filt w) as (Hold & Hp).
    split; [apply Hfiles, Hne |]. split; [exact Hfiles |].
    split; [exact Hold | exact Hp].
  - intros fs arr nx out ks raw filt lines rows ncols t0 t1 c1 c2 c3 c4 c5 dt
      Hs Hdt Hfa Hft Hg Hsel.
    destruct (FilterPupilometry_complete fs arr nx out ks raw filt lines rows
                ncols t0 t1 c1 c2 c3 c4 c5 Hs Hdt Hfa Hft Hg)
      as (k_area & k_art & Hka & Hkt & Hrun).
    fold dt in Hka, Hkt.
    destruct (proj1 (kernel_width 0.25 dt _ _ quarter_spec Hdt) k_area Hka)
      as [Hoa Hka1].
    destruct (proj1 (kernel_width 1 dt _ _ one_spec Hdt) k_art Hkt) as [Hot Hkt1].
    destruct Hs as (Hf & _ & Hw & _ & _ & Hc1 & Hc2 & Hc3 & Hc4 & Hc5).
    destruct (filtered_columns rows ncols c1 c2 c3 c4 c5 k_area k_art
                Hw Hc1 Hc2 Hc3 Hc4 Hc5 Hg)
      as (Flen & Fw & _ & _ & _ & _ & _ & Fo).
    destruct (filtered_medians rows ncols c1 c2 c3 c4 c5 k_area k_art
                Hw Hc1 Hc2 Hc3 Hc4 Hc5 Hg Hsel Hoa Hka1 Hot Hkt1)
      as (f1 & f2 & f3 & f4 & f5 & F1 & M1 & F2 & M2 & F3 & M3 & F4 & M4 & F5 & M5).
    exists k_area, k_art, (filtered rows c1 c2 c3 c4 c5 k_area k_art),
      (filtered_world fs arr nx out ks filt rows
         (filtered rows c1 c2 c3 c4 c5 k_area k_art)),
      f1, f2, f3, f4, f5.
    split; [exact Hrun |]. unfold filtered_world. cbn [files arrays stdout].
    split; [apply lookup_insert_eq |].
    split; [exact Flen |]. split; [exact Fw |].
    split; [exact F1 |]. split; [exact M1 |]. split; [exact F2 |]. split; [exact M2 |].
    split; [exact F3 |]. split; [exact M3 |]. split; [exact F4 |]. split; [exact M4 |].
    split; [exact F5 |]. split; [exact M5 |]. split; [exact Fo |].
    split; [rewrite lookup_insert_ne by lia; apply lookup_insert_eq |].
    split; [apply lookup_insert_eq | reflexivity].
Qed.

(** The example series, filtered into another file. *)
Lemma C6_example_witness :
  (path_join "results" ("gaze" +:+ "_pupils_raw.csv")
   <> path_join "results" ("gaze" +:+ "_pupils_filt.csv"))
  /\ (let r := @mrgaze.FilterPupilometry filter_libs "raw.csv" "filt.csv"
                 (World example_fs ∅ 0 [] []) in
      files (snd r) !! "raw.csv" = example_fs !! "raw.csv"
      /\ arrays (snd r) !! 0%nat = Some (A2 example_rows))
  /\ exists (k_area k_art : Z) (pf : list (list float)) (w' : world)
            (f1 f2 f3 f4 f5 : list float),
       @mrgaze.FilterPupilometry filter_libs "raw.csv" "filt.csv"
         (World example_fs ∅ 0 [] [])
       = (Ok true, w')
       /\ files w' !! "filt.csv" = Some (Csv (map (map (FmtF 6)) pf))
       /\ length pf = length example_rows
       /\ Forall (fun r => length r = 9%nat) pf
       /\ column pf 1 = Some f1
       /\ @is_moving_median filter_libs k_area (example_col 1) f1
       /\ column pf 2 = Some f2
       /\ @is_moving_median filter_libs 3 (example_col 2) f2
       /\ column pf 3 = Some f3
       /\ @is_moving_median filter_libs 3 (example_col 3) f3
       /\ column pf 4 = Some f4
       /\ @is_moving_median filter_libs k_area (example_col 4) f4
       /\ column pf 5 = Some f5
       /\ @is_moving_median filter_libs k_art
            (@scipy_gaussian_filter1d filter_libs (example_col 5) 1) f5
       /\ (forall j, (j = 0 \/ 6 <= j)%nat -> column pf j = column example_rows j)
       /\ arrays w' !! 0%nat = Some (A2 example_rows)
       /\ arrays w' !! 1%nat = Some (A2 pf)
       /\ stdout w' = [].
Proof.
  destruct (C6_filter_output_and_raw_untouched filter_libs) as (Hpaths & Hframe & Hrun).
  split; [apply Hpaths |]. split.
  - destruct (Hframe "raw.csv" "filt.csv" (World example_fs ∅ 0 [] []))
      as (Hraw & _ & _ & Hp); [discriminate |].
    split; [exact Hraw |].
    rewrite (Hp 0%nat (World example_fs (<[0%nat := A2 example_rows]> ∅) 1 [] []));
      reflexivity.
  - apply (Hrun example_fs ∅ 0%nat [] [] "raw.csv" "filt.csv" example_raw
             example_rows 9%nat 0%float 0.125%float
             (example_col 1) (example_col 2) (example_col 3) (example_col 4)
             (example_col 5)).
    + exact example_series.
    + reflexivity.
    + apply float_neq_by_eqb; reflexivity.
    + apply float_neq_by_eqb; reflexivity.
    + reflexivity.
    + apply example_select_by_rank.
Defined.

(** The claim as stated fails on a raw series of a single record: numpy
    reads it as a 1-D array, [p[1,0]] raises [IndexError], and no output
    series is produced. *)
Lemma C6_single_record_counterexample :
  let raw := [example_line 0 12.5 4 5 0 1 2 3] in
  let r := @mrgaze.FilterPupilometry filter_libs "raw.csv" "filt.csv"
             (World {["raw.csv" := Csv raw]} ∅ 0 [] []) in
  fst r = Raise IndexError
  /\ files (snd r) !! "filt.csv" = None.
Proof. repeat split; vm_compute; reflexivity. Qed.

(** *** A missing raw file (C7) *)

(** C7, as the code has it.  When the raw series file is absent
    [FilterPupilometry] prints the message, returns [False] and leaves the
    file system as it was (no filtered file is written); the end of
    [VideoPupilometry] ignores that result and returns [True]. *)
Theorem C7_missing_raw_file_skips_filtering :
  forall (L : Libs) fs arr nx out ks (raw filt : string),
    fs !! raw = None ->
    mrgaze.FilterPupilometry raw filt (World fs arr nx out ks)
    = (Ok false,
       World fs arr nx
         (out ++ ["* Raw pupilometry CSV file missing - returning"]) ks)
    /\ mrgaze.finish_run raw filt (World fs arr nx out ks)
       = (Ok true,
          World fs arr nx
            (out ++ ["  Temporally filtering pupilometry timeseries";
                     "* Raw pupilometry CSV file missing - returning"]) ks).
Proof.
  intros L fs arr nx out ks raw filt Hf.
  assert (Hrun : forall out',
            mrgaze.FilterPupilometry raw filt (World fs arr nx out' ks)
            = (Ok false,
               World fs arr nx
                 (out' ++ ["* Raw pupilometry CSV file missing - returning"]) ks)).
  { intros out'. unfold mrgaze.FilterPupilometry.
    unfold mbind at 1, M_bind at 1, isfile at 1. cbn [files].
    rewrite bool_decide_eq_false_2 by (rewrite Hf; intros [x Hx]; discriminate Hx).
    reflexivity. }
  split; [apply Hrun |].
  unfold mrgaze.finish_run.
  unfold mbind at 1, M_bind at 1, print at 1.
  cbn [files arrays next_array stdout keys].
  unfold mbind at 1, M_bind at 1. rewrite Hrun.
  rewrite <- app_assoc. reflexivity.
Qed.

Lemma C7_missing_raw_file_witness :
  @mrgaze.FilterPupilometry filter_libs "raw.csv" "filt.csv" (World ∅ ∅ 0 [] [])
  = (Ok false,
     World ∅ ∅ 0 ([] ++ ["* Raw pupilometry CSV file missing - returning"]) [])
  /\ @mrgaze.finish_run filter_libs "raw.csv" "filt.csv" (World ∅ ∅ 0 [] [])
     = (Ok true,
        World ∅ ∅ 0
          ([] ++ ["  Temporally filtering pupilometry timeseries";
                  "* Raw pupilometry CSV file missing - returning"]) []).
Proof.
  apply (C7_missing_raw_file_skips_filtering filter_libs ∅ ∅ 0%nat [] []
           "raw.csv" "filt.csv").
  reflexivity.
Defined.

(** The claim as stated fails for a raw file that is present and empty:
    nothing is reported, [FilterPupilometry] does not return [False] but
    raises [IndexError] at [p[1,0]], and the exception ends
    [VideoPupilometry] too. *)
Lemma C7_empty_raw_file_counterexample :
  let w := World {["raw.csv" := Csv []]} ∅ 0 [] [] in
  fst (@mrgaze.FilterPupilometry filter_libs "raw.csv" "filt.csv" w)
  = Raise IndexError
  /\ stdout (snd (@mrgaze.FilterPupilometry filter_libs "raw.csv" "filt.csv" w)) = []
  /\ fst (@mrgaze.finish_run filter_libs "raw.csv" "filt.csv" w) = Raise IndexError.
Proof. repeat split; vm_compute; reflexivity. Qed.

(** A raw file of a single line is read as a 1-D array, and [p[1,0]]
    raises there as well. *)
Example FilterPupilometry_single_line :
  fst (@mrgaze.FilterPupilometry filter_libs "raw.csv" "filt.csv"
         (World {["raw.csv" := Csv [example_line 0 12.5 4 5 0 1 2 3]]} ∅ 0 [] []))
  = Raise IndexError.
Proof. vm_compute. reflexivity. Qed.

(** ** A whole run

    A video of three frames at 8 frames per second on which the detector
    finds nothing: three blink records, then the filtered series. *)
Example VideoPupilometry_three_blinks :
  let frame := [[1; 2]; [3; 4]] in
  let w := World {["data/s1/videos/gaze.mov" :=
                     Video 8 3 [(frame, 0.5%float); (frame, 0.25%float);
                                (frame, 0.75%float)]]} ∅ 0 [] [] in
  let r := @mrgaze.VideoPupilometry filter_libs "data" "s1" "gaze"
             (example_cfg "otsu") w in
  fst r = Ok true
  /\ files (snd r) !! "data/s1/results/gaze_pupils_raw.csv"
     = Some (Csv [example_line 0 np_nan np_nan np_nan 1 0.5 0 0;
                  example_line 0.125 np_nan np_nan np_nan 1 0.25 0 0;
                  example_line 0.25 np_nan np_nan np_nan 1 0.75 0 0])
  /\ is_Some (files (snd r) !! "data/s1/results/gaze_pupils_filt.csv").
Proof.
  cbv zeta. split; [vm_compute; reflexivity |].
  split; [vm_compute; reflexivity |]. vm_compute. eauto.
Qed.

(** * Further properties *)

Lemma slice_trim {A} (l : list A) (b : Z) :
  0 < b ->
  slice l b (Z.of_nat (length l) - b) = trim (Z.to_nat b) l.
Proof.
  intros Hb. unfold slice, trim, slice_bound.
  destruct (Z.ltb_spec b 0); [lia |].
  destruct (Z.le_gt_cases b (Z.of_nat (length l))) as [Hle | Hgt].
  - destruct (Z.ltb_spec (Z.of_nat (length l) - b) 0); [lia |].
    rewrite Z.min_l by lia. rewrite Z.min_l by lia.
    f_equal. lia.
  - rewrite (drop_ge l (Z.to_nat b)) by lia.
    rewrite take_nil.
    rewrite (Z.min_r b) by lia.
    rewrite drop_ge by lia. apply take_nil.
Qed.

Lemma trim_length {A} (b : nat) (l : list A) :
  length (trim b l) = (length l - 2 * b)%nat.
Proof. unfold trim. rewrite length_take, length_drop. lia. Qed.

Lemma trim_lookup {A} (b : nat) (l : list A) (i : nat) :
  (i < length l - 2 * b)%nat -> trim b l !! i = l !! (b + i)%nat.
Proof.
  intros Hi. unfold trim. rewrite lookup_take_lt by exact Hi. apply lookup_drop.
Qed.

Lemma trim_map {A B} (f : A -> B) (b : nat) (l : list A) :
  trim b (map f l) = map f (trim b l).
Proof.
  unfold trim. rewrite List.length_map. 
  change (map f) with (fmap (M:=list) f).
  rewrite fmap_take, fmap_drop. reflexivity.
Qed.

Lemma trim_trim {A} (a b : nat) (l : list A) :
  trim b (trim a l) = trim (a + b) l.
Proof.
  unfold trim at 1. rewrite trim_length. unfold trim.
  rewrite skipn_firstn_comm. rewrite drop_drop, take_take.
  f_equal. lia.
Qed.

Lemma TrimBorder_trim (frame : image) (border : Z) (ny : nat) :
  0 < border ->
  Forall (fun row => length row = ny) frame ->
  gtIO.TrimBorder frame border
  = map (trim (Z.to_nat border)) (trim (Z.to_nat border) frame).
Proof.
  intros Hb Hrect. unfold gtIO.TrimBorder.
  destruct (Z.ltb_spec 0 border); [| lia].
  cbv zeta. cbn [fst snd shape].
  destruct (Z.ltb_spec (Z.of_nat (length frame) - border) (Z.of_nat (length frame)));
    [| lia].
  set (ny' := match frame with [] => 0%nat | row :: _ => length row end).
  destruct (Z.ltb_spec (Z.of_nat ny' - border) (Z.of_nat ny')); [| lia].
  unfold slice2. rewrite slice_trim by exact Hb.
  assert (Hny : frame <> [] -> ny' = ny).
  { unfold ny'. destruct frame as [| r0 fr]; [congruence |].
    intros _. inversion Hrect; assumption. }
  assert (Ht : Forall (fun row => length row = ny) (trim (Z.to_nat border) frame)).
  { unfold trim. apply Forall_take, Forall_drop, Hrect. }
  destruct (trim (Z.to_nat border) frame) as [| r0 t] eqn:E; [reflexivity |].
  rewrite Hny by (intros ->; discriminate E).
  apply Forall_fmap_ext_1. eapply Forall_impl; [exact Ht |].
  intros row Hrow. cbn beta. rewrite <- Hrow. apply slice_trim. exact Hb.
Qed.

Lemma pixel_lookup (img : image) (r c : Z) :
  0 <= r -> 0 <= c ->
  pixel img r c = (img !! Z.to_nat r) ≫= (fun row => row !! Z.to_nat c).
Proof.
  intros Hr Hc. unfold pixel.
  destruct (Z.ltb_spec r 0); [lia |]. destruct (Z.ltb_spec c 0); [lia |]. reflexivity.
Qed.

Lemma TrimBorder_middle :
  forall (frame : image) (border : Z) (ny : nat),
    Forall (fun row => length row = ny) frame ->
    let nx := Z.of_nat (length frame) in
    let out := gtIO.TrimBorder frame border in
    (border <= 0 -> out = frame)
    /\ (0 < border ->
        Z.of_nat (length out) = Z.max 0 (nx - 2 * border)
        /\ Forall (fun row => Z.of_nat (length row)
                              = Z.max 0 (Z.of_nat ny - 2 * border)) out
        /\ forall r c,
             0 <= r < nx - 2 * border -> 0 <= c < Z.of_nat ny - 2 * border ->
             pixel out r c = pixel frame (r + border) (c + border)).
Proof.
  intros frame border ny Hrect nx out. split.
  - intros Hb. unfold out, gtIO.TrimBorder.
    destruct (Z.ltb_spec 0 border); [lia | reflexivity].
  - intros Hb. unfold out. rewrite (TrimBorder_trim frame border ny Hb Hrect).
    split; [| split].
    + rewrite List.length_map, trim_length. unfold nx. lia.
    + apply Forall_fmap. unfold trim at 2.
      apply Forall_take, Forall_drop.
      eapply Forall_impl; [exact Hrect |].
      intros row Hrow. cbn. rewrite trim_length, Hrow. lia.
    + intros r c Hr Hc. rewrite !pixel_lookup by lia.
      change (map ?f ?l) with (f <$> l).
      unfold image. rewrite list_lookup_fmap.
      rewrite trim_lookup by (unfold nx in Hr; lia).
      replace (Z.to_nat (r + border)) with (Z.to_nat border + Z.to_nat r)%nat by lia.
      destruct (lookup_lt_is_Some_2 frame (Z.to_nat border + Z.to_nat r)%nat)
        as [row Hrow]; [unfold nx in Hr; lia |].
      unfold image in *. rewrite Hrow. cbn.
      assert (length row = ny).
      { exact (Forall_lookup_1 _ _ _ _ Hrect Hrow). }
      rewrite trim_lookup by lia.
      f_equal. lia.
Qed.

(** X1.  [TrimBorder] with a border that is not positive returns the
    frame as it is.  With a positive border, on a frame of [nx] rows of [ny]
    pixels, it returns the middle of the frame: [max 0 (nx - 2 border)]
    rows of [max 0 (ny - 2 border)] pixels, the pixel [(r, c)] of the
    result being the pixel [(r + border, c + border)] of the frame.  A
    border of half the frame or more leaves no pixel, and no border makes
    the function raise: the bounds the code checks are never outside the
    frame. *)
Theorem TrimBorder_central_region :
  forall (frame : image) (border : Z) (ny : nat),
    Forall (fun row => length row = ny) frame ->
    let nx := Z.of_nat (length frame) in
    let out := gtIO.TrimBorder frame border in
    (border <= 0 -> out = frame)
    /\ (0 < border ->
        Z.of_nat (length out) = Z.max 0 (nx - 2 * border)
        /\ Forall (fun row => Z.of_nat (length row)
                              = Z.max 0 (Z.of_nat ny - 2 * border)) out
        /\ forall r c,
             0 <= r < nx - 2 * border -> 0 <= c < Z.of_nat ny - 2 * border ->
             pixel out r c = pixel frame (r + border) (c + border)).
Proof. exact TrimBorder_middle. Qed.

Lemma TrimBorder_witness :
  let frame := [[1; 2; 3; 4]; [5; 6; 7; 8]; [9; 10; 11; 12]] in
  let out := gtIO.TrimBorder frame 1 in
  Z.of_nat (length out) = Z.max 0 (3 - 2 * 1)
  /\ Forall (fun row => Z.of_nat (length row) = Z.max 0 (Z.of_nat 4 - 2 * 1)) out
  /\ forall r c, 0 <= r < 3 - 2 * 1 -> 0 <= c < Z.of_nat 4 - 2 * 1 ->
       pixel out r c = pixel frame (r + 1) (c + 1).
Proof.
  apply (TrimBorder_central_region [[1; 2; 3; 4]; [5; 6; 7; 8]; [9; 10; 11; 12]] 1 4%nat).
  - repeat constructor.
  - lia.
Defined.

(** X2.  Trimming a border of [a] pixels and then one of [b] pixels
    is trimming a border of [a + b] pixels, whatever is left of the frame
    in between. *)
Theorem TrimBorder_twice :
  forall (frame : image) (a b : Z) (ny : nat),
    Forall (fun row => length row = ny) frame ->
    0 < a -> 0 < b ->
    gtIO.TrimBorder (gtIO.TrimBorder frame a) b = gtIO.TrimBorder frame (a + b).
Proof.
  intros frame a b ny Hrect Ha Hb.
  rewrite (TrimBorder_trim frame a ny Ha Hrect).
  rewrite (TrimBorder_trim frame (a + b) ny ltac:(lia) Hrect).
  rewrite (TrimBorder_trim _ b (ny - 2 * Z.to_nat a)%nat Hb).
  - rewrite trim_map, trim_trim. 
    change (map ?f ?l) with (f <$> l). rewrite <- list_fmap_compose.
    replace (Z.to_nat (a + b)) with (Z.to_nat a + Z.to_nat b)%nat by lia.
    apply list_fmap_ext. intros i row _. cbn. apply trim_trim.
  - apply Forall_fmap. unfold trim at 2. apply Forall_take, Forall_drop.
    eapply Forall_impl; [exact Hrect |].
    intros row Hrow. cbn. rewrite trim_length, Hrow. reflexivity.
Qed.

Lemma TrimBorder_twice_witness :
  let frame := [[1; 2; 3; 4; 5]; [6; 7; 8; 9; 10]; [11; 12; 13; 14; 15];
                [16; 17; 18; 19; 20]; [21; 22; 23; 24; 25]] in
  gtIO.TrimBorder (gtIO.TrimBorder frame 1) 1 = gtIO.TrimBorder frame (1 + 1).
Proof.
  apply (TrimBorder_twice _ 1 1 5%nat); [repeat constructor | lia | lia].
Defined.

Section Images.
Context {L : Libs}.
Variable cv2_imread : string -> result (option (list (list (Z * Z * Z)))).
Variable cv2_cvtColor_BGR2GRAY : option (list (list (Z * Z * Z))) -> result image.


End Images.



Section FilterRuns.
Context {L : Libs}.

(** X4.  Whatever the raw series holds, and whether
    [FilterPupilometry] returns or raises, it changes no file other than
    [pupils_filt_csv]; it writes that file only when it returns [True], as
    its last step, so a run that raises leaves every file as it was; it
    returns [False] exactly when the raw file is absent, and only then
    prints anything. *)
Theorem FilterPupilometry_writes_only_filt :
  forall (raw filt : string) (w : world),
    let r := mrgaze.FilterPupilometry raw filt w in
    (forall path, path <> filt -> files (snd r) !! path = files w !! path)
    /\ (fst r <> Ok true -> files (snd r) = files w)
    /\ (fst r = Ok true -> is_Some (files (snd r) !! filt))
    /\ (fst r = Ok false <-> files w !! raw = None)
    /\ (files w !! raw <> None -> stdout (snd r) = stdout w)
    /\ keys (snd r) = keys w.
Proof. exact FilterPupilometry_frame. Qed.

(** A raw series of a single record: numpy reads a 1-D array and
    [p[1,0]] raises. *)
Lemma FilterPupilometry_one_record fs arr nx out ks (raw filt : string)
    (line : list field) :
  fs !! raw = Some (Csv [line]) ->
  mrgaze.FilterPupilometry raw filt (World fs arr nx out ks)
  = (Raise IndexError,
     World fs (<[nx := A1 (map mrgaze.parse_field line)]> arr) (S nx) out ks).
Proof.
  intros Hraw. unfold mrgaze.FilterPupilometry.
  unfold mbind at 1, M_bind at 1, isfile at 1. cbn [files].
  rewrite bool_decide_eq_true_2 by (rewrite Hraw; eauto). cbn [negb].
  unfold mbind at 1, M_bind at 1.
  unfold mrgaze.ReadPupilometry, mrgaze.genfromtxt.
  unfold mbind at 1, M_bind at 1, get_world at 1. cbn [files].
  rewrite Hraw. cbn [map new_array files arrays next_array stdout keys].
  unfold mbind at 1, M_bind at 1, getitem2 at 1.
  unfold mbind at 1, M_bind at 1, read_array at 1. cbn [arrays].
  rewrite lookup_insert_eq. reflexivity.
Qed.

(** X5.  A raw series of a single record (a video of one frame)
    cannot be filtered: numpy reads it as a 1-D array, so [p[1,0]] raises
    [IndexError] before any kernel width is computed; nothing is printed
    and no file is written. *)
Theorem FilterPupilometry_needs_two_samples :
  forall fs arr nx out ks (raw filt : string) (line : list field),
    fs !! raw = Some (Csv [line]) ->
    let r := mrgaze.FilterPupilometry raw filt (World fs arr nx out ks) in
    fst r = Raise IndexError
    /\ files (snd r) = fs
    /\ stdout (snd r) = out.
Proof.
  intros fs arr nx out ks raw filt line Hraw r. unfold r.
  rewrite (FilterPupilometry_one_record fs arr nx out ks raw filt line Hraw).
  repeat split.
Qed.

End FilterRuns.

Lemma FilterPupilometry_needs_two_samples_witness :
  let r := @mrgaze.FilterPupilometry filter_libs "raw.csv" "filt.csv"
             (World {["raw.csv" := Csv [example_line 0 12.5 4 5 0 1 2 3]]} ∅ 0 [] []) in
  fst r = Raise IndexError
  /\ files (snd r) = {["raw.csv" := Csv [example_line 0 12.5 4 5 0 1 2 3]]}
  /\ stdout (snd r) = [].
Proof.
  apply (@FilterPupilometry_needs_two_samples filter_libs _ ∅ 0%nat [] [] "raw.csv"
           "filt.csv" (example_line 0 12.5 4 5 0 1 2 3)).
  reflexivity.
Defined.




Lemma PupilArea_value (el : ellipse) :
  is_ok (mrgaze.PupilArea el) = true -> mrgaze.PupilArea el = Ok (area_value el).
Proof.
  destruct el as [[[x0 y0] [bb aa]] phi].
  unfold mrgaze.PupilArea, float_sq, area_value. cbn [fst snd].
  destruct (PrimFloat.is_infinity _ && _); [discriminate | reflexivity].
Qed.

Section LoopS.
Context {L : Libs}.


Lemma run_WritePupilometry fs arr nx out ks s lines0 t el blink art pg :
  is_ok (mrgaze.PupilArea el) = true ->
  fs !! s = Some (Csv lines0) ->
  mrgaze.WritePupilometry s t el blink art pg (World fs arr nx out ks)
  = (Ok (area_value el),
     World (<[s := Csv (lines0 ++ [raw_line t el blink art pg])]> fs) arr nx out ks).
Proof.
  intros Ha Hs. apply PupilArea_value in Ha.
  destruct el as [[[x0 y0] [bb aa]] phi], pg as [px py].
  unfold mrgaze.WritePupilometry. rewrite Ha.
  unfold stream_write, mbind, M_bind, lift, get_world. cbn [files].
  rewrite Hs. reflexivity.
Qed.










End LoopS.

Section Video.
Context {L : Libs}.

Ltac run_print :=
  unfold mbind at 1, M_bind at 1, print at 1;
  cbn [files arrays next_array stdout keys].


(** X6.  [VideoPupilometry] returns [False] and leaves every file as
    it is when the input video does not exist, and when the LBP cascade is
    empty; it prints the reason. *)
Theorem VideoPupilometry_early_return :
  forall data_dir subj_sess v_stub cfg fs arr nx out ks,
    let vin := vin_path_of data_dir subj_sess v_stub cfg in
    (fs !! vin = None ->
     mrgaze.VideoPupilometry data_dir subj_sess v_stub cfg (World fs arr nx out ks)
     = (Ok false,
        World fs arr nx (out ++ ["* " +:+ vin +:+ " does not exist - returning"]) ks))
    /\ (is_Some (fs !! vin) -> cascade_empty = true ->
        mrgaze.VideoPupilometry data_dir subj_sess v_stub cfg (World fs arr nx out ks)
        = (Ok false,
           World fs arr nx
             (out ++ ["  Loading LBP cascade";
                      "* LBP cascade is empty - mrgaze installation problem"]) ks)).
Proof.
  intros data_dir subj_sess v_stub cfg fs arr nx out ks vin. split.
  - intros Hvin. unfold mrgaze.VideoPupilometry. cbv zeta.
    fold (vin_path_of data_dir subj_sess v_stub cfg). fold vin.
    unfold mbind at 1, M_bind at 1, isfile at 1. cbn [files].
    rewrite bool_decide_eq_false_2 by (rewrite Hvin; intros [x Hx]; discriminate Hx).
    reflexivity.
  - intros Hvin Hcas. unfold mrgaze.VideoPupilometry. cbv zeta.
    fold (vin_path_of data_dir subj_sess v_stub cfg). fold vin.
    unfold mbind at 1, M_bind at 1, isfile at 1. cbn [files].
    rewrite bool_decide_eq_true_2 by exact Hvin. cbn [negb].
    run_print. rewrite Hcas. run_print. cbn. rewrite <- app_assoc. reflexivity.
Qed.

(** X7.  When the raw series of the video exists and overwriting is
    off, [VideoPupilometry] says so, changes nothing and returns [True]:
    the video is not opened and the existing series is not touched. *)
Theorem VideoPupilometry_keeps_existing_series :
  forall data_dir subj_sess v_stub cfg fs arr nx out ks,
    let vin := vin_path_of data_dir subj_sess v_stub cfg in
    let raw := pupils_raw_csv_of data_dir subj_sess v_stub in
    is_Some (fs !! vin) -> cascade_empty = false ->
    is_Some (fs !! raw) -> OUTPUT_overwrite cfg = false ->
    mrgaze.VideoPupilometry data_dir subj_sess v_stub cfg (World fs arr nx out ks)
    = (Ok true,
       World fs arr nx
         (out ++ ["  Loading LBP cascade";
                  "+ Pupilometry output already exists - checking overwrite flag";
                  "+ Overwrite forbidden - skipping pupilometry"]) ks).
Proof.
  intros data_dir subj_sess v_stub cfg fs arr nx out ks vin raw Hvin Hcas Hraw Hov.
  unfold mrgaze.VideoPupilometry. cbv zeta.
  fold (vin_path_of data_dir subj_sess v_stub cfg).
  fold (pupils_raw_csv_of data_dir subj_sess v_stub). fold vin raw.
  unfold mbind at 1, M_bind at 1, isfile at 1. cbn [files].
  rewrite bool_decide_eq_true_2 by exact Hvin. cbn [negb].
  run_print. rewrite Hcas.
  unfold mbind at 1, M_bind at 1, isfile at 1. cbn [files].
  rewrite bool_decide_eq_true_2 by exact Hraw. rewrite Hov. cbn [negb andb].
  run_print. run_print. cbn. rewrite <- !app_assoc. reflexivity.
Qed.









End Video.

Lemma VideoPupilometry_early_return_witness :
  @mrgaze.VideoPupilometry filter_libs "data" "s1" "gaze" (example_cfg "otsu")
    (World ∅ ∅ 0 [] [])
  = (Ok false,
     World ∅ ∅ 0 ([] ++ ["* " +:+ "data/s1/videos/gaze.mov"
                          +:+ " does not exist - returning"]) [])
  /\ @mrgaze.VideoPupilometry no_cascade_libs "data" "s1" "gaze" (example_cfg "otsu")
       (World (example_video 1) ∅ 0 [] [])
     = (Ok false,
        World (example_video 1) ∅ 0
          ([] ++ ["  Loading LBP cascade";
                  "* LBP cascade is empty - mrgaze installation problem"]) []).
Proof.
  split.
  - destruct (@VideoPupilometry_early_return filter_libs "data" "s1" "gaze"
                (example_cfg "otsu") ∅ ∅ 0%nat [] []) as [H _].
    apply H. reflexivity.
  - destruct (@VideoPupilometry_early_return no_cascade_libs "data" "s1" "gaze"
                (example_cfg "otsu") (example_video 1) ∅ 0%nat [] []) as [_ H].
    apply H; [vm_compute; eauto | reflexivity].
Defined.

Lemma VideoPupilometry_keeps_existing_series_witness :
  let fs := <["data/s1/results/gaze_pupils_raw.csv" := Csv example_raw]>
              (example_video 1) in
  @mrgaze.VideoPupilometry filter_libs "data" "s1" "gaze" keep_cfg (World fs ∅ 0 [] [])
  = (Ok true,
     World fs ∅ 0
       ([] ++ ["  Loading LBP cascade";
               "+ Pupilometry output already exists - checking overwrite flag";
               "+ Overwrite forbidden - skipping pupilometry"]) []).
Proof.
  apply (@VideoPupilometry_keeps_existing_series filter_libs "data" "s1" "gaze" keep_cfg).
  - vm_compute. eauto.
  - reflexivity.
  - vm_compute. eauto.
  - reflexivity.
Defined.







Lemma float_int_nan (x : float) :
  PrimFloat.is_nan x = true ->
  float_int x = Raise (ValueError "cannot convert float NaN to integer").
Proof. intros H. apply is_nan_spec in H. unfold float_int. rewrite H. reflexivity. Qed.

Lemma add_nan_l (x y : float) :
  PrimFloat.is_nan x = true -> PrimFloat.is_nan (PrimFloat.add x y) = true.
Proof.
  intros H. apply is_nan_spec in H. apply is_nan_spec.
  rewrite FloatAxioms.add_spec, H. reflexivity.
Qed.

(** X14.  [OverlayPupil] raises [ValueError] on an ellipse whose
    centre has a NaN [x0], whatever the axes, the ROI and the pseudo-glint,
    and does not return either when [y0] is NaN; in particular it raises
    on the no-pupil ellipse that the engine returns for a blink, which is
    why the frame loop calls it for the other frames only. *)
Theorem OverlayPupil_needs_a_centre :
  forall (x0 y0 a b phi : float) (roi_rect : roi_rect) (pglint : float * float),
    (PrimFloat.is_nan x0 = true ->
     mrgaze.OverlayPupil ((x0, y0), (a, b), phi) roi_rect pglint
     = Raise (ValueError "cannot convert float NaN to integer"))
    /\ (PrimFloat.is_nan y0 = true ->
        is_ok (mrgaze.OverlayPupil ((x0, y0), (a, b), phi) roi_rect pglint) = false)
    /\ mrgaze.OverlayPupil nan_ellipse roi_rect pglint
       = Raise (ValueError "cannot convert float NaN to integer").
Proof.
  intros x0 y0 a b phi roi_rect pglint. split; [| split].
  - intros H. unfold mrgaze.OverlayPupil.
    rewrite (float_int_nan _ (add_nan_l x0 _ H)). reflexivity.
  - intros H. unfold mrgaze.OverlayPupil.
    destruct (float_int (PrimFloat.add x0 _)); [| reflexivity].
    cbn [mbind result_bind]. rewrite (float_int_nan y0 H). reflexivity.
  - reflexivity.
Qed.

Lemma OverlayPupil_witness :
  mrgaze.OverlayPupil ((np_nan, 2%float), (1%float, 1%float), 0%float) nan_rect
    (0%float, 0%float)
  = Raise (ValueError "cannot convert float NaN to integer")
  /\ is_ok (mrgaze.OverlayPupil ((2%float, np_nan), (1%float, 1%float), 0%float) nan_rect
              (0%float, 0%float)) = false.
Proof.
  split.
  - destruct (OverlayPupil_needs_a_centre np_nan 2 1 1 0 nan_rect (0%float, 0%float))
      as (H & _ & _).
    apply H. reflexivity.
  - destruct (OverlayPupil_needs_a_centre 2 np_nan 1 1 0 nan_rect (0%float, 0%float))
      as (_ & H & _).
    apply H. reflexivity.
Defined.

Section RoundTrip.
Context {L : Libs}.

Lemma raw_line_read_back t el blink art pg :
  map mrgaze.parse_field (raw_line t el blink art pg)
  = row_read_back (t, el, blink, art, pg).
Proof. destruct blink; reflexivity. Qed.

Lemma run_write_records arr nx out ks s (recs : list record) :
  Forall (fun rec => area_in_range rec = true) recs ->
  forall fs lines0,
    fs !! s = Some (Csv lines0) ->
    write_records s recs (World fs arr nx out ks)
    = (Ok tt,
       World (<[s := Csv (lines0
                          ++ map (fun '(t, el, blink, art, pg) =>
                                    raw_line t el blink art pg) recs)]> fs)
         arr nx out ks).
Proof.
  induction 1 as [| [[[[t el] blink] art] pg] recs Ha _ IH]; intros fs lines0 Hs.
  - cbn. rewrite app_nil_r, insert_id by exact Hs. reflexivity.
  - cbn [write_records map]. cbn in Ha.
    rewrite (bind_run _ _ _ _ _ (run_WritePupilometry _ _ _ _ _ _ _ _ _ _ _ _ Ha Hs)).
    rewrite (IH _ (lines0 ++ [raw_line t el blink art pg]) (lookup_insert_eq _ _ _)).
    rewrite insert_insert_eq, <- app_assoc. reflexivity.
Qed.

(** X15.  A series of two records or more (each with the area of
    its ellipse in range) written by [WritePupilometry] to a freshly opened
    stream is read back by
    [ReadPupilometry] as one row per record, in order, of nine columns: the
    eight values as their text reads, the blink flag as exactly 0.0 or 1.0,
    and a ninth column of NaN, which the comma at the end of every line
    makes. *)
Theorem raw_series_reads_back :
  forall fs arr nx out ks (stream : string) (recs : list record),
    (2 <= length recs)%nat ->
    Forall (fun rec => area_in_range rec = true) recs ->
    exists w1 rows,
      (mrgaze.open_w stream ≫= fun s => write_records s recs) (World fs arr nx out ks)
      = (Ok tt, w1)
      /\ mrgaze.ReadPupilometry stream w1
         = (Ok nx, World (files w1) (<[nx := A2 rows]> arr) (S nx) out ks)
      /\ length rows = length recs
      /\ (forall i rec, recs !! i = Some rec -> rows !! i = Some (row_read_back rec))
      /\ Forall (fun row =>
                   length row = 9%nat
                   /\ (row !! 4%nat = Some 0%float \/ row !! 4%nat = Some 1%float)
                   /\ exists x, row !! 8%nat = Some x /\ PrimFloat.is_nan x = true)
                rows.
Proof.
  intros fs arr nx out ks stream recs Hlen Harea.
  set (lines := map (fun '(t, el, blink, art, pg) => raw_line t el blink art pg) recs).
  exists (World (<[stream := Csv lines]> fs) arr nx out ks), (map row_read_back recs).
  assert (Hrows : map (map mrgaze.parse_field) lines = map row_read_back recs).
  { unfold lines. rewrite List.map_map. apply List.map_ext.
    intros [[[[t el] blink] art] pg]. apply raw_line_read_back. }
  split; [| split; [| split; [| split]]].
  - unfold mrgaze.open_w.
    unfold mbind at 1, M_bind at 1. unfold mbind at 1, M_bind at 1, get_world at 1.
    unfold mbind at 1, M_bind at 1, set_files at 1.
    cbn [files arrays next_array stdout keys mret M_ret].
    rewrite (run_write_records arr nx out ks stream recs Harea _ []
               (lookup_insert_eq _ _ _)).
    rewrite insert_insert_eq. reflexivity.
  - cbn [files]. unfold mrgaze.ReadPupilometry.
    destruct recs as [| r0 [| r1 recs]]; [cbn in Hlen; lia | cbn in Hlen; lia |].
    apply (run_genfromtxt _ _ _ _ _ _ lines (row_read_back r0) (row_read_back r1)
             (map row_read_back recs) 9%nat (lookup_insert_eq _ _ _) Hrows).
    change (Forall (fun r : list float => length r = 9%nat)
              (map row_read_back (r0 :: r1 :: recs))).
    apply Forall_fmap, Forall_forall. intros [[[[t el] blink] art] pg] _. reflexivity.
  - apply List.length_map.
  - intros i rec Hi. change (map row_read_back recs) with (row_read_back <$> recs).
    rewrite list_lookup_fmap, Hi. reflexivity.
  - apply Forall_fmap, Forall_forall. intros [[[[t el] blink] art] pg] _.
    split; [reflexivity |]. split.
    + destruct blink; [right | left]; reflexivity.
    + exists np_nan. split; reflexivity.
Qed.

End RoundTrip.

Lemma raw_series_reads_back_witness :
  exists w1 rows,
    (mrgaze.open_w "raw.csv" ≫= fun s =>
       @write_records filter_libs s
         [(0%float, nan_ellipse, true, 0.5%float, (0%float, 0%float));
          (0.125%float, ((3%float, 4%float), (1%float, 2%float), 0%float), false,
           0.25%float, (0%float, 0%float))])
      (World ∅ ∅ 0 [] [])
    = (Ok tt, w1)
    /\ @mrgaze.ReadPupilometry filter_libs "raw.csv" w1
       = (Ok 0%nat, World (files w1) (<[0%nat := A2 rows]> ∅) 1 [] [])
    /\ length rows = 2%nat.
Proof.
  destruct (@raw_series_reads_back filter_libs ∅ ∅ 0%nat [] [] "raw.csv"
              [(0%float, nan_ellipse, true, 0.5%float, (0%float, 0%float));
               (0.125%float, ((3%float, 4%float), (1%float, 2%float), 0%float), false,
                0.25%float, (0%float, 0%float))])
    as (w1 & rows & H1 & H2 & H3 & _);
    [cbn; lia | repeat constructor |].
  exists w1, rows. auto.
Defined.




Section Unpack.
Context {L : Libs}.


End Unpack.








Section Kmeans.
Context {L : Libs}.


End Kmeans.


Lemma run_add_section (section : string) (config : ConfigParser.t) :
  String.eqb (ConfigParser.lower section) "default" = false ->
  ConfigParser._sections config !! section = None ->
  ConfigParser.add_section section config
  = (ConfigParser.Done tt,
     ConfigParser.Parser (ConfigParser._defaults config)
       (<[section := ∅]> (ConfigParser._sections config))).
Proof.
  intros Hd Hs. unfold ConfigParser.add_section. rewrite Hd.
  rewrite bool_decide_eq_false_2 by (rewrite Hs; intros [x Hx]; discriminate Hx).
  reflexivity.
Qed.


Lemma run_set (section option value option' : string) (config : ConfigParser.t)
    (sectdict : gmap string string) :
  String.eqb section "" || String.eqb section "DEFAULT" = false ->
  ConfigParser.optionxform option = option' ->
  ConfigParser._sections config !! section = Some sectdict ->
  ConfigParser.set section option value config
  = (ConfigParser.Done tt,
     ConfigParser.Parser (ConfigParser._defaults config)
       (<[section := <[option' := value]> sectdict]> (ConfigParser._sections config))).
Proof. intros Hd <- Hs. unfold ConfigParser.set. rewrite Hd, Hs. reflexivity. Qed.

Lemma op_bind_run {A B} (f : A -> ConfigParser.op B) (m : ConfigParser.op A)
    (c c' : ConfigParser.t) (a : A) :
  m c = (ConfigParser.Done a, c') -> (m ≫= f) c = f a c'.
Proof. intros H. unfold mbind, ConfigParser.op_bind. rewrite H. reflexivity. Qed.


Ltac step_add H :=
  erewrite op_bind_run;
  [| apply run_add_section;
     [reflexivity
     | cbn [ConfigParser._sections]; rewrite ?lookup_insert_ne by discriminate;
       exact H]];
  cbn [ConfigParser._defaults ConfigParser._sections].

Ltac run_set_here :=
  eapply run_set;
  [reflexivity | vm_compute; reflexivity
  | cbn [ConfigParser._sections]; apply lookup_insert_eq].

Ltac step_set :=
  erewrite op_bind_run; [| run_set_here];
  cbn [ConfigParser._defaults ConfigParser._sections]; rewrite insert_insert_eq.

Lemma InitConfig_fresh (config : ConfigParser.t) :
  ConfigParser._sections config !! "VIDEO" = None ->
  ConfigParser._sections config !! "RANSAC" = None ->
  ConfigParser._sections config !! "LBP" = None ->
  gtIO.InitConfig config = (ConfigParser.Done tt, with_defaults config).
Proof.
  intros HV HR HL. destruct config as [dflt sects]. cbn in HV, HR, HL.
  unfold gtIO.InitConfig, with_defaults.
  cbn [ConfigParser._defaults ConfigParser._sections].
  step_add HV. step_set. step_set.
  step_add HR. step_set. step_set. step_set.
  step_add HL.
  etransitivity; [run_set_here |].
  cbn [ConfigParser._defaults ConfigParser._sections]. rewrite insert_insert_eq.
  reflexivity.
Qed.

Lemma with_defaults_lookup (config : ConfigParser.t) :
  ConfigParser._sections (with_defaults config) !! "VIDEO" = Some default_VIDEO
  /\ ConfigParser._sections (with_defaults config) !! "RANSAC" = Some default_RANSAC
  /\ ConfigParser._sections (with_defaults config) !! "LBP" = Some default_LBP
  /\ (forall section,
        section <> "VIDEO" -> section <> "RANSAC" -> section <> "LBP" ->
        ConfigParser._sections (with_defaults config) !! section
        = ConfigParser._sections config !! section).
Proof.
  unfold with_defaults. cbn [ConfigParser._sections]. split; [| split; [| split]].
  - rewrite !lookup_insert_ne by discriminate. apply lookup_insert_eq.
  - rewrite lookup_insert_ne by discriminate. apply lookup_insert_eq.
  - apply lookup_insert_eq.
  - intros section H1 H2 H3. rewrite !lookup_insert_ne by congruence. reflexivity.
Qed.

(** X18.  On a parser that has none of the sections [VIDEO],
    [RANSAC] and [LBP], [InitConfig] adds the three with their default
    options and leaves the other sections and the defaults as they are;
    the options are stored under lower-case names and read back whatever
    the case of the name asked for. *)
Theorem InitConfig_adds_defaults :
  forall (config : ConfigParser.t),
    ConfigParser._sections config !! "VIDEO" = None ->
    ConfigParser._sections config !! "RANSAC" = None ->
    ConfigParser._sections config !! "LBP" = None ->
    exists config',
      gtIO.InitConfig config = (ConfigParser.Done tt, config')
      /\ ConfigParser._sections config' !! "VIDEO"
         = Some {["inputextension" := ".mov"; "outputextension" := ".mov"]}
      /\ ConfigParser._sections config' !! "RANSAC"
         = Some {["maxiterations" := "5"; "maxrefinements" := "3";
                  "maxinlierperc" := "95"]}
      /\ ConfigParser._sections config' !! "LBP" = Some {["strictness" := "40"]}
      /\ (forall section,
            section <> "VIDEO" -> section <> "RANSAC" -> section <> "LBP" ->
            ConfigParser._sections config' !! section
            = ConfigParser._sections config !! section)
      /\ ConfigParser._defaults config' = ConfigParser._defaults config
      /\ forall _interpolate,
           ConfigParser.get _interpolate config' "VIDEO" "InputExtension"
           = ConfigParser.Done ".mov"
           /\ ConfigParser.get _interpolate config' "RANSAC" "maxiterations"
              = ConfigParser.Done "5"
           /\ ConfigParser.get _interpolate config' "LBP" "STRICTNESS"
              = ConfigParser.Done "40".
Proof.
  intros config HV HR HL. exists (with_defaults config).
  destruct (with_defaults_lookup config) as (LV & LR & LL & Lo).
  split; [apply InitConfig_fresh; assumption |].
  split; [exact LV |]. split; [exact LR |]. split; [exact LL |]. split; [exact Lo |].
  split; [reflexivity |].
  intros interp. unfold ConfigParser.get. rewrite LV, LR, LL. repeat split.
Qed.

Lemma InitConfig_adds_defaults_witness :
  exists config',
    gtIO.InitConfig ConfigParser.new = (ConfigParser.Done tt, config')
    /\ ConfigParser._sections config' !! "LBP" = Some {["strictness" := "40"]}.
Proof.
  destruct (InitConfig_adds_defaults ConfigParser.new)
    as (config' & H1 & _ & _ & H2 & _); [reflexivity | reflexivity | reflexivity |].
  exists config'. split; assumption.
Defined.



Lemma LoadConfig_cases :
  forall (root_dir : string) (fs : gmap string ConfigParser.text),
    let cfg_file := path_join root_dir "geetee.cfg" in
    (fs !! cfg_file = None ->
     gtIO.LoadConfig root_dir fs
     = (ConfigParser.Done (with_defaults ConfigParser.new),
        <[cfg_file := ConfigParser.Done (with_defaults ConfigParser.new)]> fs))
    /\ (forall st,
          fs !! cfg_file = Some (ConfigParser.Done st) ->
          gtIO.LoadConfig root_dir fs = (ConfigParser.Done st, fs))
    /\ (forall e,
          fs !! cfg_file = Some (ConfigParser.Raised e) ->
          gtIO.LoadConfig root_dir fs = (ConfigParser.Raised e, fs))
    /\ (forall config fs',
          gtIO.LoadConfig root_dir fs = (ConfigParser.Done config, fs') ->
          gtIO.LoadConfig root_dir fs' = (ConfigParser.Done config, fs')).
Proof.
  intros root_dir fs cfg_file. unfold ConfigParser.text in *.
  assert (Hnew : fs !! cfg_file = None ->
            gtIO.LoadConfig root_dir fs
            = (ConfigParser.Done (with_defaults ConfigParser.new),
               <[cfg_file := ConfigParser.Done (with_defaults ConfigParser.new)]> fs)).
  { intros Hf. unfold gtIO.LoadConfig. fold cfg_file. cbv zeta. unfold ConfigParser.text in *. rewrite Hf.
    rewrite InitConfig_fresh by reflexivity. reflexivity. }
  assert (Hread : forall (fs0 : gmap string ConfigParser.text) st,
            fs0 !! cfg_file = Some (ConfigParser.Done st) ->
            gtIO.LoadConfig root_dir fs0 = (ConfigParser.Done st, fs0)).
  { intros fs0 [dflt sects] Hf. unfold gtIO.LoadConfig. fold cfg_file. cbv zeta. unfold ConfigParser.text in *.
    rewrite Hf. unfold ConfigParser.read, ConfigParser.new.
    cbn [ConfigParser._defaults ConfigParser._sections].
    rewrite (right_id ∅ (∪)). 
    rewrite (right_id ∅ (union_with _)). reflexivity. }
  split; [exact Hnew |]. split; [apply Hread |]. split.
  - intros e Hf. unfold gtIO.LoadConfig. fold cfg_file. cbv zeta. unfold ConfigParser.text in *. rewrite Hf. reflexivity.
  - intros config fs' Hrun.
    destruct (fs !! cfg_file) as [[st | e] |] eqn:Hf.
    + rewrite (Hread fs st Hf) in Hrun. injection Hrun as <- <-. apply Hread, Hf.
    + exfalso. revert Hrun. unfold gtIO.LoadConfig. fold cfg_file. cbv zeta. unfold ConfigParser.text in *.
      rewrite Hf. discriminate.
    + rewrite (Hnew eq_refl) in Hrun. injection Hrun as <- <-.
      apply Hread, lookup_insert_eq.
Qed.

(** X20.  [LoadConfig] on a directory without [geetee.cfg] returns
    the defaults of [InitConfig] and writes them to that file; on a
    directory with the file it returns what the file holds and writes
    nothing (a file that cannot be parsed makes it raise).  So a second
    call returns the configuration of the first and leaves the files as
    they are. *)
Theorem LoadConfig_creates_or_reads :
  forall (root_dir : string) (fs : gmap string ConfigParser.text),
    let cfg_file := path_join root_dir "geetee.cfg" in
    (fs !! cfg_file = None ->
     gtIO.LoadConfig root_dir fs
     = (ConfigParser.Done (with_defaults ConfigParser.new),
        <[cfg_file := ConfigParser.Done (with_defaults ConfigParser.new)]> fs))
    /\ (forall st,
          fs !! cfg_file = Some (ConfigParser.Done st) ->
          gtIO.LoadConfig root_dir fs = (ConfigParser.Done st, fs))
    /\ (forall e,
          fs !! cfg_file = Some (ConfigParser.Raised e) ->
          gtIO.LoadConfig root_dir fs = (ConfigParser.Raised e, fs))
    /\ (forall config fs',
          gtIO.LoadConfig root_dir fs = (ConfigParser.Done config, fs') ->
          gtIO.LoadConfig root_dir fs' = (ConfigParser.Done config, fs')).
Proof. exact LoadConfig_cases. Qed.

Lemma LoadConfig_creates_or_reads_witness :
  gtIO.LoadConfig "data" ∅
  = (ConfigParser.Done (with_defaults ConfigParser.new),
     <[path_join "data" "geetee.cfg"
         := ConfigParser.Done (with_defaults ConfigParser.new)]> ∅)
  /\ gtIO.LoadConfig "data"
       {["data/geetee.cfg" := ConfigParser.Done (output_cfg "yes" "no")]}
     = (ConfigParser.Done (output_cfg "yes" "no"),
        {["data/geetee.cfg" := ConfigParser.Done (output_cfg "yes" "no")]}).
Proof.
  split.
  - destruct (LoadConfig_creates_or_reads "data" ∅) as (H & _). apply H. reflexivity.
  - destruct (LoadConfig_creates_or_reads "data"
                {["data/geetee.cfg" := ConfigParser.Done (output_cfg "yes" "no")]})
      as (_ & H & _).
    apply H. reflexivity.
Defined.

Lemma append_not_empty (d s : string) (a : ascii) :
  String.eqb (d +:+ String a s) "" = false.
Proof. destruct d; reflexivity. Qed.

Lemma cut_last_cons (sep a : ascii) (p : string) :
  os_path.cut_last sep (String a p)
  = let '(h, t) := os_path.cut_last sep p in
    if negb (String.eqb h "") then (String a h, t)
    else if Ascii.eqb a sep then (String a EmptyString, t)
    else (EmptyString, String a t).
Proof. reflexivity. Qed.

Lemma rstrip_cons (c a : ascii) (s : string) :
  os_path.rstrip c (String a s)
  = if Ascii.eqb a c && String.eqb (os_path.rstrip c s) "" then EmptyString
    else String a (os_path.rstrip c s).
Proof. reflexivity. Qed.

Lemma cut_last_plain (sep : ascii) (s : string) :
  contains sep s = false -> os_path.cut_last sep s = (EmptyString, s).
Proof.
  induction s as [| a s IH]; [reflexivity |]. cbn [contains]. rewrite cut_last_cons.
  intros H. apply orb_false_iff in H as [Ha Hs]. rewrite (IH Hs), Ha. reflexivity.
Qed.

Lemma cut_last_app (sep : ascii) (d s : string) :
  contains sep s = false ->
  os_path.cut_last sep (d +:+ String sep s) = (d +:+ String sep EmptyString, s).
Proof.
  intros Hs. induction d as [| a d IH].
  - change (EmptyString +:+ String sep s) with (String sep s).
    rewrite cut_last_cons, (cut_last_plain sep s Hs).
    cbn [negb String.eqb]. rewrite Ascii.eqb_refl. reflexivity.
  - change (String a d +:+ String sep s) with (String a (d +:+ String sep s)).
    rewrite cut_last_cons, IH.
    rewrite append_not_empty. reflexivity.
Qed.

Lemma rstrip_app (c : ascii) (d : string) :
  os_path.rstrip c (d +:+ String c EmptyString) = os_path.rstrip c d.
Proof.
  induction d as [| a d IH].
  - change (EmptyString +:+ String c EmptyString) with (String c EmptyString).
    rewrite rstrip_cons. cbn [os_path.rstrip]. rewrite Ascii.eqb_refl. reflexivity.
  - change (String a d +:+ String c EmptyString)
      with (String a (d +:+ String c EmptyString)).
    rewrite !rstrip_cons, IH. reflexivity.
Qed.

Lemma rstrip_plain (c : ascii) (d : string) (z : ascii) :
  last_char d = Some z -> z <> c -> os_path.rstrip c d = d.
Proof.
  intros Hz Hne. induction d as [| a d IH]; [discriminate Hz |].
  rewrite rstrip_cons. destruct d as [| b d].
  - cbn in Hz. injection Hz as ->. cbn.
    destruct (Ascii.eqb_spec z c); [contradiction | reflexivity].
  - rewrite (IH Hz). rewrite andb_false_r. reflexivity.
Qed.

Lemma split_dir_name (d s : string) (z : ascii) :
  last_char d = Some z -> z <> "/"%char -> contains "/" s = false ->
  os_path.split (d +:+ "/" +:+ s) = (d, s).
Proof.
  intros Hz Hne Hs. unfold os_path.split.
  change (d +:+ "/" +:+ s) with (d +:+ String "/" s).
  rewrite (cut_last_app "/" d s Hs).
  rewrite append_not_empty, rstrip_app, (rstrip_plain "/" d z Hz Hne).
  destruct d; [discriminate Hz | reflexivity].
Qed.

Lemma split_trailing (p : string) :
  os_path.split (p +:+ "/")
  = (if String.eqb (os_path.rstrip "/" p) "" then p +:+ "/" else os_path.rstrip "/" p,
     EmptyString).
Proof.
  unfold os_path.split.
  rewrite (cut_last_app "/" p EmptyString eq_refl).
  rewrite append_not_empty, rstrip_app. cbn [negb andb].
  destruct (String.eqb (os_path.rstrip "/" p) ""); reflexivity.
Qed.

Section Single.
Variable pipeline_RunSingle : string -> string -> M unit.
Variable os_getcwd : string.
Variable datetime_now : string.

Lemma main_run (ss_dir : string) (prog : string) (rest : list string) fs arr nx out ks :
  gt_single.main pipeline_RunSingle os_getcwd datetime_now (prog :: ss_dir :: rest)
    (World fs arr nx out ks)
  = pipeline_RunSingle (fst (os_path.split ss_dir)) (snd (os_path.split ss_dir))
      (World fs arr nx
         (out ++ splash datetime_now (fst (os_path.split ss_dir))
                   (snd (os_path.split ss_dir))) ks).
Proof.
  unfold gt_single.main. cbn [length Nat.ltb Nat.leb lookup list_lookup default from_option id].
  destruct (os_path.split ss_dir) as [data_dir subj_sess]. cbn [fst snd].
  unfold mbind, M_bind, print. cbn [files arrays next_array stdout keys].
  rewrite <- !app_assoc. reflexivity.
Qed.

(** X21.  Called with the session directory [d/s], where [s] has
    no slash and [d] does not end in one, [main] prints the splash and runs
    the pipeline with the data directory [d] and the subject/session name
    [s]; called without an argument it does the same with the working
    directory. *)
Theorem main_splits_session_directory :
  forall (prog d s : string) (z : ascii) (rest : list string) fs arr nx out ks,
    last_char d = Some z -> z <> "/"%char -> contains "/" s = false ->
    gt_single.main pipeline_RunSingle os_getcwd datetime_now
      (prog :: (d +:+ "/" +:+ s) :: rest) (World fs arr nx out ks)
    = pipeline_RunSingle d s
        (World fs arr nx (out ++ splash datetime_now d s) ks)
    /\ (os_getcwd = d +:+ "/" +:+ s ->
        gt_single.main pipeline_RunSingle os_getcwd datetime_now [prog]
          (World fs arr nx out ks)
        = pipeline_RunSingle d s
            (World fs arr nx (out ++ splash datetime_now d s) ks)).
Proof.
  intros prog d s z rest fs arr nx out ks Hz Hne Hs. split.
  - rewrite main_run, (split_dir_name d s z Hz Hne Hs). reflexivity.
  - intros Hcwd.
    change (gt_single.main pipeline_RunSingle os_getcwd datetime_now [prog])
      with (gt_single.main pipeline_RunSingle os_getcwd datetime_now
              [prog; os_getcwd]).
    rewrite main_run, Hcwd, (split_dir_name d s z Hz Hne Hs). reflexivity.
Qed.

(** X22.  Called with a session directory that ends in a slash,
    [main] runs the pipeline with an empty subject/session name; the data
    directory it passes is then the session directory itself (without the
    slash) and not its parent. *)
Theorem main_trailing_slash :
  forall (prog p : string) (rest : list string) fs arr nx out ks,
    exists data_dir,
      gt_single.main pipeline_RunSingle os_getcwd datetime_now
        (prog :: (p +:+ "/") :: rest) (World fs arr nx out ks)
      = pipeline_RunSingle data_dir ""
          (World fs arr nx (out ++ splash datetime_now data_dir "") ks)
      /\ (forall z, last_char p = Some z -> z <> "/"%char -> data_dir = p).
Proof.
  intros prog p rest fs arr nx out ks.
  eexists. rewrite main_run, split_trailing. cbn [fst snd]. split; [reflexivity |].
  intros z Hz Hne. rewrite (rstrip_plain "/" p z Hz Hne).
  destruct p; [discriminate Hz | reflexivity].
Qed.

End Single.


Lemma main_splits_session_directory_witness :
  gt_single.main report_session "/home" "now" ["gt_single"; "/Data/Subject_0001"]
    (World ∅ ∅ 0 [] [])
  = report_session "/Data" "Subject_0001"
      (World ∅ ∅ 0 ([] ++ splash "now" "/Data" "Subject_0001") []).
Proof.
  destruct (main_splits_session_directory report_session "/home" "now" "gt_single"
              "/Data" "Subject_0001" "a"%char [] ∅ ∅ 0%nat [] [])
    as [H _]; [reflexivity | discriminate | reflexivity |].
  exact H.
Defined.

Lemma main_trailing_slash_witness :
  exists data_dir,
    gt_single.main report_session "/home" "now" ["gt_single"; "/Data/Subject_0001/"]
      (World ∅ ∅ 0 [] [])
    = report_session data_dir ""
        (World ∅ ∅ 0 ([] ++ splash "now" data_dir "") [])
    /\ data_dir = "/Data/Subject_0001".
Proof.
  destruct (main_trailing_slash report_session "/home" "now" "gt_single"
              "/Data/Subject_0001" [] ∅ ∅ 0%nat [] []) as (data_dir & H1 & H2).
  exists data_dir. split; [exact H1 |].
  apply (H2 "1"%char); [reflexivity | discriminate].
Defined.










Section Geetee.
Context {L : Libs}.
Variable artifact_of : float -> Z.






End Geetee.

Section GeeteeConfig.
Context {L : Libs}.
Variable artifact_of : float -> Z.
Variable _interpolate
  : ConfigParser.t -> string -> string -> string -> ConfigParser.outcome string.

Lemma getboolean_no_section (config : ConfigParser.t) (section option : string) :
  ConfigParser._sections config !! section = None ->
  String.eqb section "DEFAULT" = false ->
  ConfigParser.getboolean _interpolate config section option
  = ConfigParser.Raised (ConfigParser.NoSectionError section).
Proof.
  intros Hs Hd. unfold ConfigParser.getboolean, ConfigParser.get. rewrite Hs, Hd.
  reflexivity.
Qed.

(** X23.  The geetee [VideoPupilometry] starts by reading the flags
    [verbose] and [graphics] of the section [OUTPUT], so on a configuration
    without that section it raises [NoSectionError] before it looks at the
    video.  The configuration [InitConfig] builds has no such section, and
    neither has the one [LoadConfig] returns for a directory without
    [geetee.cfg]: the default configuration cannot run the analysis. *)
Theorem VideoPupilometry_needs_OUTPUT_section :
  forall (vin_path res_dir : string),
    (forall config,
       ConfigParser._sections config !! "OUTPUT" = None ->
       geetee.VideoPupilometry artifact_of _interpolate vin_path res_dir config
       = ConfigParser.Raised (ConfigParser.NoSectionError "OUTPUT"))
    /\ (forall config',
          gtIO.InitConfig ConfigParser.new = (ConfigParser.Done tt, config') ->
          geetee.VideoPupilometry artifact_of _interpolate vin_path res_dir config'
          = ConfigParser.Raised (ConfigParser.NoSectionError "OUTPUT"))
    /\ (forall root_dir (fs fs' : gmap string ConfigParser.text) config,
          fs !! path_join root_dir "geetee.cfg" = None ->
          gtIO.LoadConfig root_dir fs = (ConfigParser.Done config, fs') ->
          geetee.VideoPupilometry artifact_of _interpolate vin_path res_dir config
          = ConfigParser.Raised (ConfigParser.NoSectionError "OUTPUT")).
Proof.
  intros vin_path res_dir.
  assert (H : forall config,
            ConfigParser._sections config !! "OUTPUT" = None ->
            geetee.VideoPupilometry artifact_of _interpolate vin_path res_dir config
            = ConfigParser.Raised (ConfigParser.NoSectionError "OUTPUT")).
  { intros config Hs. unfold geetee.VideoPupilometry.
    rewrite (getboolean_no_section config "OUTPUT" "verbose" Hs eq_refl). reflexivity. }
  assert (Hd : ConfigParser._sections (with_defaults ConfigParser.new) !! "OUTPUT" = None).
  { destruct (with_defaults_lookup ConfigParser.new) as (_ & _ & _ & Ho).
    rewrite Ho by discriminate. reflexivity. }
  split; [exact H |]. split.
  - intros config' Hinit. rewrite InitConfig_fresh in Hinit by reflexivity.
    injection Hinit as <-. apply H, Hd.
  - intros root_dir fs fs' config Hf Hload.
    destruct (LoadConfig_cases root_dir fs) as (Hnew & _).
    rewrite (Hnew Hf) in Hload. injection Hload as <- _. apply H, Hd.
Qed.

End GeeteeConfig.

Section GeeteeRun.
Context {L : Libs}.
Variable artifact_of : float -> Z.
Variable _interpolate
  : ConfigParser.t -> string -> string -> string -> ConfigParser.outcome string.


(** What the flags of the section [OUTPUT] are read as. *)
Lemma VideoPupilometry_flags (config : ConfigParser.t) (verbose graphics : bool)
    (vin_path res_dir : string) :
  ConfigParser.getboolean _interpolate config "OUTPUT" "verbose"
  = ConfigParser.Done verbose ->
  ConfigParser.getboolean _interpolate config "OUTPUT" "graphics"
  = ConfigParser.Done graphics ->
  geetee.VideoPupilometry artifact_of _interpolate vin_path res_dir config
  = ConfigParser.Done (geetee.VideoPupilometry_run artifact_of verbose graphics vin_path).
Proof.
  intros Hv Hg. unfold geetee.VideoPupilometry. rewrite Hv, Hg. reflexivity.
Qed.


(** X25.  With the two output flags readable, the geetee analysis
    returns [False] and leaves every file as it is when the input video
    does not exist, and when the LBP cascade is empty; it prints the
    reason. *)
Theorem geetee_run_without_video :
  forall (config : ConfigParser.t) (verbose graphics : bool)
         (vin_path res_dir : string) fs arr nx out ks,
    ConfigParser.getboolean _interpolate config "OUTPUT" "verbose"
    = ConfigParser.Done verbose ->
    ConfigParser.getboolean _interpolate config "OUTPUT" "graphics"
    = ConfigParser.Done graphics ->
    exists run,
      geetee.VideoPupilometry artifact_of _interpolate vin_path res_dir config
      = ConfigParser.Done run
      /\ (fs !! vin_path = None ->
          run (World fs arr nx out ks)
          = (Ok false,
             World fs arr nx
               (out ++ ["* Input video file does not exist - returning"]) ks))
      /\ (is_Some (fs !! vin_path) -> cascade_empty = true ->
          run (World fs arr nx out ks)
          = (Ok false,
             World fs arr nx
               (out ++ ["LBP cascade is empty - geetee installation problem"]) ks)).
Proof.
  intros config verbose graphics vin_path res_dir fs arr nx out ks Hv Hg.
  exists (geetee.VideoPupilometry_run artifact_of verbose graphics vin_path).
  split; [exact (VideoPupilometry_flags config verbose graphics vin_path res_dir Hv Hg) |].
  split.
  - intros Hvin. unfold geetee.VideoPupilometry_run.
    unfold mbind at 1, M_bind at 1, isfile at 1. cbn [files].
    rewrite bool_decide_eq_false_2 by (rewrite Hvin; intros [x Hx]; discriminate Hx).
    reflexivity.
  - intros Hvin Hcas. unfold geetee.VideoPupilometry_run.
    unfold mbind at 1, M_bind at 1, isfile at 1. cbn [files].
    rewrite bool_decide_eq_true_2 by exact Hvin. cbn [negb]. rewrite Hcas.
    reflexivity.
Qed.

End GeeteeRun.


Lemma VideoPupilometry_needs_OUTPUT_section_witness :
  @geetee.VideoPupilometry filter_libs example_artifact no_interpolation
    "data/gaze.mov" "results" (with_defaults ConfigParser.new)
  = ConfigParser.Raised (ConfigParser.NoSectionError "OUTPUT")
  /\ forall config,
       fst (gtIO.LoadConfig "data" ∅) = ConfigParser.Done config ->
       @geetee.VideoPupilometry filter_libs example_artifact no_interpolation
         "data/gaze.mov" "results" config
       = ConfigParser.Raised (ConfigParser.NoSectionError "OUTPUT").
Proof.
  destruct (@VideoPupilometry_needs_OUTPUT_section filter_libs example_artifact
              no_interpolation "data/gaze.mov" "results") as (H1 & H2 & H3).
  split.
  - apply H2. apply InitConfig_fresh; reflexivity.
  - intros config Hc.
    apply (H3 "data" ∅ (snd (gtIO.LoadConfig "data" ∅)) config); [reflexivity |].
    rewrite <- Hc. destruct (gtIO.LoadConfig "data" ∅). reflexivity.
Defined.


Lemma geetee_run_without_video_witness :
  exists run,
    @geetee.VideoPupilometry filter_libs example_artifact no_interpolation
      "data/gaze.mov" "results" (output_cfg "no" "off")
    = ConfigParser.Done run
    /\ run (World ∅ ∅ 0 [] [])
       = (Ok false,
          World ∅ ∅ 0 ([] ++ ["* Input video file does not exist - returning"]) []).
Proof.
  destruct (@geetee_run_without_video filter_libs example_artifact no_interpolation
              (output_cfg "no" "off") false false "data/gaze.mov" "results"
              ∅ ∅ 0%nat [] [])
    as (run & H0 & H1 & _).
  - vm_compute. reflexivity.
  - vm_compute. reflexivity.
  - exists run. split; [exact H0 |]. apply H1. reflexivity.
Defined.
